(** * Smart-city core: devices, commands, invoker and notification fan-out

    A shallow embedding of
      - [app/models/device.py]                    (devices and their mutators),
      - [app/controllers/city_controller.py]      (the device registry),
      - [app/commands/infrastructure_commands.py] (commands and the invoker),
      - [app/services/notification_service.py]    (observers and the subject),
    followed by the properties established about them.

    Python objects that are shared by reference (command objects held by the
    invoker, observers held by the subject) live in stores indexed by an
    object identity; dictionaries are finite maps from strings to values. *)

From stdpp Require Import gmap strings list fin_maps pretty.
From Stdlib Require Import ZArith Lia.
From Stdlib Require Import Sorting.Sorted.
From Stdlib Require OrderedTypeEx.

#[local] Set Warnings "-register-all".
#[local] Open Scope Z_scope.

(** ** Python values *)

Inductive value :=
| VNone
| VBool (b : bool)
| VInt (z : Z)
| VStr (s : string)
| VDict (d : gmap string value).

(** A [dict] with string keys. *)
Abbreviation Dict := (gmap string value).

(** Truth value of an object, as tested by [if x:]. *)
Definition truthy (v : value) : bool :=
  match v with
  | VNone => false
  | VBool b => b
  | VInt z => negb (z =? 0)
  | VStr s => negb (String.eqb s EmptyString)
  | VDict d => negb (bool_decide (d = ∅))
  end.

(** [x in [s1, s2, ...]] for string literals [s1, s2, ...]: only a [str]
    compares equal to a [str]. *)
Definition in_strings (v : value) (choices : list string) : bool :=
  match v with
  | VStr s => bool_decide (s ∈ choices)
  | _ => false
  end.

(** [l[start:]], with Python's treatment of a negative or oversized start. *)
Definition slice_from {A} (start : Z) (l : list A) : list A :=
  let n := Z.of_nat (length l) in
  let i := if start <? 0 then Z.max 0 (n + start) else Z.min start n in
  drop (Z.to_nat i) l.

(** Exceptions.  [except Exception] catches the first kind only;
    [KeyboardInterrupt], [SystemExit] and the like derive from
    [BaseException] alone. *)
Inductive PyErr :=
| PyException (cls msg : string)
| PyBaseException (cls msg : string).

Definition is_Exception (e : PyErr) : bool :=
  match e with PyException _ _ => true | PyBaseException _ _ => false end.

(** [str(e)] *)
Definition err_str (e : PyErr) : string :=
  match e with PyException _ m | PyBaseException _ m => m end.

Inductive outcome (A : Type) :=
| Returned (a : A)
| Raised (e : PyErr).
Arguments Returned {A} a.
Arguments Raised {A} e.

(** Process-wide effects every method may use: the number of
    [datetime.now()] calls made so far and the lines printed. *)
Record Sys := { ticks : nat; stdout : list string }.

(** ** Devices ([app/models/device.py]) *)

Inductive DeviceStatus := ACTIVE | INACTIVE | MAINTENANCE | ERROR.

Inductive DeviceType :=
| STREET_LIGHT | TRAFFIC_SIGNAL | SECURITY_CAMERA | WATER_METER | POWER_METER.

#[global] Instance DeviceStatus_eq_dec : EqDecision DeviceStatus.
Proof. solve_decision. Defined.

(** Fields of the [Device] base dataclass. *)
Record Device := {
  device_id : string;
  name : string;
  device_type : option DeviceType;
  status : DeviceStatus;
  location : string;
  last_updated : Z;
  metadata : Dict }.

Record StreetLight := {
  light_base : Device;
  brightness : Z;
  auto_mode : bool }.

Record TrafficSignal := {
  signal_base : Device;
  current_signal : string;
  cycle_duration : Z }.

Record SecurityCamera := {
  camera_base : Device;
  recording : bool;
  motion_detection : bool;
  resolution : string }.

(** An object stored in the registry. *)
Inductive AnyDevice :=
| Light (l : StreetLight)
| Signal (t : TrafficSignal)
| Camera (c : SecurityCamera).

(** ** Commands ([app/commands/infrastructure_commands.py]) *)

(** The dict [{'status': ..., 'brightness': ...}] saved by [LightOnCommand]. *)
Record PreviousState := { prev_status : DeviceStatus; prev_brightness : Z }.

(** A command object: its constructor arguments and its saved state.
    [_controller] is the [CityController] singleton and [_banking] the
    banking collaborator; both are part of the world below. *)
Inductive Command :=
| LightOnCommand (_device_id : string) (_brightness : Z)
                 (_previous_state : option PreviousState)
| LightOffCommand (_device_id : string) (_previous_brightness : option Z)
| TrafficGreenCommand (_device_id : string) (_previous_signal : option string)
| TrafficRedCommand (_device_id : string) (_previous_signal : option string)
| ProcessPaymentCommand (_resident_id : string) (_amount : value)
                        (_currency _payment_type _description : string)
                        (_transaction_id : value).

(** Entry of [CommandInvoker._history]: [h_command] is the identity of the
    command object. *)
Record HistoryEntry := {
  h_command : nat;
  h_result : Dict;
  h_timestamp : string }.

Record CommandInvoker := {
  _history : list HistoryEntry;
  _undo_stack : list nat }.

(** ** Observers and the subject ([app/services/notification_service.py]) *)

(** Any further subclass of the abstract [Observer]: its [update] acts on the
    instance attributes, may read the clock and print, and returns or
    raises. *)
Record ObserverClass := {
  cls_update : Dict -> Dict -> Sys -> outcome unit * Dict * Sys;
  cls_get_type : string }.

Inductive Observer :=
| SecurityObserver (_alerts : list Dict)
| TransactionObserver (_notifications : list Dict)
| EmergencyObserver (_emergencies : list Dict)
| UserObserver (cls : ObserverClass) (attrs : Dict).

Record NotificationService := {
  _observers : list nat;
  _notifications : list Dict;
  _security_alerts : list Dict }.

(** ** What the embedding takes from its surroundings

    The wall clock, the text renderings the f-strings rely on and the banking
    collaborator ([BankingController], reached only through
    [ProcessPaymentCommand]). *)
Class Platform := {
  wall_clock : nat -> Z;
  isoformat : Z -> string;
  dict_str : Dict -> string;
  Bank : Type;
  process_payment : string -> value -> string -> string -> string ->
                    Bank -> Dict * Bank;
  refund_transaction : value -> Bank -> Dict * Bank }.

Section Embedding.
Context `{Platform}.

(** ** The world: everything the methods below read and write *)
Record World := {
  sys : Sys;
  _devices : gmap string AnyDevice;   (* CityController._devices *)
  commands : gmap nat Command;        (* command objects, by identity *)
  observers : gmap nat Observer;      (* observer objects, by identity *)
  invoker : CommandInvoker;
  service : NotificationService;
  bank : Bank }.

Definition with_sys (s : Sys) (w : World) : World :=
  {| sys := s; _devices := _devices w; commands := commands w;
     observers := observers w; invoker := invoker w; service := service w;
     bank := bank w |}.
Definition with_devices (d : gmap string AnyDevice) (w : World) : World :=
  {| sys := sys w; _devices := d; commands := commands w;
     observers := observers w; invoker := invoker w; service := service w;
     bank := bank w |}.
Definition with_commands (c : gmap nat Command) (w : World) : World :=
  {| sys := sys w; _devices := _devices w; commands := c;
     observers := observers w; invoker := invoker w; service := service w;
     bank := bank w |}.
Definition with_observers (o : gmap nat Observer) (w : World) : World :=
  {| sys := sys w; _devices := _devices w; commands := commands w;
     observers := o; invoker := invoker w; service := service w;
     bank := bank w |}.
Definition with_invoker (i : CommandInvoker) (w : World) : World :=
  {| sys := sys w; _devices := _devices w; commands := commands w;
     observers := observers w; invoker := i; service := service w;
     bank := bank w |}.
Definition with_service (s : NotificationService) (w : World) : World :=
  {| sys := sys w; _devices := _devices w; commands := commands w;
     observers := observers w; invoker := invoker w; service := s;
     bank := bank w |}.
Definition with_bank (b : Bank) (w : World) : World :=
  {| sys := sys w; _devices := _devices w; commands := commands w;
     observers := observers w; invoker := invoker w; service := service w;
     bank := b |}.

(** ** A monad for methods: state passing plus exceptions *)
Definition Py (A : Type) : Type := World -> outcome A * World.

#[global] Instance Py_ret : MRet Py := fun A a w => (Returned a, w).
#[global] Instance Py_bind : MBind Py := fun A B k m w =>
  match m w with
  | (Returned a, w') => k a w'
  | (Raised e, w') => (Raised e, w')
  end.

Definition raise {A} (e : PyErr) : Py A := fun w => (Raised e, w).
Definition gets {A} (f : World -> A) : Py A := fun w => (Returned (f w), w).
Definition modify (f : World -> World) : Py unit := fun w => (Returned tt, f w).

(** [try: body except Exception as e: handler(e)] *)
Definition try_except_Exception {A} (body : Py A) (handler : PyErr -> Py A) : Py A :=
  fun w =>
    match body w with
    | (Raised e, w') => if is_Exception e then handler e w' else (Raised e, w')
    | r => r
    end.

(** [datetime.now()] *)
Definition datetime_now : Py Z := fun w =>
  let s := sys w in
  (Returned (wall_clock (ticks s)),
   with_sys {| ticks := S (ticks s); stdout := stdout s |} w).

(** [print(line)] *)
Definition print (line : string) : Py unit := fun w =>
  let s := sys w in
  (Returned tt, with_sys {| ticks := ticks s; stdout := stdout s ++ [line] |} w).

(** [str(v)], as the f-strings apply it. *)
Definition py_str (v : value) : string :=
  match v with
  | VNone => "None"
  | VBool true => "True"
  | VBool false => "False"
  | VInt z => pretty z
  | VStr s => s
  | VDict d => dict_str d
  end.

(** ** Device methods ([app/models/device.py]) *)

Definition Device_set_status (st : DeviceStatus) (d : Device) : Device :=
  {| device_id := device_id d; name := name d; device_type := device_type d;
     status := st; location := location d; last_updated := last_updated d;
     metadata := metadata d |}.

Definition Device_set_last_updated (t : Z) (d : Device) : Device :=
  {| device_id := device_id d; name := name d; device_type := device_type d;
     status := status d; location := location d; last_updated := t;
     metadata := metadata d |}.

Definition Device_set_device_type (ty : DeviceType) (d : Device) : Device :=
  {| device_id := device_id d; name := name d; device_type := Some ty;
     status := status d; location := location d;
     last_updated := last_updated d; metadata := metadata d |}.

(** [Device.update_status] *)
Definition Device_update_status (st : DeviceStatus) (self : Device) : Py Device :=
  now ← datetime_now;
  mret (Device_set_last_updated now (Device_set_status st self)).

(** The dataclass constructors with every optional field left at its
    default; [created] is the value of the [last_updated] default factory.
    (An empty [device_id] would be replaced by a fresh uuid.) *)
Definition Device_new (device_id name : string) (created : Z) : Device :=
  {| device_id := device_id; name := name; device_type := None;
     status := INACTIVE; location := "Unknown"; last_updated := created;
     metadata := ∅ |}.

Definition StreetLight_new (device_id name : string) (created : Z) : StreetLight :=
  {| light_base := Device_set_device_type STREET_LIGHT
                     (Device_new device_id name created);
     brightness := 0; auto_mode := true |}.

Definition TrafficSignal_new (device_id name : string) (created : Z) : TrafficSignal :=
  {| signal_base := Device_set_device_type TRAFFIC_SIGNAL
                      (Device_new device_id name created);
     current_signal := "red"; cycle_duration := 60 |}.

Definition SecurityCamera_new (device_id name : string) (created : Z) : SecurityCamera :=
  {| camera_base := Device_set_device_type SECURITY_CAMERA
                      (Device_new device_id name created);
     recording := false; motion_detection := true; resolution := "1080p" |}.

(** Attribute assignments [self.x = v] on the three device classes. *)
Definition light_map_base (f : Device -> Device) (self : StreetLight) : StreetLight :=
  {| light_base := f (light_base self); brightness := brightness self;
     auto_mode := auto_mode self |}.
Definition light_set_brightness (b : Z) (self : StreetLight) : StreetLight :=
  {| light_base := light_base self; brightness := b; auto_mode := auto_mode self |}.

Definition signal_map_base (f : Device -> Device) (self : TrafficSignal) : TrafficSignal :=
  {| signal_base := f (signal_base self); current_signal := current_signal self;
     cycle_duration := cycle_duration self |}.
Definition signal_set_current_signal (s : string) (self : TrafficSignal) : TrafficSignal :=
  {| signal_base := signal_base self; current_signal := s;
     cycle_duration := cycle_duration self |}.

Definition camera_map_base (f : Device -> Device) (self : SecurityCamera) : SecurityCamera :=
  {| camera_base := f (camera_base self); recording := recording self;
     motion_detection := motion_detection self; resolution := resolution self |}.
Definition camera_set_recording (r : bool) (self : SecurityCamera) : SecurityCamera :=
  {| camera_base := camera_base self; recording := r;
     motion_detection := motion_detection self; resolution := resolution self |}.
Definition camera_set_motion_detection (m : bool) (self : SecurityCamera) : SecurityCamera :=
  {| camera_base := camera_base self; recording := recording self;
     motion_detection := m; resolution := resolution self |}.

(** *** StreetLight *)

Definition StreetLight_activate (self : StreetLight) : Py (bool * StreetLight) :=
  let self := light_map_base (Device_set_status ACTIVE) self in
  let self := light_set_brightness 100 self in
  now ← datetime_now;
  let self := light_map_base (Device_set_last_updated now) self in
  mret (true, self).

Definition StreetLight_deactivate (self : StreetLight) : Py (bool * StreetLight) :=
  let self := light_map_base (Device_set_status INACTIVE) self in
  let self := light_set_brightness 0 self in
  now ← datetime_now;
  let self := light_map_base (Device_set_last_updated now) self in
  mret (true, self).

Definition StreetLight_set_brightness (level : Z) (self : StreetLight)
  : Py (bool * StreetLight) :=
  if (0 <=? level) && (level <=? 100) then
    let self := light_set_brightness level self in
    let self := light_map_base
                  (Device_set_status (if 0 <? level then ACTIVE else INACTIVE))
                  self in
    now ← datetime_now;
    let self := light_map_base (Device_set_last_updated now) self in
    mret (true, self)
  else mret (false, self).

(** *** TrafficSignal *)

Definition TrafficSignal_activate (self : TrafficSignal) : Py (bool * TrafficSignal) :=
  let self := signal_map_base (Device_set_status ACTIVE) self in
  let self := signal_set_current_signal "green" self in
  now ← datetime_now;
  let self := signal_map_base (Device_set_last_updated now) self in
  mret (true, self).

(** "Deactivate traffic signal (set to blinking red)" *)
Definition TrafficSignal_deactivate (self : TrafficSignal) : Py (bool * TrafficSignal) :=
  let self := signal_map_base (Device_set_status INACTIVE) self in
  let self := signal_set_current_signal "red" self in
  now ← datetime_now;
  let self := signal_map_base (Device_set_last_updated now) self in
  mret (true, self).

Definition TrafficSignal_set_signal (signal : string) (self : TrafficSignal)
  : Py (bool * TrafficSignal) :=
  if bool_decide (signal ∈ ["red"; "yellow"; "green"]) then
    let self := signal_set_current_signal signal self in
    let self := signal_map_base (Device_set_status ACTIVE) self in
    now ← datetime_now;
    let self := signal_map_base (Device_set_last_updated now) self in
    mret (true, self)
  else mret (false, self).

(** *** SecurityCamera *)

Definition SecurityCamera_activate (self : SecurityCamera) : Py (bool * SecurityCamera) :=
  let self := camera_map_base (Device_set_status ACTIVE) self in
  let self := camera_set_recording true self in
  now ← datetime_now;
  let self := camera_map_base (Device_set_last_updated now) self in
  mret (true, self).

Definition SecurityCamera_deactivate (self : SecurityCamera) : Py (bool * SecurityCamera) :=
  let self := camera_map_base (Device_set_status INACTIVE) self in
  let self := camera_set_recording false self in
  now ← datetime_now;
  let self := camera_map_base (Device_set_last_updated now) self in
  mret (true, self).

Definition SecurityCamera_toggle_motion_detection (self : SecurityCamera)
  : Py (bool * SecurityCamera) :=
  let self := camera_set_motion_detection (negb (motion_detection self)) self in
  now ← datetime_now;
  let self := camera_map_base (Device_set_last_updated now) self in
  mret (motion_detection self, self).

(** *** Dynamic dispatch on a registered object *)

Definition base_of (d : AnyDevice) : Device :=
  match d with
  | Light l => light_base l
  | Signal t => signal_base t
  | Camera c => camera_base c
  end.

(** [device.activate()] *)
Definition Device_activate (d : AnyDevice) : Py (bool * AnyDevice) :=
  match d with
  | Light l => '(r, l') ← StreetLight_activate l; mret (r, Light l')
  | Signal t => '(r, t') ← TrafficSignal_activate t; mret (r, Signal t')
  | Camera c => '(r, c') ← SecurityCamera_activate c; mret (r, Camera c')
  end.

(** [device.deactivate()] *)
Definition Device_deactivate (d : AnyDevice) : Py (bool * AnyDevice) :=
  match d with
  | Light l => '(r, l') ← StreetLight_deactivate l; mret (r, Light l')
  | Signal t => '(r, t') ← TrafficSignal_deactivate t; mret (r, Signal t')
  | Camera c => '(r, c') ← SecurityCamera_deactivate c; mret (r, Camera c')
  end.

(** [hasattr(device, 'set_brightness')] and [hasattr(device, 'set_signal')] *)
Definition has_set_brightness (d : AnyDevice) : bool :=
  match d with Light _ => true | _ => false end.
Definition has_set_signal (d : AnyDevice) : bool :=
  match d with Signal _ => true | _ => false end.

(** [getattr(device, 'brightness', default)] *)
Definition getattr_brightness (d : AnyDevice) (default : Z) : Z :=
  match d with Light l => brightness l | _ => default end.
(** [getattr(device, 'current_signal', default)] *)
Definition getattr_current_signal (d : AnyDevice) (default : string) : string :=
  match d with Signal t => current_signal t | _ => default end.

(** [device.set_brightness(level)]; a class without the method raises. *)
Definition Device_set_brightness (level : Z) (d : AnyDevice) : Py (bool * AnyDevice) :=
  match d with
  | Light l => '(r, l') ← StreetLight_set_brightness level l; mret (r, Light l')
  | _ => raise (PyException "AttributeError" "object has no attribute 'set_brightness'")
  end.

(** [device.set_signal(signal)]; a class without the method raises. *)
Definition Device_set_signal (signal : string) (d : AnyDevice) : Py (bool * AnyDevice) :=
  match d with
  | Signal t => '(r, t') ← TrafficSignal_set_signal signal t; mret (r, Signal t')
  | _ => raise (PyException "AttributeError" "object has no attribute 'set_signal'")
  end.

(** ** The registry ([CityController], device management) *)

(** [CityController.get_device]: [self._devices.get(device_id)] *)
Definition get_device (device_id : string) : Py (option AnyDevice) :=
  gets (fun w => _devices w !! device_id).

(** The object bound to [device_id] is replaced by its state after a method
    call: mutation through the reference the registry holds. *)
Definition write_device (device_id : string) (d : AnyDevice) : Py unit :=
  modify (fun w => with_devices (<[device_id := d]> (_devices w)) w).

(** ** Commands ([app/commands/infrastructure_commands.py]) *)

(** [d.get(key, default)] *)
Definition dict_get (d : Dict) (key : string) (dflt : value) : value :=
  default dflt (d !! key).

(** [v.get(key)] on an arbitrary object: only a dict has the method. *)
Definition value_get (v : value) (key : string) : Py value :=
  match v with
  | VDict d => mret (dict_get d key VNone)
  | _ => raise (PyException "AttributeError" "object has no attribute 'get'")
  end.

(** Dereference a command object. *)
Definition load_command (self : nat) : Py Command :=
  c ← gets (fun w => commands w !! self);
  match c with
  | Some c => mret c
  | None => raise (PyException "ReferenceError" "no such object")
  end.

(** Attribute assignment on the command object [self]. *)
Definition store_command (self : nat) (c : Command) : Py unit :=
  modify (fun w => with_commands (<[self := c]> (commands w)) w).

(** *** LightOnCommand *)

Definition LightOnCommand_execute (self : nat) (_device_id : string) (_brightness : Z)
  : Py Dict :=
  device ← get_device _device_id;
  match device with
  | Some device =>
      (* Store previous state for undo *)
      _ ← store_command self
            (LightOnCommand _device_id _brightness
               (Some {| prev_status := status (base_of device);
                        prev_brightness := getattr_brightness device 0 |}));
      '(result, device) ← Device_activate device;
      _ ← write_device _device_id device;
      _ ← (if has_set_brightness device then
             '(_, device) ← Device_set_brightness _brightness device;
             write_device _device_id device
           else mret tt);
      now ← datetime_now;
      mret ({[ "success" := VBool result;
               "device_id" := VStr _device_id;
               "action" := VStr "light_on";
               "brightness" := VInt _brightness;
               "timestamp" := VStr (isoformat now) ]} : Dict)
  | None =>
      mret ({[ "success" := VBool false;
               "error" := VStr ("Device " +:+ _device_id +:+ " not found") ]} : Dict)
  end.

(** "Restore previous light state" *)
Definition LightOnCommand_undo (_device_id : string)
    (_previous_state : option PreviousState) : Py Dict :=
  let no_state : Dict :=
    {[ "success" := VBool false; "error" := VStr "No previous state to restore" ]} in
  if bool_decide (is_Some _previous_state) then
    device ← get_device _device_id;
    match device with
    | Some device =>
        '(_, device) ← Device_deactivate device;
        _ ← write_device _device_id device;
        mret ({[ "success" := VBool true; "action" := VStr "undo_light_on" ]} : Dict)
    | None => mret no_state
    end
  else mret no_state.

Definition LightOnCommand_get_description (_device_id : string) (_brightness : Z)
  : string :=
  "Turn on light " +:+ _device_id +:+ " at " +:+ pretty _brightness +:+ "% brightness".

(** *** LightOffCommand *)

Definition LightOffCommand_execute (self : nat) (_device_id : string) : Py Dict :=
  device ← get_device _device_id;
  match device with
  | Some device =>
      _ ← store_command self
            (LightOffCommand _device_id (Some (getattr_brightness device 100)));
      '(result, device) ← Device_deactivate device;
      _ ← write_device _device_id device;
      now ← datetime_now;
      mret ({[ "success" := VBool result;
               "device_id" := VStr _device_id;
               "action" := VStr "light_off";
               "timestamp" := VStr (isoformat now) ]} : Dict)
  | None =>
      mret ({[ "success" := VBool false;
               "error" := VStr ("Device " +:+ _device_id +:+ " not found") ]} : Dict)
  end.

(** Truth value of [self._previous_brightness]: [None] and [0] are false. *)
Definition previous_brightness_truthy (p : option Z) : bool :=
  match p with Some b => truthy (VInt b) | None => truthy VNone end.

(** "Restore previous light state" *)
Definition LightOffCommand_undo (_device_id : string)
    (_previous_brightness : option Z) : Py Dict :=
  device ← get_device _device_id;
  match device, _previous_brightness with
  | Some device, Some previous =>
      if previous_brightness_truthy _previous_brightness then
        '(_, device) ← Device_activate device;
        _ ← write_device _device_id device;
        _ ← (if has_set_brightness device then
               '(_, device) ← Device_set_brightness previous device;
               write_device _device_id device
             else mret tt);
        mret ({[ "success" := VBool true; "action" := VStr "undo_light_off" ]} : Dict)
      else mret ({[ "success" := VBool false; "error" := VStr "Cannot undo" ]} : Dict)
  | _, _ => mret ({[ "success" := VBool false; "error" := VStr "Cannot undo" ]} : Dict)
  end.

Definition LightOffCommand_get_description (_device_id : string) : string :=
  "Turn off light " +:+ _device_id.

(** *** TrafficGreenCommand and TrafficRedCommand *)

Definition TrafficGreenCommand_execute (self : nat) (_device_id : string) : Py Dict :=
  device ← get_device _device_id;
  match device with
  | Some device =>
      if has_set_signal device then
        _ ← store_command self
              (TrafficGreenCommand _device_id
                 (Some (getattr_current_signal device "red")));
        '(result, device) ← Device_set_signal "green" device;
        _ ← write_device _device_id device;
        now ← datetime_now;
        mret ({[ "success" := VBool result;
                 "device_id" := VStr _device_id;
                 "action" := VStr "traffic_green";
                 "signal" := VStr "green";
                 "timestamp" := VStr (isoformat now) ]} : Dict)
      else
        mret ({[ "success" := VBool false;
                 "error" := VStr ("Traffic signal " +:+ _device_id +:+ " not found") ]}
              : Dict)
  | None =>
      mret ({[ "success" := VBool false;
               "error" := VStr ("Traffic signal " +:+ _device_id +:+ " not found") ]}
            : Dict)
  end.

Definition TrafficRedCommand_execute (self : nat) (_device_id : string) : Py Dict :=
  device ← get_device _device_id;
  match device with
  | Some device =>
      if has_set_signal device then
        _ ← store_command self
              (TrafficRedCommand _device_id
                 (Some (getattr_current_signal device "green")));
        '(result, device) ← Device_set_signal "red" device;
        _ ← write_device _device_id device;
        now ← datetime_now;
        mret ({[ "success" := VBool result;
                 "device_id" := VStr _device_id;
                 "action" := VStr "traffic_red";
                 "signal" := VStr "red";
                 "timestamp" := VStr (isoformat now) ]} : Dict)
      else
        mret ({[ "success" := VBool false;
                 "error" := VStr ("Traffic signal " +:+ _device_id +:+ " not found") ]}
              : Dict)
  | None =>
      mret ({[ "success" := VBool false;
               "error" := VStr ("Traffic signal " +:+ _device_id +:+ " not found") ]}
            : Dict)
  end.

(** Truth value of [self._previous_signal]: [None] and [''] are false. *)
Definition previous_signal_truthy (p : option string) : bool :=
  match p with Some s => truthy (VStr s) | None => truthy VNone end.

(** "Restore previous signal state"; [action] is ['undo_traffic_green'] or
    ['undo_traffic_red'], the only difference between the two classes. *)
Definition Traffic_undo (action : string) (_device_id : string)
    (_previous_signal : option string) : Py Dict :=
  let cannot : Dict := {[ "success" := VBool false; "error" := VStr "Cannot undo" ]} in
  match _previous_signal with
  | Some previous =>
      if previous_signal_truthy _previous_signal then
        device ← get_device _device_id;
        match device with
        | Some device =>
            if has_set_signal device then
              '(_, device) ← Device_set_signal previous device;
              _ ← write_device _device_id device;
              mret ({[ "success" := VBool true; "action" := VStr action ]} : Dict)
            else mret cannot
        | None => mret cannot
        end
      else mret cannot
  | None => mret cannot
  end.

Definition TrafficGreenCommand_undo := Traffic_undo "undo_traffic_green".
Definition TrafficRedCommand_undo := Traffic_undo "undo_traffic_red".

Definition TrafficGreenCommand_get_description (_device_id : string) : string :=
  "Set traffic signal " +:+ _device_id +:+ " to green".
Definition TrafficRedCommand_get_description (_device_id : string) : string :=
  "Set traffic signal " +:+ _device_id +:+ " to red".

(** *** ProcessPaymentCommand *)

(** A call into the banking collaborator. *)
Definition banking {A} (op : Bank -> A * Bank) : Py A := fun w =>
  let '(a, b) := op (bank w) in (Returned a, with_bank b w).

Definition ProcessPaymentCommand_execute (self : nat) (_resident_id : string)
    (_amount : value) (_currency _payment_type _description : string) : Py Dict :=
  result ← banking (process_payment _resident_id _amount _currency
                      _payment_type _description);
  _ ← (if truthy (dict_get result "success" VNone) then
         transaction_id ← value_get (dict_get result "transaction" (VDict ∅))
                                    "transaction_id";
         store_command self
           (ProcessPaymentCommand _resident_id _amount _currency _payment_type
              _description transaction_id)
       else mret tt);
  mret result.

(** "Refund the payment" *)
Definition ProcessPaymentCommand_undo (_transaction_id : value) : Py Dict :=
  if truthy _transaction_id then
    banking (refund_transaction _transaction_id)
  else
    mret ({[ "success" := VBool false;
             "error" := VStr "No transaction to refund" ]} : Dict).

Definition ProcessPaymentCommand_get_description (_payment_type : string)
    (_amount : value) (_currency : string) : string :=
  "Process " +:+ _payment_type +:+ " payment of " +:+ py_str _amount
    +:+ " " +:+ _currency.

(** *** The [Command] interface: dispatch on the class of the object *)

Definition Command_execute (self : nat) : Py Dict :=
  c ← load_command self;
  match c with
  | LightOnCommand device_id brightness _ =>
      LightOnCommand_execute self device_id brightness
  | LightOffCommand device_id _ => LightOffCommand_execute self device_id
  | TrafficGreenCommand device_id _ => TrafficGreenCommand_execute self device_id
  | TrafficRedCommand device_id _ => TrafficRedCommand_execute self device_id
  | ProcessPaymentCommand resident_id amount currency payment_type description _ =>
      ProcessPaymentCommand_execute self resident_id amount currency payment_type
        description
  end.

Definition Command_undo (self : nat) : Py Dict :=
  c ← load_command self;
  match c with
  | LightOnCommand device_id _ previous_state =>
      LightOnCommand_undo device_id previous_state
  | LightOffCommand device_id previous_brightness =>
      LightOffCommand_undo device_id previous_brightness
  | TrafficGreenCommand device_id previous_signal =>
      TrafficGreenCommand_undo device_id previous_signal
  | TrafficRedCommand device_id previous_signal =>
      TrafficRedCommand_undo device_id previous_signal
  | ProcessPaymentCommand _ _ _ _ _ transaction_id =>
      ProcessPaymentCommand_undo transaction_id
  end.

(** [get_description()] of each class. *)
Definition describe (c : Command) : string :=
  match c with
  | LightOnCommand device_id brightness _ =>
      LightOnCommand_get_description device_id brightness
  | LightOffCommand device_id _ => LightOffCommand_get_description device_id
  | TrafficGreenCommand device_id _ =>
      TrafficGreenCommand_get_description device_id
  | TrafficRedCommand device_id _ =>
      TrafficRedCommand_get_description device_id
  | ProcessPaymentCommand _ amount currency payment_type _ _ =>
      ProcessPaymentCommand_get_description payment_type amount currency
  end.

Definition Command_get_description (self : nat) : Py string :=
  c ← load_command self;
  mret (describe c).

(** The constructors: a new object with nothing saved yet. *)
Definition fresh_command (c : Command) : bool :=
  match c with
  | LightOnCommand _ _ None
  | LightOffCommand _ None
  | TrafficGreenCommand _ None
  | TrafficRedCommand _ None
  | ProcessPaymentCommand _ _ _ _ _ VNone => true
  | _ => false
  end.

(** [self._device_id], for the commands that have the attribute. *)
Definition target_device (c : Command) : option string :=
  match c with
  | LightOnCommand device_id _ _
  | LightOffCommand device_id _
  | TrafficGreenCommand device_id _
  | TrafficRedCommand device_id _ => Some device_id
  | ProcessPaymentCommand _ _ _ _ _ _ => None
  end.

(** *** CommandInvoker *)

Definition CommandInvoker_execute (command : nat) : Py Dict :=
  result ← Command_execute command;
  now ← datetime_now;
  _ ← modify (fun w =>
        with_invoker
          {| _history := _history (invoker w) ++
                           [{| h_command := command; h_result := result;
                               h_timestamp := isoformat now |}];
             _undo_stack := _undo_stack (invoker w) |} w);
  _ ← modify (fun w =>
        with_invoker
          {| _history := _history (invoker w);
             _undo_stack := _undo_stack (invoker w) ++ [command] |} w);
  mret result.

Definition CommandInvoker_undo : Py (option Dict) :=
  stack ← gets (fun w => _undo_stack (invoker w));
  match last stack with
  | Some command =>
      _ ← modify (fun w =>
            with_invoker
              {| _history := _history (invoker w);
                 _undo_stack := take (length stack - 1) stack |} w);
      r ← Command_undo command;
      mret (Some r)
  | None => mret None
  end.

(** One element of the list [get_history] builds. *)
Definition history_view (h : HistoryEntry) : Py Dict :=
  description ← Command_get_description (h_command h);
  mret ({[ "command" := VStr description;
           "success" := dict_get (h_result h) "success" (VBool false);
           "timestamp" := VStr (h_timestamp h) ]} : Dict).

Definition CommandInvoker_get_history (limit : Z) : Py (list Dict) :=
  history ← gets (fun w => _history (invoker w));
  mapM history_view (slice_from (- limit) history).

(** ** Observers ([app/services/notification_service.py]) *)

(** [SecurityObserver.update]: the new value of [self._alerts]. *)
Definition SecurityObserver_update (notification : Dict) (_alerts : list Dict)
  : Py (list Dict) :=
  if in_strings (dict_get notification "type" VNone) ["security"; "emergency"] then
    now ← datetime_now;
    let _alerts :=
      _alerts ++ [<["status" := VStr "received"]>
                    (<["processed_at" := VStr (isoformat now)]> notification)] in
    _ ← print ("[SECURITY ALERT] " +:+ py_str (dict_get notification "message" VNone));
    mret _alerts
  else mret _alerts.

(** [TransactionObserver.update]: the new value of [self._notifications]. *)
Definition TransactionObserver_update (notification : Dict) (_notifications : list Dict)
  : Py (list Dict) :=
  if in_strings (dict_get notification "type" VNone) ["transaction"] then
    now ← datetime_now;
    let _notifications :=
      _notifications ++ [<["processed_at" := VStr (isoformat now)]> notification] in
    _ ← print ("[TRANSACTION] " +:+ py_str (dict_get notification "message" VNone));
    mret _notifications
  else mret _notifications.

(** [EmergencyObserver.update]: the new value of [self._emergencies]. *)
Definition EmergencyObserver_update (notification : Dict) (_emergencies : list Dict)
  : Py (list Dict) :=
  if in_strings (dict_get notification "type" VNone) ["emergency"] then
    now ← datetime_now;
    let emergency :=
      <["escalated_at" := VStr (isoformat now)]>
        (<["escalated" := VBool true]> notification) in
    let _emergencies := _emergencies ++ [emergency] in
    _ ← print ("[EMERGENCY] Escalating: "
                 +:+ py_str (dict_get notification "message" VNone));
    mret _emergencies
  else mret _emergencies.

(** [update(notification)] on the observer object [o], started in the world
    [w]: the outcome of the call, the object afterwards and the world the
    call leaves. *)
Definition run_update (notification : Dict) (o : Observer) (w : World)
  : outcome unit * Observer * World :=
  match o with
  | SecurityObserver alerts =>
      match SecurityObserver_update notification alerts w with
      | (Returned alerts', w') => (Returned tt, SecurityObserver alerts', w')
      | (Raised e, w') => (Raised e, o, w')
      end
  | TransactionObserver ns =>
      match TransactionObserver_update notification ns w with
      | (Returned ns', w') => (Returned tt, TransactionObserver ns', w')
      | (Raised e, w') => (Raised e, o, w')
      end
  | EmergencyObserver es =>
      match EmergencyObserver_update notification es w with
      | (Returned es', w') => (Returned tt, EmergencyObserver es', w')
      | (Raised e, w') => (Raised e, o, w')
      end
  | UserObserver cls attrs =>
      let '(r, attrs', s') := cls_update cls notification attrs (sys w) in
      (r, UserObserver cls attrs', with_sys s' w)
  end.

(** [observer.update(notification)] on the object with identity [self]. *)
Definition Observer_update (self : nat) (notification : Dict) : Py unit := fun w =>
  match observers w !! self with
  | Some o =>
      let '(r, o', w') := run_update notification o w in
      (r, with_observers (<[self := o']> (observers w')) w')
  | None => (Raised (PyException "ReferenceError" "no such object"), w)
  end.

(** [observer.get_type()] *)
Definition Observer_get_type (o : Observer) : string :=
  match o with
  | SecurityObserver _ => "security"
  | TransactionObserver _ => "transaction"
  | EmergencyObserver _ => "emergency"
  | UserObserver cls _ => cls_get_type cls
  end.

(** ** NotificationService *)

Definition svc_set_observers (l : list nat) (s : NotificationService) :=
  {| _observers := l; _notifications := _notifications s;
     _security_alerts := _security_alerts s |}.
Definition svc_set_notifications (l : list Dict) (s : NotificationService) :=
  {| _observers := _observers s; _notifications := l;
     _security_alerts := _security_alerts s |}.
Definition svc_set_security_alerts (l : list Dict) (s : NotificationService) :=
  {| _observers := _observers s; _notifications := _notifications s;
     _security_alerts := l |}.

(** [NotificationService()] *)
Definition NotificationService_new : NotificationService :=
  {| _observers := []; _notifications := []; _security_alerts := [] |}.

(** Removal of the first occurrence: [list.remove]. *)
Fixpoint list_remove (x : nat) (l : list nat) : list nat :=
  match l with
  | [] => []
  | y :: l' => if bool_decide (x = y) then l' else y :: list_remove x l'
  end.

Definition attach (observer : nat) : Py unit :=
  modify (fun w =>
    let s := service w in
    if bool_decide (observer ∉ _observers s) then
      with_service (svc_set_observers (_observers s ++ [observer]) s) w
    else w).

Definition detach (observer : nat) : Py unit :=
  modify (fun w =>
    let s := service w in
    if bool_decide (observer ∈ _observers s) then
      with_service (svc_set_observers (list_remove observer (_observers s)) s) w
    else w).

(** The loop of [notify]:
    [for observer in self._observers: try: ... except Exception as e: ...] *)
Fixpoint fan_out (observers : list nat) (notification : Dict) : Py unit :=
  match observers with
  | [] => mret tt
  | observer :: rest =>
      _ ← try_except_Exception
            (Observer_update observer notification)
            (fun e => print ("Error notifying observer: " +:+ err_str e));
      fan_out rest notification
  end.

(** The dict display of [notify]: the four built-in entries, then
    [**kwargs], whose entries replace built-in ones of the same key. *)
Definition notification_record (id : Z) (message notification_type : value)
    (timestamp : string) (kwargs : Dict) : Dict :=
  kwargs ∪ {[ "id" := VInt id;
              "message" := message;
              "type" := notification_type;
              "timestamp" := VStr timestamp ]}.

Definition notify (message notification_type : value) (kwargs : Dict) : Py Dict :=
  stored ← gets (fun w => _notifications (service w));
  now ← datetime_now;
  let notification :=
    notification_record (Z.of_nat (length stored) + 1) message notification_type
      (isoformat now) kwargs in
  _ ← modify (fun w =>
        let s := service w in
        with_service (svc_set_notifications (_notifications s ++ [notification]) s) w);
  (* Track security alerts separately *)
  _ ← (if in_strings notification_type ["security"; "emergency"] then
         modify (fun w =>
           let s := service w in
           with_service
             (svc_set_security_alerts (_security_alerts s ++ [notification]) s) w)
       else mret tt);
  (* Notify all observers *)
  attached ← gets (fun w => _observers (service w));
  _ ← fan_out attached notification;
  mret notification.

(** How a call of [service.notify] with positional arguments [args] and
    keyword arguments [keywords] binds the parameters [message],
    [notification_type] (default ['info']) and the catch-all [kwargs]. *)
Definition bind_notify_arguments (args : list value) (keywords : Dict)
  : PyErr + (value * value * Dict) :=
  let multiple p :=
    inl (PyException "TypeError" ("got multiple values for argument '" +:+ p +:+ "'")) in
  if bool_decide (is_Some (keywords !! "self")) then multiple "self" else
  match args with
  | [] =>
      match keywords !! "message" with
      | Some message =>
          inr (message,
               dict_get keywords "notification_type" (VStr "info"),
               delete "notification_type" (delete "message" keywords))
      | None =>
          inl (PyException "TypeError"
                 "missing 1 required positional argument: 'message'")
      end
  | [message] =>
      if bool_decide (is_Some (keywords !! "message")) then multiple "message" else
      inr (message,
           dict_get keywords "notification_type" (VStr "info"),
           delete "notification_type" keywords)
  | [message; notification_type] =>
      if bool_decide (is_Some (keywords !! "message")) then multiple "message" else
      if bool_decide (is_Some (keywords !! "notification_type"))
      then multiple "notification_type" else
      inr (message, notification_type, keywords)
  | _ =>
      inl (PyException "TypeError" "too many positional arguments")
  end.

Definition call_notify (args : list value) (keywords : Dict) : Py Dict :=
  match bind_notify_arguments args keywords with
  | inl e => raise e
  | inr (message, notification_type, kwargs) =>
      notify message notification_type kwargs
  end.

(** [[n for n in self._notifications if n['type'] == notification_type]] *)
Fixpoint select_by_type (notification_type : string) (ns : list Dict)
  : Py (list Dict) :=
  match ns with
  | [] => mret []
  | n :: rest =>
      match n !! "type" with
      | Some ty =>
          selected ← select_by_type notification_type rest;
          mret (if in_strings ty [notification_type] then n :: selected
                else selected)
      | None => raise (PyException "KeyError" "'type'")
      end
  end.

Definition get_notifications_by_type (notification_type : string) : Py (list Dict) :=
  ns ← gets (fun w => _notifications (service w));
  select_by_type notification_type ns.

Definition clear_old_notifications (keep_count : Z) : Py Z :=
  ns ← gets (fun w => _notifications (service w));
  if keep_count <? Z.of_nat (length ns) then
    let removed := Z.of_nat (length ns) - keep_count in
    _ ← modify (fun w =>
          with_service
            (svc_set_notifications (slice_from (- keep_count) ns) (service w)) w);
    mret removed
  else mret 0.


(** ** Sequences of calls on one device object

    The public mutators of each device class, as data, so that a property can
    speak about every sequence of calls. *)

Inductive StreetLightCall :=
| SL_activate
| SL_deactivate
| SL_set_brightness (level : Z).

Definition StreetLight_call (c : StreetLightCall) (self : StreetLight)
  : Py (bool * StreetLight) :=
  match c with
  | SL_activate => StreetLight_activate self
  | SL_deactivate => StreetLight_deactivate self
  | SL_set_brightness level => StreetLight_set_brightness level self
  end.

Fixpoint StreetLight_calls (cs : list StreetLightCall) (self : StreetLight)
  : Py StreetLight :=
  match cs with
  | [] => mret self
  | c :: cs => '(_, self) ← StreetLight_call c self; StreetLight_calls cs self
  end.

Inductive TrafficSignalCall :=
| TS_activate
| TS_deactivate
| TS_set_signal (signal : string).

Definition TrafficSignal_call (c : TrafficSignalCall) (self : TrafficSignal)
  : Py (bool * TrafficSignal) :=
  match c with
  | TS_activate => TrafficSignal_activate self
  | TS_deactivate => TrafficSignal_deactivate self
  | TS_set_signal signal => TrafficSignal_set_signal signal self
  end.

Fixpoint TrafficSignal_calls (cs : list TrafficSignalCall) (self : TrafficSignal)
  : Py TrafficSignal :=
  match cs with
  | [] => mret self
  | c :: cs => '(_, self) ← TrafficSignal_call c self; TrafficSignal_calls cs self
  end.

Inductive SecurityCameraCall :=
| SC_activate
| SC_deactivate
| SC_toggle_motion_detection.

Definition SecurityCamera_call (c : SecurityCameraCall) (self : SecurityCamera)
  : Py (bool * SecurityCamera) :=
  match c with
  | SC_activate => SecurityCamera_activate self
  | SC_deactivate => SecurityCamera_deactivate self
  | SC_toggle_motion_detection => SecurityCamera_toggle_motion_detection self
  end.

Fixpoint SecurityCamera_calls (cs : list SecurityCameraCall) (self : SecurityCamera)
  : Py SecurityCamera :=
  match cs with
  | [] => mret self
  | c :: cs => '(_, self) ← SecurityCamera_call c self; SecurityCamera_calls cs self
  end.

(** The "on" condition of a street light and of a camera. *)
Definition StreetLight_consistent (l : StreetLight) : Prop :=
  status (light_base l) = ACTIVE <-> 0 < brightness l.
Definition SecurityCamera_consistent (c : SecurityCamera) : Prop :=
  status (camera_base c) = ACTIVE <-> recording c = true.

End Embedding.

(** * The rest of the controller, the listings and the routines *)

Section Controller.
Context `{Platform}.

(** ** Methods of an object whose attributes are passed along

    A method of an object with attributes [S]: it may change the attributes
    and the world, and what it changed stays changed when it raises. *)
Definition Meth (S A : Type) : Type := S -> World -> outcome A * S * World.

#[global] Instance Meth_ret {S} : MRet (Meth S) := fun A a s w => (Returned a, s, w).
#[global] Instance Meth_bind {S} : MBind (Meth S) := fun A B k m s w =>
  match m s w with
  | (Returned a, s', w') => k a s' w'
  | (Raised e, s', w') => (Raised e, s', w')
  end.

(** A computation that does not touch the attributes. *)
Definition lift_py {S A} (m : Py A) : Meth S A := fun s w =>
  let '(r, w') := m w in (r, s, w').
Definition self_gets {S A} (f : S -> A) : Meth S A := fun s w => (Returned (f s), s, w).
Definition self_modify {S} (f : S -> S) : Meth S unit := fun s w => (Returned tt, f s, w).

(** [try: body except Exception as e: handler(e)] inside a method. *)
Definition try_except_Exception_meth {S A} (body : Meth S A)
    (handler : PyErr -> Meth S A) : Meth S A :=
  fun s w =>
    match body s w with
    | (Raised e, s', w') =>
        if is_Exception e then handler e s' w' else (Raised e, s', w')
    | r => r
    end.

(** ** Dictionaries of a device ([app/models/device.py]) *)

(** [status.value] and [device_type.value] *)
Definition DeviceStatus_value (st : DeviceStatus) : string :=
  match st with
  | ACTIVE => "active"
  | INACTIVE => "inactive"
  | MAINTENANCE => "maintenance"
  | ERROR => "error"
  end.

Definition DeviceType_value (ty : DeviceType) : string :=
  match ty with
  | STREET_LIGHT => "StreetLight"
  | TRAFFIC_SIGNAL => "TrafficSignal"
  | SECURITY_CAMERA => "SecurityCamera"
  | WATER_METER => "WaterMeter"
  | POWER_METER => "PowerMeter"
  end.

(** [Device.to_dict] *)
Definition Device_to_dict (self : Device) : Dict :=
  {[ "device_id" := VStr (device_id self);
     "name" := VStr (name self);
     "type" := VStr (match device_type self with
                     | Some ty => DeviceType_value ty
                     | None => "Unknown"
                     end);
     "status" := VStr (DeviceStatus_value (status self));
     "location" := VStr (location self);
     "last_updated" := VStr (isoformat (last_updated self));
     "metadata" := VDict (metadata self) ]}.

(** [device.to_dict()] on a registered object. *)
Definition AnyDevice_to_dict (d : AnyDevice) : Dict := Device_to_dict (base_of d).

(** ** CityController ([app/controllers/city_controller.py]) *)

(** [self._stats]; [last_routine] holds the name and the time of the last
    routine. *)
Record Stats := {
  total_commands : Z;
  active_devices : Z;
  last_routine : option (string * string);
  uptime_start : Z }.

(** An entry of [CityController._command_history]. *)
Record CommandLog := {
  log_command : string;
  log_timestamp : string;
  log_success : value }.

(** The attributes of the controller other than the mapping of
    [self._devices], which is [_devices] of the world.  A Python dict
    iterates over its keys in the order they were inserted:
    [_device_order] is that order. *)
Record CityController := {
  _device_order : list string;
  _command_history : list CommandLog;
  _routines : list Dict;
  _stats : Stats }.

Definition ctl_set_order (l : list string) (c : CityController) : CityController :=
  {| _device_order := l; _command_history := _command_history c;
     _routines := _routines c; _stats := _stats c |}.
Definition ctl_set_command_history (l : list CommandLog) (c : CityController)
  : CityController :=
  {| _device_order := _device_order c; _command_history := l;
     _routines := _routines c; _stats := _stats c |}.
Definition ctl_set_routines (l : list Dict) (c : CityController) : CityController :=
  {| _device_order := _device_order c; _command_history := _command_history c;
     _routines := l; _stats := _stats c |}.
Definition ctl_set_stats (s : Stats) (c : CityController) : CityController :=
  {| _device_order := _device_order c; _command_history := _command_history c;
     _routines := _routines c; _stats := s |}.

Definition stats_set_total_commands (n : Z) (s : Stats) : Stats :=
  {| total_commands := n; active_devices := active_devices s;
     last_routine := last_routine s; uptime_start := uptime_start s |}.
Definition stats_set_active_devices (n : Z) (s : Stats) : Stats :=
  {| total_commands := total_commands s; active_devices := n;
     last_routine := last_routine s; uptime_start := uptime_start s |}.
Definition stats_set_last_routine (r : string * string) (s : Stats) : Stats :=
  {| total_commands := total_commands s; active_devices := active_devices s;
     last_routine := Some r; uptime_start := uptime_start s |}.

(** [self._devices.values()]: the registered objects, in insertion order. *)
Definition devices_values : Meth CityController (list AnyDevice) := fun self w =>
  (Returned (omap (fun k => _devices w !! k) (_device_order self)), self, w).

(** [_update_active_count] *)
Definition _update_active_count : Meth CityController unit :=
  values ← devices_values;
  let n := length (filter (fun d => status (base_of d) = ACTIVE) values) in
  self_modify (fun self =>
    ctl_set_stats (stats_set_active_devices (Z.of_nat n) (_stats self)) self).

Definition CityController_register_device (device : AnyDevice)
  : Meth CityController bool :=
  let device_id := device_id (base_of device) in
  existing ← lift_py (get_device device_id);
  match existing with
  | None =>
      _ ← lift_py (modify (fun w =>
            with_devices (<[device_id := device]> (_devices w)) w));
      _ ← self_modify (fun self =>
            ctl_set_order (_device_order self ++ [device_id]) self);
      _ ← _update_active_count;
      mret true
  | Some _ => mret false
  end.

Definition CityController_unregister_device (device_id : string)
  : Meth CityController bool :=
  existing ← lift_py (get_device device_id);
  match existing with
  | Some _ =>
      _ ← lift_py (modify (fun w =>
            with_devices (delete device_id (_devices w)) w));
      _ ← self_modify (fun self =>
            ctl_set_order (filter (fun k => k ≠ device_id) (_device_order self)) self);
      _ ← _update_active_count;
      mret true
  | None => mret false
  end.

(** [get_all_devices] *)
Definition CityController_get_all_devices : Meth CityController (list Dict) :=
  values ← devices_values;
  mret (AnyDevice_to_dict <$> values).

(** [device.device_type.value]: [None] has no attribute [value]. *)
Definition device_type_value (d : AnyDevice) : Py string :=
  match device_type (base_of d) with
  | Some ty => mret (DeviceType_value ty)
  | None => raise (PyException "AttributeError"
                     "'NoneType' object has no attribute 'value'")
  end.

(** The comprehension of [get_devices_by_type]. *)
Fixpoint select_devices_by_type (device_type : string) (values : list AnyDevice)
  : Py (list Dict) :=
  match values with
  | [] => mret []
  | device :: rest =>
      ty ← device_type_value device;
      selected ← select_devices_by_type device_type rest;
      mret (if bool_decide (ty = device_type)
            then AnyDevice_to_dict device :: selected else selected)
  end.

Definition CityController_get_devices_by_type (device_type : string)
  : Meth CityController (list Dict) :=
  values ← devices_values;
  lift_py (select_devices_by_type device_type values).

(** [command.__class__.__name__] *)
Definition Command_class_name (c : Command) : string :=
  match c with
  | LightOnCommand _ _ _ => "LightOnCommand"
  | LightOffCommand _ _ => "LightOffCommand"
  | TrafficGreenCommand _ _ => "TrafficGreenCommand"
  | TrafficRedCommand _ _ => "TrafficRedCommand"
  | ProcessPaymentCommand _ _ _ _ _ _ => "ProcessPaymentCommand"
  end.

Definition CityController_execute_command (command : nat) : Meth CityController Dict :=
  result ← lift_py (Command_execute command);
  (* Log command execution *)
  c ← lift_py (load_command command);
  now ← lift_py datetime_now;
  _ ← self_modify (fun self =>
        ctl_set_command_history
          (_command_history self ++
             [{| log_command := Command_class_name c;
                 log_timestamp := isoformat now;
                 log_success := dict_get result "success" (VBool false) |}]) self);
  _ ← self_modify (fun self =>
        ctl_set_stats
          (stats_set_total_commands (total_commands (_stats self) + 1) (_stats self))
          self);
  _ ← _update_active_count;
  mret result.

Definition CityController_undo_last_command : Meth CityController (option Dict) :=
  history ← self_gets _command_history;
  match last history with
  | Some entry =>
      (* Implementation would depend on command supporting undo *)
      mret (Some ({[ "message" := VStr ("Attempted to undo " +:+ log_command entry) ]}
                  : Dict))
  | None => mret None
  end.

Definition CityController_get_command_history (limit : Z)
  : Meth CityController (list CommandLog) :=
  history ← self_gets _command_history;
  mret (slice_from (- limit) history).

Definition CityController_activate_device (device_id : string)
  : Meth CityController Dict :=
  device ← lift_py (get_device device_id);
  match device with
  | Some device =>
      '(success, device) ← lift_py (Device_activate device);
      _ ← lift_py (write_device device_id device);
      _ ← _update_active_count;
      mret ({[ "success" := VBool success; "device_id" := VStr device_id;
               "action" := VStr "activate" ]} : Dict)
  | None =>
      mret ({[ "success" := VBool false;
               "error" := VStr ("Device " +:+ device_id +:+ " not found") ]} : Dict)
  end.

Definition CityController_deactivate_device (device_id : string)
  : Meth CityController Dict :=
  device ← lift_py (get_device device_id);
  match device with
  | Some device =>
      '(success, device) ← lift_py (Device_deactivate device);
      _ ← lift_py (write_device device_id device);
      _ ← _update_active_count;
      mret ({[ "success" := VBool success; "device_id" := VStr device_id;
               "action" := VStr "deactivate" ]} : Dict)
  | None =>
      mret ({[ "success" := VBool false;
               "error" := VStr ("Device " +:+ device_id +:+ " not found") ]} : Dict)
  end.

Definition CityController_set_traffic_signal (device_id signal : string)
  : Meth CityController Dict :=
  let not_found : Dict :=
    {[ "success" := VBool false;
       "error" := VStr ("Traffic signal " +:+ device_id +:+ " not found") ]} in
  device ← lift_py (get_device device_id);
  match device with
  | Some device =>
      if has_set_signal device then
        '(success, device) ← lift_py (Device_set_signal signal device);
        _ ← lift_py (write_device device_id device);
        mret ({[ "success" := VBool success; "device_id" := VStr device_id;
                 "signal" := VStr signal ]} : Dict)
      else mret not_found
  | None => mret not_found
  end.

Definition CityController_set_light_brightness (device_id : string) (brightness : Z)
  : Meth CityController Dict :=
  let not_found : Dict :=
    {[ "success" := VBool false;
       "error" := VStr ("Street light " +:+ device_id +:+ " not found") ]} in
  device ← lift_py (get_device device_id);
  match device with
  | Some device =>
      if has_set_brightness device then
        '(success, device) ← lift_py (Device_set_brightness brightness device);
        _ ← lift_py (write_device device_id device);
        mret ({[ "success" := VBool success; "device_id" := VStr device_id;
                 "brightness" := VInt brightness ]} : Dict)
      else mret not_found
  | None => mret not_found
  end.

(** ** The device-control endpoint ([app/main.py]) *)



(** ** Daily routines ([app/routines/daily_routines.py]) *)

(** The dict [execute] returns: on success the keys [success], [routine],
    [executed_at] and [log], on failure [success], [routine], [error] and
    [log]. *)
Inductive RoutineResult :=
| RoutineOk (routine executed_at : string) (log : list Dict)
| RoutineFailed (routine error : string) (log : list Dict).

(** The attribute [self._log] of a routine object with attributes [R]. *)
Class RoutineLog (R : Type) := {
  routine_log : R -> list Dict;
  routine_set_log : list Dict -> R -> R }.

(** The steps a routine class provides. *)
Class DailyRoutine (R : Type) := {
  prepare : Meth R unit;
  execute_main_operations : Meth R unit;
  verify : Meth R bool;
  cleanup : Meth R unit;
  notify_completion : Meth R unit;
  get_name : string }.

(** [DailyRoutineTemplate._log_step] *)
Definition _log_step {R} {L : RoutineLog R} (message : string) : Meth R unit :=
  now ← lift_py datetime_now;
  self_modify (fun self =>
    routine_set_log
      (routine_log self ++
         [({[ "timestamp" := VStr (isoformat now); "message" := VStr message ]} : Dict)])
      self).

(** [DailyRoutineTemplate.execute], the template method. *)
Definition DailyRoutineTemplate_execute {R} {L : RoutineLog R} {C : DailyRoutine R}
  : Meth R RoutineResult :=
  _ ← self_modify (routine_set_log []);
  _ ← _log_step "Starting routine";
  try_except_Exception_meth
    (_ ← prepare;
     _ ← _log_step "Preparation complete";
     _ ← execute_main_operations;
     _ ← _log_step "Main operations complete";
     verification ← verify;
     _ ← _log_step ("Verification: " +:+ py_str (VBool verification));
     _ ← cleanup;
     _ ← _log_step "Cleanup complete";
     _ ← notify_completion;
     _ ← _log_step "Routine completed successfully";
     now ← lift_py datetime_now;
     log ← self_gets routine_log;
     mret (RoutineOk get_name (isoformat now) log))
    (fun e =>
       _ ← _log_step ("Error: " +:+ err_str e);
       log ← self_gets routine_log;
       mret (RoutineFailed get_name (err_str e) log)).

(** The hooks of the base class. *)
Definition DailyRoutineTemplate_prepare {R} : Meth R unit := mret tt.
Definition DailyRoutineTemplate_verify {R} : Meth R bool := mret true.
Definition DailyRoutineTemplate_cleanup {R} : Meth R unit := mret tt.
Definition DailyRoutineTemplate_notify_completion {R} : Meth R unit := mret tt.

(** A call of a controller method that leaves the controller's attributes
    as they are ([get_all_devices], [get_devices_by_type]). *)
Definition ask_controller {R A} (controller : CityController)
    (m : Meth CityController A) : Meth R A := fun s w =>
  let '(r, _, w') := m controller w in (r, s, w').

(** [d[key]] *)
Definition subscript (d : Dict) (key : string) : Py value :=
  match d !! key with
  | Some v => mret v
  | None => raise (PyException "KeyError" key)
  end.

(** [self._controller.get_device(key)] for a key read from a dict. *)
Definition get_device_at (key : value) : Py (option AnyDevice) :=
  match key with
  | VStr device_id => get_device device_id
  | VDict _ => raise (PyException "TypeError" "unhashable type: 'dict'")
  | _ => mret None
  end.

(** Assignment to [device.cycle_duration] where the object has the
    attribute. *)
Definition set_cycle_duration (seconds : Z) (d : AnyDevice) : AnyDevice :=
  match d with
  | Signal t => Signal {| signal_base := signal_base t;
                          current_signal := current_signal t;
                          cycle_duration := seconds |}
  | _ => d
  end.
Definition has_cycle_duration (d : AnyDevice) : bool :=
  match d with Signal _ => true | _ => false end.

(** The second loop of both [execute_main_operations]: every registered
    traffic signal gets the cycle duration [seconds]. *)
Fixpoint adjust_traffic_signals (seconds : Z) (traffic_signals : list Dict)
  : Py unit :=
  match traffic_signals with
  | [] => mret tt
  | signal :: rest =>
      key ← subscript signal "device_id";
      device ← get_device_at key;
      _ ← match device, key with
          | Some device, VStr device_id =>
              if has_cycle_duration device then
                write_device device_id (set_cycle_duration seconds device)
              else mret tt
          | _, _ => mret tt
          end;
      adjust_traffic_signals seconds rest
  end.

(** [device.set_brightness(a); device.set_brightness(b);
    device.set_brightness(c)] on a registered object. *)
Definition set_brightness_thrice (device_id : string) (a b c : Z) (device : AnyDevice)
  : Py AnyDevice :=
  '(_, device) ← Device_set_brightness a device;
  _ ← write_device device_id device;
  '(_, device) ← Device_set_brightness b device;
  _ ← write_device device_id device;
  '(_, device) ← Device_set_brightness c device;
  _ ← write_device device_id device;
  mret device.

(** *** SunriseRoutine *)

Record SunriseRoutine := {
  sunrise_log : list Dict;
  _active_lights : option (list value) }.

(** The comprehension of [SunriseRoutine.prepare]. *)
Fixpoint active_light_ids (devices : list Dict) : Py (list value) :=
  match devices with
  | [] => mret []
  | d :: rest =>
      ty ← subscript d "type";
      keep ← (if in_strings ty ["StreetLight"] then
                st ← subscript d "status"; mret (in_strings st ["active"])
              else mret false);
      head ← (if keep : bool then key ← subscript d "device_id"; mret [key]
              else mret []);
      tail ← active_light_ids rest;
      mret (head ++ tail)
  end.

Definition SunriseRoutine_prepare (controller : CityController)
  : Meth SunriseRoutine unit :=
  devices ← ask_controller controller CityController_get_all_devices;
  ids ← lift_py (active_light_ids devices);
  self_modify (fun self =>
    {| sunrise_log := sunrise_log self; _active_lights := Some ids |}).

(** The first loop of [SunriseRoutine.execute_main_operations]. *)
Fixpoint turn_lights_off (ids : list value) : Py unit :=
  match ids with
  | [] => mret tt
  | key :: rest =>
      device ← get_device_at key;
      _ ← match device, key with
          | Some device, VStr device_id =>
              (* Gradually reduce brightness *)
              device ← (if has_set_brightness device then
                          set_brightness_thrice device_id 50 25 0 device
                        else mret device);
              '(_, device) ← Device_deactivate device;
              write_device device_id device
          | _, _ => mret tt
          end;
      turn_lights_off rest
  end.

(** [self._active_lights], an attribute [prepare] creates. *)
Definition read_active_lights : Meth SunriseRoutine (list value) :=
  ids ← self_gets _active_lights;
  match ids with
  | Some ids => mret ids
  | None => lift_py (raise (PyException "AttributeError"
              "'SunriseRoutine' object has no attribute '_active_lights'"))
  end.

Definition SunriseRoutine_execute_main_operations (controller : CityController)
  : Meth SunriseRoutine unit :=
  ids ← read_active_lights;
  _ ← lift_py (turn_lights_off ids);
  (* Adjust traffic signals for morning patterns *)
  traffic_signals ← ask_controller controller
                      (CityController_get_devices_by_type "TrafficSignal");
  lift_py (adjust_traffic_signals 45 traffic_signals).

(** [all(d['status'] == wanted for d in devices if d['type'] == 'StreetLight')] *)
Fixpoint all_lights_have_status (wanted : string) (devices : list Dict) : Py bool :=
  match devices with
  | [] => mret true
  | d :: rest =>
      ty ← subscript d "type";
      if in_strings ty ["StreetLight"] then
        st ← subscript d "status";
        if in_strings st [wanted] then all_lights_have_status wanted rest
        else mret false
      else all_lights_have_status wanted rest
  end.

Definition SunriseRoutine_verify (controller : CityController)
  : Meth SunriseRoutine bool :=
  devices ← ask_controller controller CityController_get_all_devices;
  lift_py (all_lights_have_status "inactive" devices).

#[global] Instance SunriseRoutine_log : RoutineLog SunriseRoutine :=
  {| routine_log := sunrise_log;
     routine_set_log := fun l self =>
       {| sunrise_log := l; _active_lights := _active_lights self |} |}.

Definition SunriseRoutine_notify_completion : Meth SunriseRoutine unit :=
  ids ← read_active_lights;
  _log_step ("Deactivated " +:+ pretty (Z.of_nat (length ids)) +:+ " street lights").

(** The class, for a routine built on [controller]. *)
Definition SunriseRoutine_class (controller : CityController)
  : DailyRoutine SunriseRoutine :=
  {| prepare := SunriseRoutine_prepare controller;
     execute_main_operations := SunriseRoutine_execute_main_operations controller;
     verify := SunriseRoutine_verify controller;
     cleanup := DailyRoutineTemplate_cleanup;
     notify_completion := SunriseRoutine_notify_completion;
     get_name := "Sunrise Routine" |}.

(** [SunriseRoutine(controller).execute()] *)
Definition SunriseRoutine_execute (controller : CityController)
  : Meth SunriseRoutine RoutineResult :=
  DailyRoutineTemplate_execute (C := SunriseRoutine_class controller).

(** *** SunsetRoutine *)

Record SunsetRoutine := {
  sunset_log : list Dict;
  _lights_to_activate : option (list value) }.

(** The comprehension of [SunsetRoutine.prepare]. *)
Fixpoint street_light_ids (devices : list Dict) : Py (list value) :=
  match devices with
  | [] => mret []
  | d :: rest =>
      ty ← subscript d "type";
      head ← (if in_strings ty ["StreetLight"] then
                key ← subscript d "device_id"; mret [key]
              else mret []);
      tail ← street_light_ids rest;
      mret (head ++ tail)
  end.

Definition SunsetRoutine_prepare (controller : CityController)
  : Meth SunsetRoutine unit :=
  devices ← ask_controller controller CityController_get_all_devices;
  ids ← lift_py (street_light_ids devices);
  self_modify (fun self =>
    {| sunset_log := sunset_log self; _lights_to_activate := Some ids |}).

(** The first loop of [SunsetRoutine.execute_main_operations]. *)
Fixpoint turn_lights_on (ids : list value) : Py unit :=
  match ids with
  | [] => mret tt
  | key :: rest =>
      device ← get_device_at key;
      _ ← match device, key with
          | Some device, VStr device_id =>
              '(_, device) ← Device_activate device;
              _ ← write_device device_id device;
              (* Gradually increase brightness *)
              if has_set_brightness device then
                _ ← set_brightness_thrice device_id 50 75 100 device; mret tt
              else mret tt
          | _, _ => mret tt
          end;
      turn_lights_on rest
  end.

(** [self._lights_to_activate], an attribute [prepare] creates. *)
Definition read_lights_to_activate : Meth SunsetRoutine (list value) :=
  ids ← self_gets _lights_to_activate;
  match ids with
  | Some ids => mret ids
  | None => lift_py (raise (PyException "AttributeError"
              "'SunsetRoutine' object has no attribute '_lights_to_activate'"))
  end.

Definition SunsetRoutine_execute_main_operations (controller : CityController)
  : Meth SunsetRoutine unit :=
  ids ← read_lights_to_activate;
  _ ← lift_py (turn_lights_on ids);
  (* Adjust traffic signals for evening patterns *)
  traffic_signals ← ask_controller controller
                      (CityController_get_devices_by_type "TrafficSignal");
  lift_py (adjust_traffic_signals 60 traffic_signals).

Definition SunsetRoutine_verify (controller : CityController)
  : Meth SunsetRoutine bool :=
  devices ← ask_controller controller CityController_get_all_devices;
  lift_py (all_lights_have_status "active" devices).

#[global] Instance SunsetRoutine_log : RoutineLog SunsetRoutine :=
  {| routine_log := sunset_log;
     routine_set_log := fun l self =>
       {| sunset_log := l; _lights_to_activate := _lights_to_activate self |} |}.

Definition SunsetRoutine_notify_completion : Meth SunsetRoutine unit :=
  ids ← read_lights_to_activate;
  _log_step ("Activated " +:+ pretty (Z.of_nat (length ids)) +:+ " street lights").

Definition SunsetRoutine_class (controller : CityController)
  : DailyRoutine SunsetRoutine :=
  {| prepare := SunsetRoutine_prepare controller;
     execute_main_operations := SunsetRoutine_execute_main_operations controller;
     verify := SunsetRoutine_verify controller;
     cleanup := DailyRoutineTemplate_cleanup;
     notify_completion := SunsetRoutine_notify_completion;
     get_name := "Sunset Routine" |}.

(** [SunsetRoutine(controller).execute()] *)
Definition SunsetRoutine_execute (controller : CityController)
  : Meth SunsetRoutine RoutineResult :=
  DailyRoutineTemplate_execute (C := SunsetRoutine_class controller).


(** ** The routine endpoint ([app/main.py]) *)

(** A method call on an object that is dropped after the call. *)
Definition call_on_new {R A} (self : R) (m : Meth R A) : Py A := fun w =>
  let '(r, _, w') := m self w in (r, w').

(** [SunriseRoutine(controller)] and [SunsetRoutine(controller)] *)
Definition SunriseRoutine_new : SunriseRoutine :=
  {| sunrise_log := []; _active_lights := None |}.
Definition SunsetRoutine_new : SunsetRoutine :=
  {| sunset_log := []; _lights_to_activate := None |}.

(** [execute_routine]: the JSON body and the status code of the response;
    the result of the routine is dropped. *)
Definition execute_routine (routine_type : string) : Meth CityController (Dict * Z) :=
  let executed : Dict :=
    {[ "success" := VBool true;
       "message" := VStr (routine_type +:+ " routine executed") ]} in
  city_controller ← self_gets (fun self => self);
  if bool_decide (routine_type = "sunrise") then
    _ ← lift_py (call_on_new SunriseRoutine_new (SunriseRoutine_execute city_controller));
    mret (executed, 200)
  else if bool_decide (routine_type = "sunset") then
    _ ← lift_py (call_on_new SunsetRoutine_new (SunsetRoutine_execute city_controller));
    mret (executed, 200)
  else mret (({[ "error" := VStr "Invalid routine type" ]} : Dict), 400).

End Controller.

(** * The rest of the notification service *)

Section Listings.
Context `{Platform}.

(** Keyword arguments written out in a call, followed by [**kwargs]: a name
    given twice is a [TypeError]. *)
Definition call_keywords (explicit : list (string * value)) (kwargs : Dict)
  : PyErr + Dict :=
  match filter (fun kv => is_Some (kwargs !! kv.1)) explicit with
  | [] => inr (list_to_map explicit ∪ kwargs)
  | (k, _) :: _ =>
      inl (PyException "TypeError"
             ("got multiple values for keyword argument '" +:+ k +:+ "'"))
  end.

(** The call of [self.notify] a wrapper makes: keywords only, those it
    writes out and then its own [kwargs]. *)
Definition notify_with (explicit : list (string * value)) (kwargs : Dict) : Py Dict :=
  match call_keywords explicit kwargs with
  | inl e => raise e
  | inr keywords => call_notify [] keywords
  end.

(** [notify_security(message, severity, **kwargs)] *)
Definition notify_security (message severity : value) (kwargs : Dict) : Py Dict :=
  notify_with [("message", message); ("notification_type", VStr "security");
               ("severity", severity)] kwargs.

(** [notify_emergency(message, location, **kwargs)] *)
Definition notify_emergency (message location : value) (kwargs : Dict) : Py Dict :=
  notify_with [("message", message); ("notification_type", VStr "emergency");
               ("location", location); ("priority", VStr "critical")] kwargs.

(** [notify_transaction(message, amount, **kwargs)] *)
Definition notify_transaction (message amount : value) (kwargs : Dict) : Py Dict :=
  notify_with [("message", message); ("notification_type", VStr "transaction");
               ("amount", amount)] kwargs.

(** [a < b] as [sorted] asks it of two keys: strings compare with strings,
    numbers with numbers, anything else is a [TypeError]. *)
Definition py_lt (a b : value) : option bool :=
  let number v := match v with
                  | VInt z => Some z
                  | VBool b => Some (if b then 1 else 0)
                  | _ => None
                  end in
  match a, b with
  | VStr s, VStr t => Some (String.ltb s t)
  | _, _ => match number a, number b with
            | Some x, Some y => Some (x <? y)
            | _, _ => None
            end
  end.

(** One step of a stable sort in descending key order: [x], which came
    before the elements of [l], goes in front of the first element whose key
    is not greater than its own. *)
Fixpoint insert_descending (x : value * Dict) (l : list (value * Dict))
  : option (list (value * Dict)) :=
  match l with
  | [] => Some [x]
  | y :: l' =>
      match py_lt x.1 y.1 with
      | Some true => (fun r => y :: r) <$> insert_descending x l'
      | Some false => Some (x :: l)
      | None => None
      end
  end.

Fixpoint sort_descending (l : list (value * Dict)) : option (list (value * Dict)) :=
  match l with
  | [] => Some []
  | x :: l' => sort_descending l' ≫= insert_descending x
  end.

(** [l[:stop]] *)
Definition slice_to {A} (stop : Z) (l : list A) : list A :=
  let n := Z.of_nat (length l) in
  let j := if stop <? 0 then Z.max 0 (n + stop) else Z.min stop n in
  take (Z.to_nat j) l.

(** [sorted(records, key=lambda x: x['timestamp'], reverse=True)[:limit]]:
    the keys are read first, then the records are sorted, ties in their
    original order. *)
Definition newest_first (records : list Dict) (limit : Z) : Py (list Dict) :=
  keyed ← mapM (fun x => k ← subscript x "timestamp"; mret (k, x)) records;
  match sort_descending keyed with
  | Some sorted => mret (slice_to limit (snd <$> sorted))
  | None => raise (PyException "TypeError"
                     "'<' not supported between instances")
  end.

Definition get_recent_notifications (limit : Z) : Py (list Dict) :=
  records ← gets (fun w => _notifications (service w));
  newest_first records limit.

Definition get_security_alerts (limit : Z) : Py (list Dict) :=
  records ← gets (fun w => _security_alerts (service w));
  newest_first records limit.

End Listings.

(** * Vocabulary of the further properties *)

Section Vocabulary.
Context `{Platform}.

(** The object [d] with [last_updated] set to [t] and nothing else changed. *)
Definition touched (t : Z) (d : AnyDevice) : AnyDevice :=
  match d with
  | Light l => Light (light_map_base (Device_set_last_updated t) l)
  | Signal s => Signal (signal_map_base (Device_set_last_updated t) s)
  | Camera c => Camera (camera_map_base (Device_set_last_updated t) c)
  end.

(** The insertion order the controller keeps describes the mapping of the
    world: the same keys, each once. *)
Definition order_ok (self : CityController) (w : World) : Prop :=
  NoDup (_device_order self) /\
  forall k, k ∈ _device_order self <-> is_Some (_devices w !! k).

(** The number of registered devices whose status is ACTIVE. *)
Definition active_count (m : gmap string AnyDevice) : nat :=
  length (filter (fun d => status (base_of d) = ACTIVE) (map_to_list m).*2).

(** The device type [__post_init__] gives to an object of each class. *)
Definition class_type (d : AnyDevice) : DeviceType :=
  match d with
  | Light _ => STREET_LIGHT
  | Signal _ => TRAFFIC_SIGNAL
  | Camera _ => SECURITY_CAMERA
  end.

(** Every registered object still has the device type of its class. *)
Definition typed_ok (w : World) : Prop :=
  forall k d, _devices w !! k = Some d ->
              device_type (base_of d) = Some (class_type d).

(** The same ids are registered in [w] and in [w']. *)
Definition same_keys (w w' : World) : Prop :=
  forall k, is_Some (_devices w !! k) <-> is_Some (_devices w' !! k).

(** Calls on a [CommandInvoker], as data. *)
Inductive InvokerCall :=
| Invoke_execute (command : nat)
| Invoke_undo.

Definition CommandInvoker_call (c : InvokerCall) : Py unit :=
  match c with
  | Invoke_execute command => _ ← CommandInvoker_execute command; mret tt
  | Invoke_undo => _ ← CommandInvoker_undo; mret tt
  end.

Fixpoint CommandInvoker_calls (cs : list InvokerCall) : Py unit :=
  match cs with
  | [] => mret tt
  | c :: cs => _ ← CommandInvoker_call c; CommandInvoker_calls cs
  end.

(** The commands a sequence of calls executes, in order, and the stack of
    commands still to undo that it leaves. *)
Definition executed (cs : list InvokerCall) : list nat :=
  omap (fun c => match c with Invoke_execute command => Some command
                            | Invoke_undo => None end) cs.

Definition stack_after (stack : list nat) (cs : list InvokerCall) : list nat :=
  foldl (fun st c => match c with
                     | Invoke_execute command => st ++ [command]
                     | Invoke_undo => take (length st - 1) st
                     end) stack cs.

(** [a] does not come before [b] in time: the time stamp of [a] is not
    smaller than that of [b]. *)
Definition not_older (a b : Dict) : Prop :=
  py_lt (dict_get a "timestamp" VNone) (dict_get b "timestamp" VNone) = Some false.

(** Every record carries a string as its time stamp, as [notify] writes
    it. *)
Definition stamped (records : list Dict) : Prop :=
  forall x, x ∈ records -> exists s, x !! "timestamp" = Some (VStr s).

(** Pairs of a string key and a record, ordered by the key. *)
Definition key_not_smaller (a b : value * Dict) : Prop := py_lt a.1 b.1 = Some false.
Definition string_keyed (l : list (value * Dict)) : Prop :=
  forall p, p ∈ l -> exists s, p.1 = VStr s.

(** Every registered object is stored under its own [device_id]. *)
Definition ids_ok (w : World) : Prop :=
  forall k d, _devices w !! k = Some d -> device_id (base_of d) = k.

(** The keys [ks] are registered in [m], each object under its own id and
    with the device type of its class. *)
Definition well_registered (m : gmap string AnyDevice) (ks : list string) : Prop :=
  forall k, k ∈ ks ->
    exists d, m !! k = Some d /\ device_id (base_of d) = k /\
              device_type (base_of d) = Some (class_type d).

(** The object registered under [k] satisfies [p]. *)
Definition holds_at (p : AnyDevice -> bool) (m : gmap string AnyDevice) (k : string)
  : bool :=
  match m !! k with Some d => p d | None => false end.

Definition is_active_light (d : AnyDevice) : bool :=
  match d with
  | Light l => bool_decide (status (light_base l) = ACTIVE)
  | _ => false
  end.

(** A street light switched off, respectively on at full brightness, at
    time [t]; objects of the other classes as they are. *)
Definition switched_off (t : Z) (d : AnyDevice) : AnyDevice :=
  match d with
  | Light l =>
      touched t (Light (light_set_brightness 0
                          (light_map_base (Device_set_status INACTIVE) l)))
  | _ => d
  end.

Definition switched_on (t : Z) (d : AnyDevice) : AnyDevice :=
  match d with
  | Light l =>
      touched t (Light (light_set_brightness 100
                          (light_map_base (Device_set_status ACTIVE) l)))
  | _ => d
  end.

(** What the sunrise routine makes of a registered object: a street light
    that was ACTIVE is switched off, a traffic signal has a cycle of 45
    seconds, anything else is as it was.  The sunset routine switches every
    street light on and gives the signals a cycle of 60 seconds. *)
Definition after_sunrise (t : Z) (d : AnyDevice) : AnyDevice :=
  set_cycle_duration 45 (if is_active_light d then switched_off t d else d).

Definition after_sunset (t : Z) (d : AnyDevice) : AnyDevice :=
  set_cycle_duration 60 (switched_on t d).

(** [m'] has the keys of [m], and under each the object of [m] changed by
    [f] at some time. *)
Definition each_device (f : Z -> AnyDevice -> AnyDevice)
    (m m' : gmap string AnyDevice) : Prop :=
  forall k, match m !! k with
            | Some d => exists t, m' !! k = Some (f t d)
            | None => m' !! k = None
            end.

(** The messages of a routine's log, in order. *)
Definition messages (log : list Dict) : list value :=
  (fun e => dict_get e "message" VNone) <$> log.

(** [d'] is the object [d] in a later state: the same class, id and device
    type. *)
Definition same_identity (d d' : AnyDevice) : Prop :=
  device_id (base_of d') = device_id (base_of d) /\
  device_type (base_of d') = device_type (base_of d) /\
  class_type d' = class_type d.

(** The number of registered objects that satisfy [p]. *)
Definition count_devices (p : AnyDevice -> bool) (m : gmap string AnyDevice) : nat :=
  length (filter (fun d => p d = true) (map_to_list m).*2).

(** What a computation raises is an instance of [Exception]. *)
Definition raises_Exception_only {A} (m : Py A) : Prop :=
  forall w e w', m w = (Raised e, w') -> is_Exception e = true.

Definition method_raises_Exception_only {R A} (m : Meth R A) : Prop :=
  forall s w e s' w', m s w = (Raised e, s', w') -> is_Exception e = true.

End Vocabulary.

(** * A concrete platform and concrete worlds, for the examples *)

Module Demo.

(** Seconds past 11:00, two digits. *)
Definition seconds (t : Z) : string :=
  let n := Z.to_nat t in
  String (Ascii.ascii_of_nat (48 + (n / 10) mod 10))
    (String (Ascii.ascii_of_nat (48 + n mod 10)) EmptyString).

(** The k-th reading of the clock is k seconds past 11:00; no banking. *)
Definition platform : Platform :=
  {| wall_clock := fun n => Z.of_nat n;
     isoformat := fun t => "2026-11-03T11:00:" +:+ seconds t;
     dict_str := fun _ => "{...}";
     Bank := unit;
     process_payment := fun _ _ _ _ _ b =>
       ({[ "success" := VBool false; "error" := VStr "Insufficient funds" ]}, b);
     refund_transaction := fun _ b =>
       ({[ "success" := VBool false; "error" := VStr "Transaction not found" ]}, b) |}.

(** A world with nothing registered and nothing allocated. *)
Definition empty_world : @World platform :=
  @Build_World platform
    {| ticks := 0; stdout := [] |}           (* sys *)
    ∅ ∅ ∅                                    (* _devices, commands, observers *)
    {| _history := []; _undo_stack := [] |}  (* invoker *)
    NotificationService_new                  (* service *)
    tt.                                      (* bank *)

Definition SL001 : StreetLight := StreetLight_new "SL001" "Main Street Light 1" 0.
Definition TS001 : TrafficSignal := TrafficSignal_new "TS001" "Central Intersection" 0.
Definition SC001 : SecurityCamera := SecurityCamera_new "SC001" "City Hall Entrance" 0.

#[local] Existing Instance platform.

(** The world a computation leaves, and the value it returns. *)
Definition after {A} (m : Py A) (w : World) : World := snd (m w).
Definition result_of {A} (m : Py A) (w : World) : outcome A := fst (m w).

(** [SL001] dimmed to 50, as [set_brightness(50)] leaves it. *)
Definition SL001_dimmed : StreetLight :=
  light_map_base (Device_set_status ACTIVE) (light_set_brightness 50 SL001).

(** [SL001] is registered and dimmed to 50; object 0 is
    [LightOnCommand(controller, 'SL001')], object 1 is
    [LightOnCommand(controller, 'SL999')], neither executed yet. *)
Definition dimmed_world : World :=
  with_commands {[ 0%nat := LightOnCommand "SL001" 100 None;
                   1%nat := LightOnCommand "SL999" 100 None ]}
    (with_devices {[ "SL001" := Light SL001_dimmed ]} empty_world).

(** What a test would read off a street light. *)
Definition light_state (d : option AnyDevice) : option (DeviceStatus * Z) :=
  match d with
  | Some (Light l) => Some (status (light_base l), brightness l)
  | _ => None
  end.

(** [execute()] then [undo()] of object 0 on the dimmed light: the state of
    the light before, the two success flags, the state of the light after. *)
Definition light_on_then_undo
  : Py (option (DeviceStatus * Z) * value * value * option (DeviceStatus * Z)) :=
  before ← get_device "SL001";
  r1 ← Command_execute 0;
  r2 ← Command_undo 0;
  after ← get_device "SL001";
  mret (light_state before, dict_get r1 "success" VNone,
        dict_get r2 "success" VNone, light_state after).

(** [invoker.execute] of object 0, then of object 1, then
    [get_history(limit)]: the length of the history and the entries
    returned. *)
Definition two_commands_then_history (limit : Z) : Py (nat * list (value * value)) :=
  _ ← CommandInvoker_execute 0;
  _ ← CommandInvoker_execute 1;
  n ← gets (fun w => length (_history (invoker w)));
  entries ← CommandInvoker_get_history limit;
  mret (n, (fun e => (dict_get e "command" VNone, dict_get e "success" VNone))
             <$> entries).

(** Three notifications, a trim to the most recent one, a fourth
    notification: the ids of the four records created, in order, and the ids
    of the records stored at the end. *)
Definition notify_trim_notify : Py (list value * list value) :=
  n1 ← notify (VStr "a") (VStr "info") ∅;
  n2 ← notify (VStr "b") (VStr "info") ∅;
  n3 ← notify (VStr "c") (VStr "info") ∅;
  _ ← clear_old_notifications 1;
  n4 ← notify (VStr "d") (VStr "info") ∅;
  stored ← gets (fun w => _notifications (service w));
  mret ((fun n => dict_get n "id" VNone) <$> [n1; n2; n3; n4],
        (fun n => dict_get n "id" VNone) <$> stored).

(** [SL001] is registered and off; object 0 is
    [LightOffCommand(controller, 'SL001')], not executed yet. *)
Definition off_world : World :=
  with_commands {[ 0%nat := LightOffCommand "SL001" None ]}
    (with_devices {[ "SL001" := Light SL001 ]} empty_world).

(** [SL001] is registered and off; object 0 is
    [LightOnCommand(controller, 'SL001')], not executed yet. *)
Definition light_on_world : World :=
  with_commands {[ 0%nat := LightOnCommand "SL001" 100 None ]}
    (with_devices {[ "SL001" := Light SL001 ]} empty_world).

(** [invoker.execute(cmd)], [invoker.get_history(1)], [invoker.undo()]: the
    action and brightness of the result, the history returned, the success
    flag of the undo and the state of the light at the end. *)
Definition turn_on_then_undo
  : Py (value * value * list (value * value) * option value
        * option (DeviceStatus * Z)) :=
  r ← CommandInvoker_execute 0;
  h ← CommandInvoker_get_history 1;
  u ← CommandInvoker_undo;
  d ← get_device "SL001";
  mret (dict_get r "action" VNone, dict_get r "brightness" VNone,
        (fun e => (dict_get e "command" VNone, dict_get e "success" VNone)) <$> h,
        (fun u => dict_get u "success" VNone) <$> u,
        light_state d).

(** An observer class whose [update] always raises [RuntimeError('boom')]. *)
Definition Faulty : ObserverClass :=
  {| cls_update := fun _ attrs s =>
       (Raised (PyException "RuntimeError" "boom"), attrs, s);
     cls_get_type := "faulty" |}.

(** Object 0 is a [Faulty] observer, object 1 a [SecurityObserver];
    they were attached in this order. *)
Definition observers_world : World :=
  with_service (svc_set_observers [0%nat; 1%nat] NotificationService_new)
    (with_observers {[ 0%nat := UserObserver Faulty ∅;
                       1%nat := SecurityObserver [] ]} empty_world).

(** What a test would read off the world after a notification: the
    messages of the alerts the security observer (object 1) holds, the
    lengths of the log and of the alert index, and the lines printed. *)
Definition observed (w : World) : list value * nat * nat * list string :=
  (match observers w !! 1%nat with
   | Some (SecurityObserver alerts) => (fun a => dict_get a "message" VNone) <$> alerts
   | _ => []
   end,
   length (_notifications (service w)),
   length (_security_alerts (service w)),
   stdout (sys w)).

(** [notify('Gate breach', 'emergency')] with the faulty observer attached
    first. *)
Definition breach : Py (list value * nat * nat * list string) :=
  _ ← notify (VStr "Gate breach") (VStr "emergency") ∅;
  gets observed.

(** [notify('door', 'info', type='security', id=0)]: the record's id and
    type, what the observers and the service hold afterwards, and the two
    queries by type. *)
Definition overridden_type
  : Py (value * value * (list value * nat * nat * list string) * nat * nat) :=
  n ← notify (VStr "door") (VStr "info") {[ "type" := VStr "security"; "id" := VInt 0 ]};
  seen ← gets observed;
  as_info ← get_notifications_by_type "info";
  as_security ← get_notifications_by_type "security";
  mret (dict_get n "id" VNone, dict_get n "type" VNone, seen,
        length as_info, length as_security).

End Demo.

(** * A small town, for the examples of the further properties *)

Module City.

#[local] Existing Instance Demo.platform.

(** A second street light, under maintenance, and one that is not
    registered. *)
Definition SL002 : StreetLight :=
  light_map_base (Device_set_status MAINTENANCE)
    (StreetLight_new "SL002" "Main Street Light 2" 0).
Definition SL003 : StreetLight := StreetLight_new "SL003" "Park Light" 0.

(** A camera whose [device_type] was set to [None]. *)
Definition SC009 : SecurityCamera :=
  {| camera_base := Device_new "SC009" "Loose camera" 0;
     recording := false; motion_detection := true; resolution := "720p" |}.

(** The controller after [SL001], [SL002], [TS001] and [SC001] were
    registered in this order; one of them, [SL001], is ACTIVE. *)
Definition controller : CityController :=
  {| _device_order := ["SL001"; "SL002"; "TS001"; "SC001"];
     _command_history := []; _routines := [];
     _stats := {| total_commands := 0; active_devices := 1;
                  last_routine := None; uptime_start := 0 |} |}.

(** The four devices, eight command objects not executed yet, and the
    observers of [Demo.observers_world]. *)
Definition town : World :=
  with_commands
    {[ 0%nat := LightOnCommand "SL001" 100 None;
       1%nat := LightOffCommand "SL001" None;
       2%nat := TrafficGreenCommand "TS001" None;
       3%nat := TrafficRedCommand "SC001" None;
       4%nat := ProcessPaymentCommand "R001" (VInt 120) "TRY" "tax" "Property tax" VNone;
       5%nat := LightOnCommand "TS001" 100 None;
       6%nat := LightOffCommand "TS001" None;
       7%nat := LightOnCommand "SL999" 100 None ]}
    (with_devices
       {[ "SL001" := Light Demo.SL001_dimmed; "SL002" := Light SL002;
          "TS001" := Signal Demo.TS001; "SC001" := Camera Demo.SC001 ]}
       Demo.observers_world).

(** The town with [SC009] registered after the others. *)
Definition loose_controller : CityController :=
  ctl_set_order ["SL001"; "SL002"; "TS001"; "SC001"; "SC009"] controller.
Definition loose_town : World :=
  with_devices (<["SC009" := Camera SC009]> (_devices town)) town.

(** The town after two notifications, the second one a security alert. *)
Definition first_record : Dict :=
  {[ "id" := VInt 1; "message" := VStr "Lights on"; "type" := VStr "info";
     "timestamp" := VStr "2026-11-03T11:00:00" ]}.
Definition second_record : Dict :=
  {[ "id" := VInt 2; "message" := VStr "Gate breach"; "type" := VStr "security";
     "timestamp" := VStr "2026-11-03T11:00:01" ]}.
Definition informed_town : World :=
  with_service
    {| _observers := [0%nat; 1%nat];
       _notifications := [first_record; second_record];
       _security_alerts := [second_record] |} town.

(** Routine objects as [__init__] leaves them. *)
Definition sunrise : SunriseRoutine := {| sunrise_log := []; _active_lights := None |}.
Definition sunset : SunsetRoutine := {| sunset_log := []; _lights_to_activate := None |}.

(** A platform whose bank accepts every payment and every refund; the bank
    is the number of payments taken. *)
Definition paying : Platform :=
  {| wall_clock := fun n => Z.of_nat n;
     isoformat := fun t => "2026-11-03T11:00:" +:+ Demo.seconds t;
     dict_str := fun _ => "{...}";
     Bank := nat;
     process_payment := fun _ _ _ _ _ b =>
       ({[ "success" := VBool true;
           "transaction" := VDict {[ "transaction_id" := VStr "TX0001" ]} ]}, S b);
     refund_transaction := fun _ b =>
       ({[ "success" := VBool true ]}, b) |}.

(** Object 0 is a [ProcessPaymentCommand], not executed yet. *)
Definition paying_world : @World paying :=
  @Build_World paying
    {| ticks := 0; stdout := [] |}
    ∅
    {[ 0%nat := ProcessPaymentCommand "R001" (VInt 120) "TRY" "tax" "Property tax" VNone ]}
    ∅
    {| _history := []; _undo_stack := [] |}
    NotificationService_new
    0%nat.

(** The controller of the town after three commands were logged. *)
Definition first_command : CommandLog :=
  {| log_command := "LightOnCommand"; log_timestamp := "2026-11-03T11:00:00";
     log_success := VBool true |}.
Definition second_command : CommandLog :=
  {| log_command := "TrafficGreenCommand"; log_timestamp := "2026-11-03T11:00:01";
     log_success := VBool true |}.
Definition third_command : CommandLog :=
  {| log_command := "LightOffCommand"; log_timestamp := "2026-11-03T11:00:02";
     log_success := VBool false |}.
Definition busy_controller : CityController :=
  ctl_set_command_history [first_command; second_command; third_command] controller.

End City.

(** * Properties *)

Section Properties.
Context `{Platform}.

(** Unfold the monadic plumbing. *)
Ltac py_unfold :=
  unfold mbind, mret, Py_bind, Py_ret, gets, modify, raise, datetime_now, print,
    banking in *.

(** ** Devices *)

Lemma StreetLight_activate_eq (self : StreetLight) (w : World) :
  exists self' w',
    StreetLight_activate self w = (Returned (true, self'), w') /\
    status (light_base self') = ACTIVE /\ brightness self' = 100.
Proof. eexists _, _. split; [reflexivity | done]. Qed.

Lemma StreetLight_deactivate_eq (self : StreetLight) (w : World) :
  exists self' w',
    StreetLight_deactivate self w = (Returned (true, self'), w') /\
    status (light_base self') = INACTIVE /\ brightness self' = 0.
Proof. eexists _, _. split; [reflexivity | done]. Qed.

Lemma StreetLight_set_brightness_valid (level : Z) (self : StreetLight) (w : World) :
  0 <= level <= 100 ->
  exists self' w',
    StreetLight_set_brightness level self w = (Returned (true, self'), w') /\
    brightness self' = level /\
    status (light_base self') = (if 0 <? level then ACTIVE else INACTIVE).
Proof.
  intros [Hlo Hhi]. unfold StreetLight_set_brightness.
  apply Z.leb_le in Hlo, Hhi. rewrite Hlo, Hhi. simpl.
  eexists _, _. split; [reflexivity | done].
Qed.

Lemma StreetLight_set_brightness_invalid (level : Z) (self : StreetLight) (w : World) :
  ~ (0 <= level <= 100) ->
  StreetLight_set_brightness level self w = (Returned (false, self), w).
Proof.
  intros Hout. unfold StreetLight_set_brightness.
  destruct (Z.leb_spec 0 level), (Z.leb_spec level 100); simpl; try reflexivity.
  lia.
Qed.

(** C7.  For a brightness [b] in [0,100], [set_brightness(b)] returns true,
    stores [b], and leaves the light Active exactly when [b > 0]; for [b]
    outside [0,100] it returns false and the light (brightness, status and
    every other field) is unchanged. *)
Theorem set_brightness_spec (self : StreetLight) (b : Z) (w : World) :
  (0 <= b <= 100 ->
   exists self' w',
     StreetLight_set_brightness b self w = (Returned (true, self'), w') /\
     brightness self' = b /\
     (status (light_base self') = ACTIVE <-> 0 < b)) /\
  (~ (0 <= b <= 100) ->
   StreetLight_set_brightness b self w = (Returned (false, self), w)).
Proof.
  split.
  - intros Hb.
    destruct (StreetLight_set_brightness_valid b self w Hb)
      as (self' & w' & Hrun & Hbr & Hst).
    exists self', w'. split; [exact Hrun | split; [exact Hbr |]].
    rewrite Hst. destruct (Z.ltb_spec 0 b); split; intros; try done; lia.
  - apply StreetLight_set_brightness_invalid.
Qed.

Lemma StreetLight_call_consistent (c : StreetLightCall) (self : StreetLight) (w : World) :
  StreetLight_consistent self ->
  exists r self' w',
    StreetLight_call c self w = (Returned (r, self'), w') /\
    StreetLight_consistent self'.
Proof.
  intros Hinv. destruct c as [| | level]; simpl.
  - destruct (StreetLight_activate_eq self w) as (self' & w' & -> & Hst & Hbr).
    exists true, self', w'. split; [done |].
    unfold StreetLight_consistent. rewrite Hst, Hbr. split; [lia | done].
  - destruct (StreetLight_deactivate_eq self w) as (self' & w' & -> & Hst & Hbr).
    exists true, self', w'. split; [done |].
    unfold StreetLight_consistent. rewrite Hst, Hbr. split; [done | lia].
  - destruct (decide (0 <= level <= 100)) as [Hin | Hout].
    + destruct (StreetLight_set_brightness_valid level self w Hin)
        as (self' & w' & -> & Hbr & Hst).
      exists true, self', w'. split; [done |].
      unfold StreetLight_consistent. rewrite Hbr, Hst.
      destruct (Z.ltb_spec 0 level); split; intros; try done; lia.
    + rewrite (StreetLight_set_brightness_invalid level self w Hout).
      by exists false, self, w.
Qed.

Lemma StreetLight_calls_consistent (cs : list StreetLightCall) :
  forall (self : StreetLight) (w : World),
    StreetLight_consistent self ->
    exists self' w',
      StreetLight_calls cs self w = (Returned self', w') /\
      StreetLight_consistent self'.
Proof.
  induction cs as [| c cs IH]; intros self w Hinv.
  - by exists self, w.
  - destruct (StreetLight_call_consistent c self w Hinv)
      as (r & self1 & w1 & Hcall & Hinv1).
    destruct (IH self1 w1 Hinv1) as (self' & w' & Hrest & Hinv').
    exists self', w'. split; [| exact Hinv'].
    simpl. unfold mbind, Py_bind. by rewrite Hcall.
Qed.

Lemma SecurityCamera_call_consistent (c : SecurityCameraCall) (self : SecurityCamera)
    (w : World) :
  SecurityCamera_consistent self ->
  exists r self' w',
    SecurityCamera_call c self w = (Returned (r, self'), w') /\
    SecurityCamera_consistent self'.
Proof.
  intros Hinv. destruct c; simpl; eexists _, _, _; (split; [reflexivity |]);
    unfold SecurityCamera_consistent in *; simpl; try done.
Qed.

Lemma SecurityCamera_calls_consistent (cs : list SecurityCameraCall) :
  forall (self : SecurityCamera) (w : World),
    SecurityCamera_consistent self ->
    exists self' w',
      SecurityCamera_calls cs self w = (Returned self', w') /\
      SecurityCamera_consistent self'.
Proof.
  induction cs as [| c cs IH]; intros self w Hinv.
  - by exists self, w.
  - destruct (SecurityCamera_call_consistent c self w Hinv)
      as (r & self1 & w1 & Hcall & Hinv1).
    destruct (IH self1 w1 Hinv1) as (self' & w' & Hrest & Hinv').
    exists self', w'. split; [| exact Hinv'].
    simpl. unfold mbind, Py_bind. by rewrite Hcall.
Qed.

(** The constructors build consistent objects. *)
Lemma StreetLight_new_consistent (id name : string) (created : Z) :
  StreetLight_consistent (StreetLight_new id name created).
Proof. unfold StreetLight_consistent. simpl. split; [done | lia]. Qed.

Lemma SecurityCamera_new_consistent (id name : string) (created : Z) :
  SecurityCamera_consistent (SecurityCamera_new id name created).
Proof. unfold SecurityCamera_consistent. simpl. done. Qed.

Lemma TrafficSignal_call_effect (c : TrafficSignalCall) (self : TrafficSignal)
    (w : World) :
  exists r self' w',
    TrafficSignal_call c self w = (Returned (r, self'), w') /\
    match c with
    | TS_activate =>
        status (signal_base self') = ACTIVE /\ current_signal self' = "green"
    | TS_deactivate =>
        status (signal_base self') = INACTIVE /\ current_signal self' = "red"
    | TS_set_signal signal =>
        if decide (signal ∈ ["red"; "yellow"; "green"]) then
          r = true /\ status (signal_base self') = ACTIVE /\
          current_signal self' = signal
        else r = false /\ self' = self /\ w' = w
    end.
Proof.
  destruct c as [| | signal]; simpl.
  - eexists _, _, _. split; [reflexivity | done].
  - eexists _, _, _. split; [reflexivity | done].
  - unfold TrafficSignal_set_signal.
    destruct (decide (signal ∈ ["red"; "yellow"; "green"])) as [Hin | Hout].
    + rewrite bool_decide_eq_true_2 by exact Hin.
      eexists _, _, _. split; [reflexivity | done].
    + rewrite bool_decide_eq_false_2 by exact Hout.
      eexists _, _, _. split; [reflexivity | done].
Qed.

(** C3 (as the code has it).  A street light, and a camera, that starts in a
    state where status is Active exactly when it is on (brightness > 0,
    recording true) -- the state the constructors build is one -- is in such
    a state after every sequence of calls of its mutators, and every call
    returns.  A traffic signal has no such link between status and signal:
    [activate] leaves Active/green, [deactivate] leaves Inactive/red, an
    accepted [set_signal(s)] leaves Active/[s], a rejected one changes
    nothing. *)
Theorem device_status_consistency :
  (forall (cs : list StreetLightCall) (self : StreetLight) (w : World),
      StreetLight_consistent self ->
      exists self' w',
        StreetLight_calls cs self w = (Returned self', w') /\
        (status (light_base self') = ACTIVE <-> 0 < brightness self')) /\
  (forall (cs : list SecurityCameraCall) (self : SecurityCamera) (w : World),
      SecurityCamera_consistent self ->
      exists self' w',
        SecurityCamera_calls cs self w = (Returned self', w') /\
        (status (camera_base self') = ACTIVE <-> recording self' = true)) /\
  (forall (c : TrafficSignalCall) (self : TrafficSignal) (w : World),
      exists r self' w',
        TrafficSignal_call c self w = (Returned (r, self'), w') /\
        match c with
        | TS_activate =>
            status (signal_base self') = ACTIVE /\ current_signal self' = "green"
        | TS_deactivate =>
            status (signal_base self') = INACTIVE /\ current_signal self' = "red"
        | TS_set_signal signal =>
            if decide (signal ∈ ["red"; "yellow"; "green"]) then
              r = true /\ status (signal_base self') = ACTIVE /\
              current_signal self' = signal
            else r = false /\ self' = self /\ w' = w
        end).
Proof.
  split; [| split].
  - intros cs self w Hinv. exact (StreetLight_calls_consistent cs self w Hinv).
  - intros cs self w Hinv. exact (SecurityCamera_calls_consistent cs self w Hinv).
  - exact TrafficSignal_call_effect.
Qed.

(** ** Commands and the invoker *)

Lemma slice_from_last {A} (l : list A) (x : A) : slice_from (- 1) (l ++ [x]) = [x].
Proof.
  unfold slice_from. rewrite length_app. simpl.
  replace (Z.max 0 (Z.of_nat (length l + 1) + -1)) with (Z.of_nat (length l)) by lia.
  rewrite Nat2Z.id. by rewrite drop_app_length.
Qed.

Lemma Command_execute_absent (w : World) (self : nat) (c : Command) (id : string) :
  commands w !! self = Some c ->
  target_device c = Some id ->
  _devices w !! id = None ->
  Command_execute self w =
    (Returned {[ "success" := VBool false;
                 "error" := VStr ((match c with
                                   | TrafficGreenCommand _ _
                                   | TrafficRedCommand _ _ => "Traffic signal "
                                   | _ => "Device "
                                   end) +:+ id +:+ " not found") ]}, w).
Proof.
  intros Hc Htarget Habsent.
  unfold Command_execute, load_command. py_unfold. rewrite Hc.
  destruct c; simpl in Htarget; inversion Htarget; subst; simpl;
    unfold LightOnCommand_execute, LightOffCommand_execute,
      TrafficGreenCommand_execute, TrafficRedCommand_execute, get_device;
    py_unfold; rewrite Habsent; reflexivity.
Qed.

(** C4.  A device-control command whose target id is not in the registry
    returns [{success: False, error: 'Device <id> not found'}] (['Traffic
    signal <id> not found'] for the two signal commands), raises nothing and
    changes nothing; run through the invoker it returns the same result, the
    history grows by one entry holding that result, and [get_history(1)]
    shows that entry with success False. *)
Theorem absent_device_failure (w : World) (self : nat) (c : Command) (id : string) :
  commands w !! self = Some c ->
  target_device c = Some id ->
  _devices w !! id = None ->
  let result : Dict :=
    {[ "success" := VBool false;
       "error" := VStr ((match c with
                         | TrafficGreenCommand _ _
                         | TrafficRedCommand _ _ => "Traffic signal "
                         | _ => "Device "
                         end) +:+ id +:+ " not found") ]} in
  Command_execute self w = (Returned result, w) /\
  exists w' stamp,
    CommandInvoker_execute self w = (Returned result, w') /\
    _history (invoker w') =
      _history (invoker w) ++
        [{| h_command := self; h_result := result; h_timestamp := stamp |}] /\
    _devices w' = _devices w /\
    CommandInvoker_get_history 1 w' =
      (Returned [({[ "command" := VStr (describe c);
                     "success" := VBool false;
                     "timestamp" := VStr stamp ]} : Dict)], w').
Proof.
  intros Hc Htarget Habsent result.
  pose proof (Command_execute_absent w self c id Hc Htarget Habsent) as Hexec.
  fold result in Hexec.
  split; [exact Hexec |].
  unfold CommandInvoker_execute. py_unfold. rewrite Hexec. simpl.
  eexists _, _. split; [reflexivity |]. simpl.
  split; [reflexivity |]. split; [reflexivity |].
  unfold CommandInvoker_get_history. py_unfold. simpl.
  rewrite slice_from_last. simpl.
  unfold history_view, Command_get_description, load_command. py_unfold. simpl.
  rewrite Hc. simpl. reflexivity.
Qed.

(** C6.  [undo()] on a command object on which [execute()] was never called
    returns a failure result -- 'No previous state to restore' for
    [LightOnCommand], 'Cannot undo' for [LightOffCommand] and the two signal
    commands, 'No transaction to refund' for [ProcessPaymentCommand] --
    raises nothing, and leaves the whole world, devices included, as it
    was. *)
Theorem undo_before_execute (w : World) (self : nat) (c : Command) :
  commands w !! self = Some c ->
  fresh_command c = true ->
  Command_undo self w =
    (Returned {[ "success" := VBool false;
                 "error" := VStr (match c with
                                  | LightOnCommand _ _ _ =>
                                      "No previous state to restore"
                                  | ProcessPaymentCommand _ _ _ _ _ _ =>
                                      "No transaction to refund"
                                  | _ => "Cannot undo"
                                  end) ]}, w).
Proof.
  intros Hc Hfresh.
  unfold Command_undo, load_command. py_unfold. rewrite Hc.
  destruct c as [id b [prev |] | id [prev |] | id [prev |] | id [prev |]
                | r a cu pt de tid]; simpl in Hfresh; try discriminate.
  - reflexivity.
  - unfold LightOffCommand_undo, get_device. py_unfold.
    destruct (_devices w !! id); reflexivity.
  - reflexivity.
  - reflexivity.
  - destruct tid; try discriminate. reflexivity.
Qed.

(** C10.  On a registered street light whose brightness is 0, [execute()] of
    a [LightOffCommand] succeeds and leaves the light Inactive with
    brightness 0; the [undo()] that follows returns
    [{success: False, error: 'Cannot undo'}] and changes nothing, so the
    light stays Inactive with brightness 0: the saved brightness 0 is as
    false as no saved value. *)
Theorem light_off_undo_at_zero (w : World) (self : nat) (id : string)
    (saved : option Z) (l : StreetLight) :
  commands w !! self = Some (LightOffCommand id saved) ->
  _devices w !! id = Some (Light l) ->
  brightness l = 0 ->
  exists result w1 l1,
    Command_execute self w = (Returned result, w1) /\
    result !! "success" = Some (VBool true) /\
    commands w1 !! self = Some (LightOffCommand id (Some 0)) /\
    _devices w1 !! id = Some (Light l1) /\
    status (light_base l1) = INACTIVE /\ brightness l1 = 0 /\
    Command_undo self w1 =
      (Returned {[ "success" := VBool false; "error" := VStr "Cannot undo" ]}, w1).
Proof.
  intros Hc Hd Hzero.
  unfold Command_execute, load_command. py_unfold. rewrite Hc.
  unfold LightOffCommand_execute, get_device. py_unfold. rewrite Hd. simpl.
  rewrite Hzero.
  eexists _, _, _. split; [reflexivity |].
  split; [reflexivity |]. simpl.
  split; [apply lookup_insert_eq |].
  split; [apply lookup_insert_eq |].
  split; [reflexivity |]. split; [reflexivity |].
  unfold Command_undo, load_command. py_unfold. simpl.
  rewrite lookup_insert_eq.
  unfold LightOffCommand_undo, get_device. py_unfold. simpl.
  rewrite lookup_insert_eq. reflexivity.
Qed.

(** [execute()] then [undo()] of a [LightOnCommand] on a registered street
    light: whatever the light was before, it ends Inactive with brightness 0;
    the state saved by [execute()] is not read. *)
Lemma light_on_execute_undo (w : World) (self : nat) (id : string) (b : Z)
    (saved : option PreviousState) (l : StreetLight) :
  commands w !! self = Some (LightOnCommand id b saved) ->
  _devices w !! id = Some (Light l) ->
  exists r1 w1 w2 l2,
    Command_execute self w = (Returned r1, w1) /\
    commands w1 !! self =
      Some (LightOnCommand id b
              (Some {| prev_status := status (light_base l);
                       prev_brightness := brightness l |})) /\
    Command_undo self w1 =
      (Returned {[ "success" := VBool true; "action" := VStr "undo_light_on" ]}, w2) /\
    _devices w2 !! id = Some (Light l2) /\
    status (light_base l2) = INACTIVE /\ brightness l2 = 0.
Proof.
  intros Hc Hd.
  unfold Command_execute, load_command. py_unfold. rewrite Hc.
  unfold LightOnCommand_execute, get_device. py_unfold. rewrite Hd. simpl.
  unfold StreetLight_set_brightness. py_unfold.
  destruct ((0 <=? b) && (b <=? 100)); simpl;
    (eexists _, _, _, _; split; [reflexivity |]; simpl;
     split; [apply lookup_insert_eq |];
     unfold Command_undo, load_command; py_unfold; simpl;
     rewrite lookup_insert_eq;
     unfold LightOnCommand_undo, get_device; py_unfold; simpl;
     rewrite lookup_insert_eq; simpl;
     split; [reflexivity |]; simpl;
     split; [apply lookup_insert_eq |]; split; reflexivity).
Qed.

(** [get_history(limit)] for a positive limit: the views of the last
    [min(limit, n)] entries, oldest first. *)
Lemma get_history_positive (limit : Z) (w : World) :
  0 < limit ->
  CommandInvoker_get_history limit w =
    mapM history_view
      (drop (length (_history (invoker w)) - Z.to_nat limit)
         (_history (invoker w))) w.
Proof.
  intros Hpos. unfold CommandInvoker_get_history. py_unfold.
  unfold slice_from.
  destruct (Z.ltb_spec (- limit) 0); [| lia].
  f_equal. f_equal. f_equal. lia.
Qed.

(** [get_history(0)]: the slice [[-0:]] is the whole list. *)
Lemma get_history_zero (w : World) :
  CommandInvoker_get_history 0 w = mapM history_view (_history (invoker w)) w.
Proof.
  unfold CommandInvoker_get_history. py_unfold. unfold slice_from. simpl.
  rewrite Z.min_l by lia. reflexivity.
Qed.

(** ** Notification fan-out *)

Lemma attach_NoDup (observer : nat) (w w' : World) :
  NoDup (_observers (service w)) ->
  attach observer w = (Returned tt, w') ->
  NoDup (_observers (service w')).
Proof.
  intros Hnodup Hrun. unfold attach in Hrun. py_unfold.
  inversion Hrun as [Hw]. clear Hrun Hw.
  case_bool_decide as Hin; simpl; [| exact Hnodup].
  apply NoDup_app. split; [exact Hnodup |]. split.
  - intros x Hx Hx'. apply list_elem_of_singleton in Hx'. by subst.
  - apply NoDup_singleton.
Qed.




(** The world [notify] hands to its loop: the clock read once, the record
    appended to the log and, for the two alert kinds, to the alert index. *)
Lemma notify_unfold (message ty : value) (kwargs : Dict) (w : World) :
  exists n w1,
    n = notification_record
          (Z.of_nat (length (_notifications (service w))) + 1) message ty
          (isoformat (wall_clock (ticks (sys w)))) kwargs /\
    _notifications (service w1) = _notifications (service w) ++ [n] /\
    _security_alerts (service w1) =
      (if in_strings ty ["security"; "emergency"]
       then _security_alerts (service w) ++ [n]
       else _security_alerts (service w)) /\
    _observers (service w1) = _observers (service w) /\
    observers w1 = observers w /\
    notify message ty kwargs w =
      (_ ← fan_out (_observers (service w)) n; mret n) w1.
Proof.
  set (n := notification_record
              (Z.of_nat (length (_notifications (service w))) + 1) message ty
              (isoformat (wall_clock (ticks (sys w)))) kwargs).
  set (wa := with_sys {| ticks := S (ticks (sys w)); stdout := stdout (sys w) |} w).
  set (wb := with_service
               (svc_set_notifications (_notifications (service wa) ++ [n])
                  (service wa)) wa).
  set (wc := with_service
               (svc_set_security_alerts (_security_alerts (service wb) ++ [n])
                  (service wb)) wb).
  exists n, (if in_strings ty ["security"; "emergency"] then wc else wb).
  split; [reflexivity |].
  unfold notify. py_unfold. simpl.
  destruct (in_strings ty ["security"; "emergency"]); simpl;
    repeat (split; [reflexivity |]); reflexivity.
Qed.


(** ** The record [notify] builds *)

Lemma notification_record_lookup (id : Z) (message ty : value) (stamp : string)
    (kwargs : Dict) (k : string) :
  notification_record id message ty stamp kwargs !! k =
    match kwargs !! k with
    | Some v => Some v
    | None => ({[ "id" := VInt id; "message" := message; "type" := ty;
                  "timestamp" := VStr stamp ]} : Dict) !! k
    end.
Proof.
  unfold notification_record. rewrite lookup_union.
  destruct (kwargs !! k) as [v |]; simpl.
  - by destruct (_ !! k).
  - by destruct (_ !! k).
Qed.


(** ** The log: ids and stored records *)

Lemma run_update_service (n : Dict) (o : Observer) (w : World) :
  service (run_update n o w).2 = service w.
Proof.
  destruct o as [alerts | ns | es | cls attrs]; simpl.
  - unfold SecurityObserver_update.
    destruct (in_strings _ _); py_unfold; simpl; done.
  - unfold TransactionObserver_update.
    destruct (in_strings _ _); py_unfold; simpl; done.
  - unfold EmergencyObserver_update.
    destruct (in_strings _ _); py_unfold; simpl; done.
  - by destruct (cls_update cls n attrs (sys w)) as [[r attrs'] s'].
Qed.

(** The loop of [notify] does not touch the service, however it ends. *)
Lemma fan_out_service (n : Dict) (attached : list nat) :
  forall w : World, service (fan_out attached n w).2 = service w.
Proof.
  induction attached as [| r rest IH]; intros w; [reflexivity |].
  simpl. unfold mbind, Py_bind, try_except_Exception, Observer_update.
  destruct (observers w !! r) as [o |].
  - pose proof (run_update_service n o w) as Hsvc.
    destruct (run_update n o w) as [[[[] | e] o'] w1]; simpl in *.
    + by rewrite IH.
    + destruct (is_Exception e); simpl; [| exact Hsvc].
      unfold print. rewrite IH. exact Hsvc.
  - simpl. unfold print. by rewrite IH.
Qed.

(** [notify] appends one record to the log and changes no stored record. *)
Lemma notify_appends (message ty : value) (kwargs : Dict) (w : World) :
  exists n,
    _notifications (service (notify message ty kwargs w).2) =
      _notifications (service w) ++ [n] /\
    (kwargs !! "id" = None ->
     n !! "id" = Some (VInt (Z.of_nat (length (_notifications (service w))) + 1))).
Proof.
  destruct (notify_unfold message ty kwargs w)
    as (n & w1 & Hn & Hlog & _ & _ & _ & Hrun).
  exists n. split.
  - rewrite Hrun. unfold mbind, Py_bind.
    pose proof (fan_out_service n (_observers (service w)) w1) as Hsvc.
    destruct (fan_out (_observers (service w)) n w1) as [[[] | e] w']; simpl in *;
      by rewrite Hsvc.
  - intros Hid. rewrite Hn, notification_record_lookup, Hid. reflexivity.
Qed.

(** [clear_old_notifications] drops records from the front of the log and
    changes none of those it keeps. *)
Lemma clear_old_notifications_keeps (keep_count : Z) (w : World) :
  exists k,
    _notifications (service (clear_old_notifications keep_count w).2) =
      drop k (_notifications (service w)).
Proof.
  unfold clear_old_notifications. py_unfold.
  destruct (keep_count <? _); simpl.
  - unfold slice_from. by eexists.
  - by exists 0%nat.
Qed.

(** ** Queries and argument binding *)






End Properties.

(** * Further properties *)

Section MoreProperties.
Context `{Platform}.

(** Unfold the plumbing of both monads. *)
Ltac meth_unfold :=
  unfold mbind, mret, Meth_bind, Meth_ret, Py_bind, Py_ret, lift_py, self_gets,
    self_modify, ask_controller, gets, modify, raise, datetime_now, print,
    banking in *.

(** ** Devices *)

(** X1.  [activate()] and [deactivate()] of every device class return True,
    and calling either a second time changes nothing but [last_updated]:
    the object after two calls is the object after one call with the later
    time stamp. *)
Theorem activate_deactivate_idempotent (d : AnyDevice) (w : World) :
  (exists d1 w1 w2,
     Device_activate d w = (Returned (true, d1), w1) /\
     status (base_of d1) = ACTIVE /\
     Device_activate d1 w1 =
       (Returned (true, touched (wall_clock (ticks (sys w1))) d1), w2)) /\
  (exists d1 w1 w2,
     Device_deactivate d w = (Returned (true, d1), w1) /\
     status (base_of d1) = INACTIVE /\
     Device_deactivate d1 w1 =
       (Returned (true, touched (wall_clock (ticks (sys w1))) d1), w2)).
Proof.
  split; destruct d as [l | t | c]; eexists _, _, _;
    (split; [reflexivity |]); split; reflexivity.
Qed.

(** X2.  [toggle_motion_detection()] returns the new setting, leaves status
    and recording alone, and a second call restores the first setting: after
    two calls the camera differs from the original in [last_updated]
    only. *)
Theorem toggle_motion_detection_twice (c : SecurityCamera) (w : World) :
  exists c1 w1 c2 w2,
    SecurityCamera_toggle_motion_detection c w
      = (Returned (negb (motion_detection c), c1), w1) /\
    status (camera_base c1) = status (camera_base c) /\
    recording c1 = recording c /\
    SecurityCamera_toggle_motion_detection c1 w1
      = (Returned (motion_detection c, c2), w2) /\
    Camera c2 = touched (wall_clock (ticks (sys w1))) (Camera c).
Proof.
  eexists _, _, _, _.
  split; [reflexivity |]. split; [reflexivity |]. split; [reflexivity |].
  simpl. unfold SecurityCamera_toggle_motion_detection. meth_unfold. simpl.
  rewrite negb_involutive.
  split; [reflexivity |]. destruct c as [base rec md res]. reflexivity.
Qed.

(** ** The registry *)

Lemma omap_agree {A B} (f g : A -> option B) (l : list A) :
  (forall x, x ∈ l -> f x = g x) -> omap f l = omap g l.
Proof.
  induction l as [| x l IH]; intros Hfg; [reflexivity |].
  assert (omap f l = omap g l) as Hrest.
  { apply IH. intros y Hy. apply Hfg. by right. }
  simpl. rewrite (Hfg x) by left.
  destruct (g x); [f_equal; exact Hrest | exact Hrest].
Qed.

Lemma omap_lookup_map_to_list {A} (m : gmap string A) (l : list (string * A)) :
  (forall kv, kv ∈ l -> m !! kv.1 = Some kv.2) ->
  omap (fun k => m !! k) l.*1 = l.*2.
Proof.
  induction l as [| [k v] l IH]; intros Hl; [reflexivity |].
  assert (omap (fun k => m !! k) l.*1 = l.*2) as Hrest.
  { apply IH. intros kv Hkv. apply Hl. by right. }
  pose proof (Hl (k, v) ltac:(left)) as Hkv. simpl in Hkv.
  simpl. rewrite Hkv. simpl. f_equal. exact Hrest.
Qed.

(** Under [order_ok], the objects read in insertion order are the values of
    the mapping, each once. *)
Lemma values_in_order (self : CityController) (w : World) :
  order_ok self w ->
  omap (fun k => _devices w !! k) (_device_order self)
    ≡ₚ (map_to_list (_devices w)).*2.
Proof.
  intros [Hnodup Hdom].
  rewrite <- (omap_lookup_map_to_list (_devices w) (map_to_list (_devices w))).
  - apply omap_Permutation. apply NoDup_Permutation.
    + exact Hnodup.
    + apply NoDup_fst_map_to_list.
    + intros k. rewrite Hdom. rewrite list_elem_of_fmap. split.
      * intros [d Hd]. exists (k, d). split; [reflexivity |].
        by apply elem_of_map_to_list.
      * intros [[k' d] [-> Hin]]. apply elem_of_map_to_list in Hin. by eexists.
  - intros [k d] Hin. by apply elem_of_map_to_list in Hin.
Qed.

Lemma update_active_count_eq (self : CityController) (w : World) :
  order_ok self w ->
  _update_active_count self w =
    (Returned tt,
     ctl_set_stats
       (stats_set_active_devices (Z.of_nat (active_count (_devices w))) (_stats self))
       self, w).
Proof.
  intros Hok. unfold _update_active_count, devices_values. meth_unfold.
  unfold active_count. by rewrite (values_in_order self w Hok).
Qed.

Lemma omap_lookup_insert_new (m : gmap string AnyDevice) (order : list string)
    (id : string) (d : AnyDevice) :
  id ∉ order ->
  omap (fun k => <[id := d]> m !! k) (order ++ [id])
    = omap (fun k => m !! k) order ++ [d].
Proof.
  intros Hfresh. rewrite omap_app. simpl. rewrite lookup_insert_eq. f_equal.
  apply omap_agree. intros k Hk. apply lookup_insert_ne. by intros ->.
Qed.

Lemma order_ok_register (self : CityController) (w : World) (id : string)
    (d : AnyDevice) (st : Stats) :
  order_ok self w ->
  _devices w !! id = None ->
  order_ok (ctl_set_stats st (ctl_set_order (_device_order self ++ [id]) self))
           (with_devices (<[id := d]> (_devices w)) w).
Proof.
  intros [Hnodup Hdom] Habsent. split; simpl.
  - apply NoDup_app. split; [exact Hnodup |]. split; [| apply NoDup_singleton].
    intros k Hk Hk'. apply list_elem_of_singleton in Hk'. subst k.
    apply Hdom in Hk. rewrite Habsent in Hk. by destruct Hk.
  - intros k. rewrite elem_of_app, list_elem_of_singleton, Hdom.
    destruct (decide (k = id)) as [-> | Hne].
    + rewrite lookup_insert_eq. split; [by eexists | by right].
    + rewrite lookup_insert_ne by done. split; [by intros [? | ?] | by left].
Qed.

(** X3.  [register_device] adds a device under its own id when the id is
    free: it returns True, the device is found by [get_device], the other
    ids keep their devices, the device comes last in [get_all_devices], and
    the cached count of active devices is right.  When the id is taken it
    returns False and changes nothing. *)
Theorem register_device_spec (d : AnyDevice) (self : CityController) (w : World) :
  order_ok self w ->
  (_devices w !! device_id (base_of d) = None ->
   exists self' w' listing,
     CityController_register_device d self w = (Returned true, self', w') /\
     order_ok self' w' /\
     get_device (device_id (base_of d)) w' = (Returned (Some d), w') /\
     (forall k, k ≠ device_id (base_of d) -> _devices w' !! k = _devices w !! k) /\
     CityController_get_all_devices self w = (Returned listing, self, w) /\
     CityController_get_all_devices self' w'
       = (Returned (listing ++ [AnyDevice_to_dict d]), self', w') /\
     active_devices (_stats self') = Z.of_nat (active_count (_devices w'))) /\
  (is_Some (_devices w !! device_id (base_of d)) ->
   CityController_register_device d self w = (Returned false, self, w)).
Proof.
  intros Hok. split.
  - intros Habsent.
    set (id := device_id (base_of d)) in *.
    set (w1 := with_devices (<[id := d]> (_devices w)) w).
    set (self1 := ctl_set_order (_device_order self ++ [id]) self).
    assert (order_ok self1 w1) as Hok1.
    { pose proof (order_ok_register self w id d (_stats self) Hok Habsent) as Hreg.
      destruct self; exact Hreg. }
    eexists _, w1, _. split.
    { unfold CityController_register_device, get_device. meth_unfold. fold id.
      rewrite Habsent. fold w1. fold self1.
      rewrite (update_active_count_eq self1 w1 Hok1). reflexivity. }
    split. { destruct Hok1 as [Hnodup Hdom]. split; [exact Hnodup | exact Hdom]. }
    split. { unfold get_device. meth_unfold. simpl. by rewrite lookup_insert_eq. }
    split. { intros k Hne. simpl. by rewrite lookup_insert_ne. }
    split. { reflexivity. }
    split.
    { unfold CityController_get_all_devices, devices_values. meth_unfold. simpl.
      rewrite omap_lookup_insert_new.
      - by rewrite fmap_app.
      - destruct Hok as [_ Hdom]. intros Hin. apply Hdom in Hin.
        rewrite Habsent in Hin. by destruct Hin. }
    reflexivity.
  - intros [d0 Hd0]. unfold CityController_register_device, get_device.
    meth_unfold. by rewrite Hd0.
Qed.

Lemma filter_all {A} (P : A -> Prop) `{forall x, Decision (P x)} (l : list A) :
  (forall x, x ∈ l -> P x) -> filter P l = l.
Proof.
  induction l as [| x l IH]; intros Hall; [reflexivity |].
  rewrite filter_cons. rewrite decide_True by (apply Hall; left).
  f_equal. apply IH. intros y Hy. apply Hall. by right.
Qed.

Lemma order_ok_unregister (self : CityController) (w : World) (id : string)
    (st : Stats) :
  order_ok self w ->
  order_ok
    (ctl_set_stats st
       (ctl_set_order (filter (fun k => k ≠ id) (_device_order self)) self))
    (with_devices (delete id (_devices w)) w).
Proof.
  intros [Hnodup Hdom]. split; simpl.
  - by apply NoDup_filter.
  - intros k. rewrite list_elem_of_filter, Hdom.
    destruct (decide (k = id)) as [-> | Hne].
    + rewrite lookup_delete_eq. split; [by intros [? _] | by intros [? ?]].
    + rewrite lookup_delete_ne by done. split; [by intros [_ ?] | done].
Qed.

(** X4.  [unregister_device] removes a registered id: it returns True,
    [get_device] no longer finds the id, the other ids keep their devices
    and the cached count of active devices is right.  For an id that is not
    registered it returns False and changes nothing. *)
Theorem unregister_device_spec (id : string) (self : CityController) (w : World) :
  order_ok self w ->
  (is_Some (_devices w !! id) ->
   exists self' w',
     CityController_unregister_device id self w = (Returned true, self', w') /\
     order_ok self' w' /\
     get_device id w' = (Returned None, w') /\
     (forall k, k ≠ id -> _devices w' !! k = _devices w !! k) /\
     active_devices (_stats self') = Z.of_nat (active_count (_devices w'))) /\
  (_devices w !! id = None ->
   CityController_unregister_device id self w = (Returned false, self, w)).
Proof.
  intros Hok. split.
  - intros [d Hd].
    set (w1 := with_devices (delete id (_devices w)) w).
    set (self1 := ctl_set_order (filter (fun k => k ≠ id) (_device_order self)) self).
    assert (order_ok self1 w1) as Hok1.
    { pose proof (order_ok_unregister self w id (_stats self) Hok) as Hun.
      destruct self; exact Hun. }
    eexists _, w1. split.
    { unfold CityController_unregister_device, get_device. meth_unfold.
      rewrite Hd. fold w1. fold self1.
      rewrite (update_active_count_eq self1 w1 Hok1). reflexivity. }
    split. { destruct Hok1 as [Hnodup Hdom]. split; [exact Hnodup | exact Hdom]. }
    split. { unfold get_device. meth_unfold. simpl. by rewrite lookup_delete_eq. }
    split. { intros k Hne. simpl. by rewrite lookup_delete_ne. }
    reflexivity.
  - intros Habsent. unfold CityController_unregister_device, get_device.
    meth_unfold. by rewrite Habsent.
Qed.

(** X5.  Registering a device under a free id and then unregistering that id
    gives back the registry as it was: the same mapping and the same
    insertion order. *)
Theorem register_unregister_round_trip (d : AnyDevice) (self : CityController)
    (w : World) :
  order_ok self w ->
  _devices w !! device_id (base_of d) = None ->
  exists self1 w1 self2 w2,
    CityController_register_device d self w = (Returned true, self1, w1) /\
    CityController_unregister_device (device_id (base_of d)) self1 w1
      = (Returned true, self2, w2) /\
    _devices w2 = _devices w /\
    _device_order self2 = _device_order self.
Proof.
  intros Hok Habsent.
  set (id := device_id (base_of d)) in *.
  set (w1 := with_devices (<[id := d]> (_devices w)) w).
  set (self1 := ctl_set_order (_device_order self ++ [id]) self).
  assert (order_ok self1 w1) as Hok1.
  { pose proof (order_ok_register self w id d (_stats self) Hok Habsent) as Hreg.
    destruct self; exact Hreg. }
  set (self1' := ctl_set_stats
                   (stats_set_active_devices
                      (Z.of_nat (active_count (_devices w1))) (_stats self1)) self1).
  set (w2 := with_devices (delete id (_devices w1)) w1).
  set (self2 := ctl_set_order (filter (fun k => k ≠ id) (_device_order self1')) self1').
  assert (order_ok self2 w2) as Hok2.
  { pose proof (order_ok_unregister self1 w1 id (_stats self1') Hok1) as Hun.
    destruct self; exact Hun. }
  exists self1', w1. eexists _, w2. split.
  { unfold CityController_register_device, get_device. meth_unfold. fold id.
    rewrite Habsent. fold w1. fold self1.
    rewrite (update_active_count_eq self1 w1 Hok1). reflexivity. }
  split.
  { unfold CityController_unregister_device, get_device. meth_unfold.
    replace (_devices w1 !! id) with (Some d)
      by (symmetry; apply lookup_insert_eq).
    fold w2. fold self2.
    rewrite (update_active_count_eq self2 w2 Hok2). reflexivity. }
  split.
  { simpl. rewrite delete_insert_eq. by apply delete_id. }
  simpl. rewrite filter_app.
  replace (filter (fun k => k ≠ id) [id]) with (@nil string)
    by (rewrite filter_cons, decide_False by (intros Hne; by apply Hne); done).
  rewrite app_nil_r. apply filter_all.
  intros k Hk ->. destruct Hok as [_ Hdom]. apply Hdom in Hk.
  rewrite Habsent in Hk. by destruct Hk.
Qed.

(** ** Commands keep the set of registered ids *)

Lemma order_ok_same_keys (self self' : CityController) (w w' : World) :
  order_ok self w ->
  same_keys w w' ->
  _device_order self' = _device_order self ->
  order_ok self' w'.
Proof.
  intros [Hnodup Hdom] Hkeys Horder. split; rewrite Horder; [exact Hnodup |].
  intros k. rewrite Hdom. apply Hkeys.
Qed.

Lemma same_keys_trans (w1 w2 w3 : World) :
  same_keys w1 w2 -> same_keys w2 w3 -> same_keys w1 w3.
Proof. intros H12 H23 k. rewrite (H12 k). apply H23. Qed.

(** Close a [same_keys] goal whose second world is the first with writes at
    the registered id [id]. *)
Ltac same_keys_at id Hd :=
  let k := fresh "k" in
  intros k; simpl;
  destruct (decide (k = id)) as [-> | ?];
  [ rewrite ?lookup_insert_eq, ?Hd; split; intros; by eexists
  | rewrite ?lookup_insert_ne by done; reflexivity ].

Lemma Command_execute_same_keys (self : nat) (w : World) :
  same_keys w (Command_execute self w).2.
Proof.
  unfold Command_execute, load_command. meth_unfold.
  destruct (commands w !! self) as [c |] eqn:Hc; [| done].
  destruct c as [id b saved | id saved | id saved | id saved | r a cu pt de tid]; simpl.
  - unfold LightOnCommand_execute, get_device. meth_unfold.
    destruct (_devices w !! id) as [d |] eqn:Hd; [| done].
    destruct d as [l | t | c]; simpl.
    + unfold StreetLight_set_brightness. meth_unfold.
      destruct ((0 <=? b) && (b <=? 100)); simpl; same_keys_at id Hd.
    + same_keys_at id Hd.
    + same_keys_at id Hd.
  - unfold LightOffCommand_execute, get_device. meth_unfold.
    destruct (_devices w !! id) as [d |] eqn:Hd; [| done].
    destruct d as [l | t | c]; simpl; same_keys_at id Hd.
  - unfold TrafficGreenCommand_execute, get_device. meth_unfold.
    destruct (_devices w !! id) as [d |] eqn:Hd; [| done].
    destruct d as [l | t | c]; simpl; try done. same_keys_at id Hd.
  - unfold TrafficRedCommand_execute, get_device. meth_unfold.
    destruct (_devices w !! id) as [d |] eqn:Hd; [| done].
    destruct d as [l | t | c]; simpl; try done. same_keys_at id Hd.
  - unfold ProcessPaymentCommand_execute. meth_unfold.
    destruct (process_payment r a cu pt de (bank w)) as [result b'].
    destruct (truthy (dict_get result "success" VNone)); simpl; [| done].
    unfold value_get. meth_unfold.
    destruct (dict_get result "transaction" (VDict ∅)); simpl; done.
Qed.

Lemma Command_undo_same_keys (self : nat) (w : World) :
  same_keys w (Command_undo self w).2.
Proof.
  unfold Command_undo, load_command. meth_unfold.
  destruct (commands w !! self) as [c |] eqn:Hc; [| done].
  destruct c as [id b saved | id saved | id saved | id saved | r a cu pt de tid]; simpl.
  - unfold LightOnCommand_undo, get_device. meth_unfold.
    case_bool_decide; [| done].
    destruct (_devices w !! id) as [d |] eqn:Hd; [| done].
    destruct d as [l | t | c]; simpl; same_keys_at id Hd.
  - unfold LightOffCommand_undo, get_device. meth_unfold.
    destruct (_devices w !! id) as [d |] eqn:Hd; [| done].
    destruct saved as [p |]; [| done].
    destruct (previous_brightness_truthy (Some p)); [| done].
    destruct d as [l | t | c]; simpl.
    + unfold StreetLight_set_brightness. meth_unfold.
      destruct ((0 <=? p) && (p <=? 100)); simpl; same_keys_at id Hd.
    + same_keys_at id Hd.
    + same_keys_at id Hd.
  - unfold TrafficGreenCommand_undo, Traffic_undo, get_device. meth_unfold.
    destruct saved as [p |]; [| done].
    destruct (previous_signal_truthy (Some p)); [| done].
    destruct (_devices w !! id) as [d |] eqn:Hd; [| done].
    destruct d as [l | t | c]; simpl; try done.
    unfold TrafficSignal_set_signal. meth_unfold.
    case_bool_decide; simpl; same_keys_at id Hd.
  - unfold TrafficRedCommand_undo, Traffic_undo, get_device. meth_unfold.
    destruct saved as [p |]; [| done].
    destruct (previous_signal_truthy (Some p)); [| done].
    destruct (_devices w !! id) as [d |] eqn:Hd; [| done].
    destruct d as [l | t | c]; simpl; try done.
    unfold TrafficSignal_set_signal. meth_unfold.
    case_bool_decide; simpl; same_keys_at id Hd.
  - unfold ProcessPaymentCommand_undo. meth_unfold.
    destruct (truthy tid); [| done].
    by destruct (refund_transaction tid (bank w)).
Qed.

(** A device-control command always returns: a dict with a [success] entry;
    the object keeps its class. *)
Lemma device_command_runs (self : nat) (c : Command) (id : string) (w : World) :
  commands w !! self = Some c ->
  target_device c = Some id ->
  exists r w1 c1,
    Command_execute self w = (Returned r, w1) /\
    commands w1 !! self = Some c1 /\
    Command_class_name c1 = Command_class_name c /\
    target_device c1 = Some id /\
    is_Some (r !! "success") /\
    (_devices w !! id = None -> r !! "success" = Some (VBool false) /\ w1 = w).
Proof.
  intros Hc Htarget.
  unfold Command_execute, load_command. meth_unfold. rewrite Hc.
  destruct c as [id' b saved | id' saved | id' saved | id' saved | r a cu pt de tid];
    simpl in Htarget; inversion Htarget; subst id'; clear Htarget; simpl.
  - unfold LightOnCommand_execute, get_device. meth_unfold.
    destruct (_devices w !! id) as [d |] eqn:Hd.
    + destruct d as [l | t | c]; simpl.
      * unfold StreetLight_set_brightness. meth_unfold.
        destruct ((0 <=? b) && (b <=? 100)); simpl;
          (eexists _, _, _; split; [reflexivity |]; simpl;
           split; [apply lookup_insert_eq |]; repeat split; first [by eexists | intros; discriminate | intros; reflexivity]).
      * eexists _, _, _; split; [reflexivity |]; simpl;
          split; [apply lookup_insert_eq |]; repeat split; first [by eexists | intros; discriminate | intros; reflexivity].
      * eexists _, _, _; split; [reflexivity |]; simpl;
          split; [apply lookup_insert_eq |]; repeat split; first [by eexists | intros; discriminate | intros; reflexivity].
    + eexists _, _, _; split; [reflexivity |]; simpl;
        split; [exact Hc |]; repeat split; first [by eexists | intros; discriminate | intros; reflexivity].
  - unfold LightOffCommand_execute, get_device. meth_unfold.
    destruct (_devices w !! id) as [d |] eqn:Hd.
    + destruct d as [l | t | c]; simpl;
        (eexists _, _, _; split; [reflexivity |]; simpl;
         split; [apply lookup_insert_eq |]; repeat split; first [by eexists | intros; discriminate | intros; reflexivity]).
    + eexists _, _, _; split; [reflexivity |]; simpl;
        split; [exact Hc |]; repeat split; first [by eexists | intros; discriminate | intros; reflexivity].
  - unfold TrafficGreenCommand_execute, get_device. meth_unfold.
    destruct (_devices w !! id) as [d |] eqn:Hd.
    + destruct d as [l | t | c]; simpl;
        try (eexists _, _, _; split; [reflexivity |]; simpl;
             split; [exact Hc |]; repeat split; first [by eexists | intros; discriminate | intros; reflexivity]).
      eexists _, _, _; split; [reflexivity |]; simpl;
        split; [apply lookup_insert_eq |]; repeat split; first [by eexists | intros; discriminate | intros; reflexivity].
    + eexists _, _, _; split; [reflexivity |]; simpl;
        split; [exact Hc |]; repeat split; first [by eexists | intros; discriminate | intros; reflexivity].
  - unfold TrafficRedCommand_execute, get_device. meth_unfold.
    destruct (_devices w !! id) as [d |] eqn:Hd.
    + destruct d as [l | t | c]; simpl;
        try (eexists _, _, _; split; [reflexivity |]; simpl;
             split; [exact Hc |]; repeat split; first [by eexists | intros; discriminate | intros; reflexivity]).
      eexists _, _, _; split; [reflexivity |]; simpl;
        split; [apply lookup_insert_eq |]; repeat split; first [by eexists | intros; discriminate | intros; reflexivity].
    + eexists _, _, _; split; [reflexivity |]; simpl;
        split; [exact Hc |]; repeat split; first [by eexists | intros; discriminate | intros; reflexivity].
Qed.

(** ** The controller's own command log and statistics *)

(** X6.  [execute_command] on a device-control command always returns the
    command's result; it appends one entry to the controller's log, with the
    class name of the command and the success flag of the result, adds one to
    [total_commands], and leaves the cached count of active devices equal to
    the number of registered devices that are ACTIVE.  An unregistered target
    is logged like any other, with success False. *)
Theorem execute_command_bookkeeping (command : nat) (c : Command) (id : string)
    (self : CityController) (w : World) :
  order_ok self w ->
  commands w !! command = Some c ->
  target_device c = Some id ->
  exists r self' w' stamp,
    CityController_execute_command command self w = (Returned r, self', w') /\
    (Command_execute command w).1 = Returned r /\
    _command_history self' =
      _command_history self ++
        [{| log_command := Command_class_name c; log_timestamp := stamp;
            log_success := dict_get r "success" (VBool false) |}] /\
    total_commands (_stats self') = total_commands (_stats self) + 1 /\
    active_devices (_stats self') = Z.of_nat (active_count (_devices w')) /\
    order_ok self' w' /\
    (_devices w !! id = None -> r !! "success" = Some (VBool false)).
Proof.
  intros Hok Hc Htarget.
  destruct (device_command_runs command c id w Hc Htarget)
    as (r & w1 & c1 & Hrun & Hc1 & Hname & _ & _ & Habsent).
  pose proof (Command_execute_same_keys command w) as Hkeys.
  rewrite Hrun in Hkeys. simpl in Hkeys.
  unfold CityController_execute_command, load_command. meth_unfold.
  rewrite Hrun, Hc1.
  match goal with
  | |- context [_update_active_count ?s ?x] =>
      assert (order_ok s x) as Hok1
        by (apply (order_ok_same_keys self s w x Hok); [exact Hkeys | reflexivity]);
      rewrite (update_active_count_eq s x Hok1)
  end.
  eexists _, _, _, _. split; [reflexivity |]. split; [reflexivity |].
  split; [simpl; by rewrite Hname |].
  split; [reflexivity |]. split; [reflexivity |].
  split.
  - apply (order_ok_same_keys self _ w _ Hok); [exact Hkeys | reflexivity].
  - intros Hnone. by destruct (Habsent Hnone).
Qed.

(** X7.  [undo_last_command] undoes nothing.  After [execute_command] on a
    device-control command it reports 'Attempted to undo <class name>', and
    the devices, the command log and the statistics stay as the execution
    left them. *)
Theorem undo_last_command_undoes_nothing (command : nat) (c : Command)
    (id : string) (self : CityController) (w : World) :
  order_ok self w ->
  commands w !! command = Some c ->
  target_device c = Some id ->
  exists r self1 w1,
    CityController_execute_command command self w = (Returned r, self1, w1) /\
    CityController_undo_last_command self1 w1 =
      (Returned (Some {[ "message" :=
                           VStr ("Attempted to undo " +:+ Command_class_name c) ]}),
       self1, w1).
Proof.
  intros Hok Hc Htarget.
  destruct (device_command_runs command c id w Hc Htarget)
    as (r & w1 & c1 & Hrun & Hc1 & Hname & _).
  pose proof (Command_execute_same_keys command w) as Hkeys.
  rewrite Hrun in Hkeys. simpl in Hkeys.
  unfold CityController_execute_command, load_command. meth_unfold.
  rewrite Hrun, Hc1.
  match goal with
  | |- context [_update_active_count ?s ?x] =>
      assert (order_ok s x) as Hok1
        by (apply (order_ok_same_keys self s w x Hok); [exact Hkeys | reflexivity]);
      rewrite (update_active_count_eq s x Hok1)
  end.
  eexists _, _, _. split; [reflexivity |].
  unfold CityController_undo_last_command. meth_unfold. simpl.
  rewrite last_snoc. simpl. by rewrite Hname.
Qed.

(** On an empty log [undo_last_command] returns [None]. *)
Lemma undo_last_command_empty (self : CityController) (w : World) :
  _command_history self = [] ->
  CityController_undo_last_command self w = (Returned None, self, w).
Proof.
  intros Hempty. unfold CityController_undo_last_command. meth_unfold.
  by rewrite Hempty.
Qed.

(** ** Direct device control *)

Lemma with_devices_id (w : World) : with_devices (_devices w) w = w.
Proof. by destruct w. Qed.

Lemma write_same_device (id : string) (d : AnyDevice) (w : World) :
  _devices w !! id = Some d ->
  with_devices (<[id := d]> (_devices w)) w = w.
Proof. intros Hd. rewrite insert_id by exact Hd. apply with_devices_id. Qed.

Lemma active_count_insert_new (m : gmap string AnyDevice) (id : string)
    (d : AnyDevice) :
  m !! id = None ->
  active_count (<[id := d]> m) =
    ((if decide (status (base_of d) = ACTIVE) then 1 else 0) + active_count m)%nat.
Proof.
  intros Hnone. unfold active_count.
  rewrite (map_to_list_insert m id d Hnone). simpl.
  rewrite filter_cons. by destruct (decide (status (base_of d) = ACTIVE)).
Qed.

(** Replacing a registered object changes the count by what the two objects
    contribute. *)
Lemma active_count_replace (m : gmap string AnyDevice) (id : string)
    (old new : AnyDevice) :
  m !! id = Some old ->
  (active_count (<[id := new]> m)
   + (if decide (status (base_of old) = ACTIVE) then 1 else 0)
   = active_count m
     + (if decide (status (base_of new) = ACTIVE) then 1 else 0))%nat.
Proof.
  intros Hold.
  rewrite <- (insert_delete_id m id old Hold) at 2.
  rewrite <- (insert_delete_eq m id new).
  rewrite !active_count_insert_new by apply lookup_delete_eq. lia.
Qed.

(** X8.  [set_light_brightness] on a registered street light: a brightness
    in [0,100] is stored, the light is Active exactly when it is positive,
    and the answer has success True; a brightness outside [0,100] gives
    success False and changes nothing.  On any other id -- not registered, or
    not a street light -- the answer is 'Street light <id> not found' and
    nothing changes.  The controller's own attributes are never touched. *)
Theorem set_light_brightness_spec (id : string) (b : Z) (self : CityController)
    (w : World) :
  (forall l, _devices w !! id = Some (Light l) -> 0 <= b <= 100 ->
     exists l' w',
       CityController_set_light_brightness id b self w =
         (Returned {[ "success" := VBool true; "device_id" := VStr id;
                      "brightness" := VInt b ]}, self, w') /\
       _devices w' = <[id := Light l']> (_devices w) /\
       brightness l' = b /\
       (status (light_base l') = ACTIVE <-> 0 < b)) /\
  (forall l, _devices w !! id = Some (Light l) -> ~ (0 <= b <= 100) ->
     CityController_set_light_brightness id b self w =
       (Returned {[ "success" := VBool false; "device_id" := VStr id;
                    "brightness" := VInt b ]}, self, w)) /\
  ((forall l, _devices w !! id ≠ Some (Light l)) ->
     CityController_set_light_brightness id b self w =
       (Returned {[ "success" := VBool false;
                    "error" := VStr ("Street light " +:+ id +:+ " not found") ]},
        self, w)).
Proof.
  split; [| split].
  - intros l Hd Hb.
    destruct (StreetLight_set_brightness_valid b l w Hb)
      as (l' & w1 & Hset & Hbr & Hst).
    unfold CityController_set_light_brightness, get_device, write_device.
    meth_unfold. rewrite Hd. simpl. meth_unfold. rewrite Hset.
    eexists l', _. split; [reflexivity |]. simpl.
    assert (_devices w1 = _devices w) as ->.
    { unfold StreetLight_set_brightness in Hset.
      destruct Hb as [Hlo Hhi]. apply Z.leb_le in Hlo, Hhi.
      rewrite Hlo, Hhi in Hset. simpl in Hset. meth_unfold.
      by inversion Hset. }
    split; [reflexivity |]. split; [exact Hbr |].
    rewrite Hst. destruct (Z.ltb_spec 0 b); split; intros; try done; lia.
  - intros l Hd Hb.
    unfold CityController_set_light_brightness, get_device, write_device.
    meth_unfold. rewrite Hd. simpl. meth_unfold.
    rewrite (StreetLight_set_brightness_invalid b l w Hb).
    by rewrite (write_same_device id (Light l) w Hd).
  - intros Hnot.
    unfold CityController_set_light_brightness, get_device. meth_unfold.
    destruct (_devices w !! id) as [[l | t | c] |] eqn:Hd; try reflexivity.
    by destruct (Hnot l).
Qed.

(** X9.  [set_light_brightness] does not refresh the cached count of active
    devices.  When the count is right and a registered light that is not
    Active is given a brightness in [1,100], the light becomes Active and the
    count the controller reports is one less than the number of Active
    devices. *)
Theorem set_light_brightness_leaves_count_stale (id : string) (b : Z)
    (l : StreetLight) (self : CityController) (w : World) :
  _devices w !! id = Some (Light l) ->
  status (light_base l) ≠ ACTIVE ->
  0 < b <= 100 ->
  active_devices (_stats self) = Z.of_nat (active_count (_devices w)) ->
  exists r self' w',
    CityController_set_light_brightness id b self w = (Returned r, self', w') /\
    r !! "success" = Some (VBool true) /\
    active_devices (_stats self') + 1 = Z.of_nat (active_count (_devices w')).
Proof.
  intros Hd Hoff Hb Hcount.
  destruct (StreetLight_set_brightness_valid b l w ltac:(lia))
    as (l' & w1 & Hset & Hbr & Hst).
  unfold CityController_set_light_brightness, get_device, write_device.
  meth_unfold. rewrite Hd. simpl. meth_unfold. rewrite Hset.
  eexists _, _, _. split; [reflexivity |]. split; [reflexivity |]. simpl.
  assert (_devices w1 = _devices w) as ->.
  { unfold StreetLight_set_brightness in Hset.
    destruct Hb as [Hlo Hhi]. apply Z.lt_le_incl, Z.leb_le in Hlo.
    apply Z.leb_le in Hhi.
    rewrite Hlo, Hhi in Hset. simpl in Hset. meth_unfold.
    by inversion Hset. }
  pose proof (active_count_replace (_devices w) id (Light l) (Light l') Hd) as Hrep.
  simpl in Hrep. rewrite Hst in Hrep.
  destruct (Z.ltb_spec 0 b); [| lia].
  rewrite decide_False in Hrep by exact Hoff.
  rewrite decide_True in Hrep by reflexivity. lia.
Qed.

Lemma Device_activate_effect (d : AnyDevice) (w : World) :
  exists d' w',
    Device_activate d w = (Returned (true, d'), w') /\
    status (base_of d') = ACTIVE /\ _devices w' = _devices w /\
    commands w' = commands w /\ service w' = service w /\
    observers w' = observers w.
Proof. destruct d; eexists _, _; (split; [reflexivity | done]). Qed.

Lemma Device_deactivate_effect (d : AnyDevice) (w : World) :
  exists d' w',
    Device_deactivate d w = (Returned (true, d'), w') /\
    status (base_of d') = INACTIVE /\ _devices w' = _devices w /\
    commands w' = commands w /\ service w' = service w /\
    observers w' = observers w.
Proof. destruct d; eexists _, _; (split; [reflexivity | done]). Qed.

(** X10.  [activate_device] and [deactivate_device] on a registered id
    answer success True, leave the device ACTIVE, respectively INACTIVE, and
    refresh the cached count of active devices; on an id that is not
    registered they answer 'Device <id> not found' and change nothing. *)
Theorem activate_deactivate_device_spec (id : string) (self : CityController)
    (w : World) :
  order_ok self w ->
  (forall d, _devices w !! id = Some d ->
     (exists d' self' w',
        CityController_activate_device id self w =
          (Returned {[ "success" := VBool true; "device_id" := VStr id;
                       "action" := VStr "activate" ]}, self', w') /\
        _devices w' = <[id := d']> (_devices w) /\
        status (base_of d') = ACTIVE /\
        active_devices (_stats self') = Z.of_nat (active_count (_devices w'))) /\
     (exists d' self' w',
        CityController_deactivate_device id self w =
          (Returned {[ "success" := VBool true; "device_id" := VStr id;
                       "action" := VStr "deactivate" ]}, self', w') /\
        _devices w' = <[id := d']> (_devices w) /\
        status (base_of d') = INACTIVE /\
        active_devices (_stats self') = Z.of_nat (active_count (_devices w')))) /\
  (_devices w !! id = None ->
     CityController_activate_device id self w =
       (Returned {[ "success" := VBool false;
                    "error" := VStr ("Device " +:+ id +:+ " not found") ]}, self, w) /\
     CityController_deactivate_device id self w =
       (Returned {[ "success" := VBool false;
                    "error" := VStr ("Device " +:+ id +:+ " not found") ]}, self, w)).
Proof.
  intros Hok. split.
  - intros d Hd. split.
    + destruct (Device_activate_effect d w) as (d' & w1 & Hrun & Hst & Hdev & _).
      unfold CityController_activate_device, get_device, write_device.
      meth_unfold. rewrite Hd, Hrun.
      match goal with
      | |- context [_update_active_count ?s ?x] =>
          assert (order_ok s x) as Hok1;
          [| rewrite (update_active_count_eq s x Hok1)]
      end.
      { apply (order_ok_same_keys self self w _ Hok); [| reflexivity].
        intros k. simpl. rewrite Hdev.
        destruct (decide (k = id)) as [-> | Hne].
        - rewrite lookup_insert_eq, Hd. split; intros; by eexists.
        - by rewrite lookup_insert_ne. }
      eexists d', _, _. split; [reflexivity |]. simpl. rewrite Hdev. done.
    + destruct (Device_deactivate_effect d w) as (d' & w1 & Hrun & Hst & Hdev & _).
      unfold CityController_deactivate_device, get_device, write_device.
      meth_unfold. rewrite Hd, Hrun.
      match goal with
      | |- context [_update_active_count ?s ?x] =>
          assert (order_ok s x) as Hok1;
          [| rewrite (update_active_count_eq s x Hok1)]
      end.
      { apply (order_ok_same_keys self self w _ Hok); [| reflexivity].
        intros k. simpl. rewrite Hdev.
        destruct (decide (k = id)) as [-> | Hne].
        - rewrite lookup_insert_eq, Hd. split; intros; by eexists.
        - by rewrite lookup_insert_ne. }
      eexists d', _, _. split; [reflexivity |]. simpl. rewrite Hdev. done.
  - intros Hnone.
    unfold CityController_activate_device, CityController_deactivate_device,
      get_device. meth_unfold. by rewrite Hnone.
Qed.

(** X11.  [set_traffic_signal] on a registered traffic signal: 'red',
    'yellow' and 'green' are stored and leave the signal ACTIVE, whatever its
    status was, with success True; any other string gives success False and
    changes nothing.  On any other id -- not registered, or not a traffic
    signal -- the answer is 'Traffic signal <id> not found' and nothing
    changes. *)
Theorem set_traffic_signal_spec (id signal : string) (self : CityController)
    (w : World) :
  (forall t, _devices w !! id = Some (Signal t) ->
     signal ∈ ["red"; "yellow"; "green"] ->
     exists t' w',
       CityController_set_traffic_signal id signal self w =
         (Returned {[ "success" := VBool true; "device_id" := VStr id;
                      "signal" := VStr signal ]}, self, w') /\
       _devices w' = <[id := Signal t']> (_devices w) /\
       current_signal t' = signal /\
       status (signal_base t') = ACTIVE) /\
  (forall t, _devices w !! id = Some (Signal t) ->
     signal ∉ ["red"; "yellow"; "green"] ->
     CityController_set_traffic_signal id signal self w =
       (Returned {[ "success" := VBool false; "device_id" := VStr id;
                    "signal" := VStr signal ]}, self, w)) /\
  ((forall t, _devices w !! id ≠ Some (Signal t)) ->
     CityController_set_traffic_signal id signal self w =
       (Returned {[ "success" := VBool false;
                    "error" := VStr ("Traffic signal " +:+ id +:+ " not found") ]},
        self, w)).
Proof.
  split; [| split].
  - intros t Hd Hin.
    unfold CityController_set_traffic_signal, get_device, write_device.
    meth_unfold. rewrite Hd. simpl. unfold TrafficSignal_set_signal. meth_unfold.
    rewrite bool_decide_eq_true_2 by exact Hin. simpl.
    eexists _, _. split; [reflexivity |]. done.
  - intros t Hd Hout.
    unfold CityController_set_traffic_signal, get_device, write_device.
    meth_unfold. rewrite Hd. simpl. unfold TrafficSignal_set_signal. meth_unfold.
    rewrite bool_decide_eq_false_2 by exact Hout. simpl.
    by rewrite (write_same_device id (Signal t) w Hd).
  - intros Hnot.
    unfold CityController_set_traffic_signal, get_device. meth_unfold.
    destruct (_devices w !! id) as [[l | t | c] |] eqn:Hd; try reflexivity.
    by destruct (Hnot t).
Qed.

(** ** More about the commands *)

(** X12.  [LightOffCommand] on a registered street light whose brightness is
    in [1,100]: [execute()] turns the light off, and the [undo()] that
    follows returns success and brings the brightness back exactly, with the
    light ACTIVE and its other fields untouched. *)
Theorem light_off_round_trip (w : World) (self : nat) (id : string)
    (saved : option Z) (l : StreetLight) :
  commands w !! self = Some (LightOffCommand id saved) ->
  _devices w !! id = Some (Light l) ->
  0 < brightness l <= 100 ->
  exists r1 w1 l1 w2 l2,
    Command_execute self w = (Returned r1, w1) /\
    r1 !! "success" = Some (VBool true) /\
    _devices w1 !! id = Some (Light l1) /\
    status (light_base l1) = INACTIVE /\ brightness l1 = 0 /\
    Command_undo self w1 =
      (Returned {[ "success" := VBool true; "action" := VStr "undo_light_off" ]}, w2) /\
    _devices w2 !! id = Some (Light l2) /\
    brightness l2 = brightness l /\
    status (light_base l2) = ACTIVE /\
    auto_mode l2 = auto_mode l /\
    device_id (light_base l2) = device_id (light_base l) /\
    name (light_base l2) = name (light_base l) /\
    location (light_base l2) = location (light_base l).
Proof.
  intros Hc Hd [Hlo Hhi].
  unfold Command_execute, load_command. meth_unfold. rewrite Hc.
  unfold LightOffCommand_execute, get_device. meth_unfold. rewrite Hd. simpl.
  eexists _, _, _, _, _. split; [reflexivity |]. split; [reflexivity |].
  simpl. split; [apply lookup_insert_eq |].
  split; [reflexivity |]. split; [reflexivity |].
  unfold Command_undo, load_command. meth_unfold. simpl.
  rewrite lookup_insert_eq.
  unfold LightOffCommand_undo, get_device. meth_unfold. simpl.
  rewrite lookup_insert_eq. simpl.
  assert (negb (brightness l =? 0) = true) as ->
    by (apply negb_true_iff, Z.eqb_neq; lia).
  unfold StreetLight_set_brightness. meth_unfold.
  assert ((0 <=? brightness l) && (brightness l <=? 100) = true) as ->
    by (apply andb_true_iff; split; apply Z.leb_le; lia).
  assert ((0 <? brightness l) = true) as -> by (apply Z.ltb_lt; lia).
  simpl. split; [reflexivity |]. simpl.
  split; [apply lookup_insert_eq |]. done.
Qed.

(** X13.  [TrafficGreenCommand] and [TrafficRedCommand] on a registered
    traffic signal showing 'red', 'yellow' or 'green': [execute()] sets the
    signal of the command, and the [undo()] that follows puts the previous
    signal back.  The signal is ACTIVE after either call, also when it was
    not ACTIVE before [execute()]. *)
Theorem traffic_command_round_trip (w : World) (self : nat) (id : string)
    (saved : option string) (t : TrafficSignal) (green : bool) :
  commands w !! self =
    Some (if green then TrafficGreenCommand id saved else TrafficRedCommand id saved) ->
  _devices w !! id = Some (Signal t) ->
  current_signal t ∈ ["red"; "yellow"; "green"] ->
  exists r1 w1 t1 r2 w2 t2,
    Command_execute self w = (Returned r1, w1) /\
    r1 !! "success" = Some (VBool true) /\
    _devices w1 !! id = Some (Signal t1) /\
    current_signal t1 = (if green then "green" else "red") /\
    status (signal_base t1) = ACTIVE /\
    Command_undo self w1 = (Returned r2, w2) /\
    r2 !! "success" = Some (VBool true) /\
    _devices w2 !! id = Some (Signal t2) /\
    current_signal t2 = current_signal t /\
    status (signal_base t2) = ACTIVE /\
    cycle_duration t2 = cycle_duration t.
Proof.
  intros Hc Hd Hvalid.
  assert (previous_signal_truthy (Some (current_signal t)) = true) as Htruthy.
  { simpl. apply negb_true_iff.
    set_unfold in Hvalid.
    destruct Hvalid as [-> | [-> | [-> | []]]]; reflexivity. }
  unfold Command_execute, load_command. meth_unfold. rewrite Hc.
  destruct green; simpl.
  - unfold TrafficGreenCommand_execute, get_device. meth_unfold. rewrite Hd. simpl.
    eexists _, _, _, _, _, _. split; [reflexivity |]. split; [reflexivity |].
    simpl. split; [apply lookup_insert_eq |].
    split; [reflexivity |]. split; [reflexivity |].
    unfold Command_undo, load_command. meth_unfold. simpl.
    rewrite lookup_insert_eq.
    unfold TrafficGreenCommand_undo, Traffic_undo, get_device. meth_unfold.
    rewrite Htruthy. simpl. rewrite lookup_insert_eq. simpl.
    unfold TrafficSignal_set_signal. meth_unfold.
    rewrite bool_decide_eq_true_2 by exact Hvalid. simpl.
    split; [reflexivity |]. split; [reflexivity |]. simpl.
    split; [apply lookup_insert_eq |]. done.
  - unfold TrafficRedCommand_execute, get_device. meth_unfold. rewrite Hd. simpl.
    eexists _, _, _, _, _, _. split; [reflexivity |]. split; [reflexivity |].
    simpl. split; [apply lookup_insert_eq |].
    split; [reflexivity |]. split; [reflexivity |].
    unfold Command_undo, load_command. meth_unfold. simpl.
    rewrite lookup_insert_eq.
    unfold TrafficRedCommand_undo, Traffic_undo, get_device. meth_unfold.
    rewrite Htruthy. simpl. rewrite lookup_insert_eq. simpl.
    unfold TrafficSignal_set_signal. meth_unfold.
    rewrite bool_decide_eq_true_2 by exact Hvalid. simpl.
    split; [reflexivity |]. split; [reflexivity |]. simpl.
    split; [apply lookup_insert_eq |]. done.
Qed.

(** X14.  [LightOnCommand.execute()] on a registered street light always
    reports success and echoes the brightness it was built with; the light
    itself gets that brightness only when it lies in [0,100] and is left at
    100 otherwise, and it is ACTIVE exactly when its brightness is positive
    (so a command built with brightness 0 leaves the light off).  The state
    saved for undo is the state before the call. *)
Theorem light_on_execute_effect (w : World) (self : nat) (id : string) (b : Z)
    (saved : option PreviousState) (l : StreetLight) :
  commands w !! self = Some (LightOnCommand id b saved) ->
  _devices w !! id = Some (Light l) ->
  exists r w1 l1,
    Command_execute self w = (Returned r, w1) /\
    r !! "success" = Some (VBool true) /\
    r !! "brightness" = Some (VInt b) /\
    _devices w1 !! id = Some (Light l1) /\
    brightness l1 = (if (0 <=? b) && (b <=? 100) then b else 100) /\
    (status (light_base l1) = ACTIVE <-> 0 < brightness l1) /\
    commands w1 !! self =
      Some (LightOnCommand id b
              (Some {| prev_status := status (light_base l);
                       prev_brightness := brightness l |})).
Proof.
  intros Hc Hd.
  unfold Command_execute, load_command. meth_unfold. rewrite Hc.
  unfold LightOnCommand_execute, get_device. meth_unfold. rewrite Hd. simpl.
  unfold StreetLight_set_brightness. meth_unfold.
  destruct ((0 <=? b) && (b <=? 100)) eqn:Hrange; simpl.
  - eexists _, _, _. split; [reflexivity |]. split; [reflexivity |].
    split; [reflexivity |]. simpl. split; [apply lookup_insert_eq |].
    split; [reflexivity |]. split; [| apply lookup_insert_eq].
    simpl. destruct (Z.ltb_spec 0 b); split; intros; try done; lia.
  - eexists _, _, _. split; [reflexivity |]. split; [reflexivity |].
    split; [reflexivity |]. simpl. split; [apply lookup_insert_eq |].
    split; [reflexivity |]. split; [| apply lookup_insert_eq].
    simpl. split; [lia | done].
Qed.

(** X15.  The signal commands act on traffic signals only: on a registered
    street light or camera [execute()] answers 'Traffic signal <id> not
    found' and changes nothing.  The light commands act on whatever is
    registered: on a traffic signal [LightOnCommand.execute()] succeeds and
    leaves the signal green and ACTIVE, [LightOffCommand.execute()] succeeds
    and leaves it red and INACTIVE. *)
Theorem commands_and_device_classes (w : World) (self : nat) (id : string) :
  (forall saved (green : bool) d,
     commands w !! self =
       Some (if green then TrafficGreenCommand id saved
             else TrafficRedCommand id saved) ->
     _devices w !! id = Some d ->
     has_set_signal d = false ->
     Command_execute self w =
       (Returned {[ "success" := VBool false;
                    "error" := VStr ("Traffic signal " +:+ id +:+ " not found") ]},
        w)) /\
  (forall b saved t,
     commands w !! self = Some (LightOnCommand id b saved) ->
     _devices w !! id = Some (Signal t) ->
     exists r w1 t1,
       Command_execute self w = (Returned r, w1) /\
       r !! "success" = Some (VBool true) /\
       _devices w1 !! id = Some (Signal t1) /\
       current_signal t1 = "green" /\ status (signal_base t1) = ACTIVE) /\
  (forall saved t,
     commands w !! self = Some (LightOffCommand id saved) ->
     _devices w !! id = Some (Signal t) ->
     exists r w1 t1,
       Command_execute self w = (Returned r, w1) /\
       r !! "success" = Some (VBool true) /\
       _devices w1 !! id = Some (Signal t1) /\
       current_signal t1 = "red" /\ status (signal_base t1) = INACTIVE).
Proof.
  split; [| split].
  - intros saved green d Hc Hd Hnot.
    unfold Command_execute, load_command. meth_unfold. rewrite Hc.
    destruct green; simpl;
      unfold TrafficGreenCommand_execute, TrafficRedCommand_execute, get_device;
      meth_unfold; rewrite Hd, Hnot; reflexivity.
  - intros b saved t Hc Hd.
    unfold Command_execute, load_command. meth_unfold. rewrite Hc.
    unfold LightOnCommand_execute, get_device. meth_unfold. rewrite Hd. simpl.
    eexists _, _, _. split; [reflexivity |]. split; [reflexivity |]. simpl.
    split; [apply lookup_insert_eq | done].
  - intros saved t Hc Hd.
    unfold Command_execute, load_command. meth_unfold. rewrite Hc.
    unfold LightOffCommand_execute, get_device. meth_unfold. rewrite Hd. simpl.
    eexists _, _, _. split; [reflexivity |]. split; [reflexivity |]. simpl.
    split; [apply lookup_insert_eq | done].
Qed.

(** ** The invoker over sequences of calls *)

Lemma Command_execute_frame (self : nat) (w : World) :
  invoker (Command_execute self w).2 = invoker w /\
  service (Command_execute self w).2 = service w /\
  observers (Command_execute self w).2 = observers w.
Proof.
  unfold Command_execute, load_command. meth_unfold.
  destruct (commands w !! self) as [c |] eqn:Hc; [| done].
  destruct c as [id b saved | id saved | id saved | id saved | r a cu pt de tid]; simpl.
  - unfold LightOnCommand_execute, get_device. meth_unfold.
    destruct (_devices w !! id) as [d |] eqn:Hd; [| done].
    destruct d as [l | t | c]; simpl; try done.
    unfold StreetLight_set_brightness. meth_unfold.
    destruct ((0 <=? b) && (b <=? 100)); simpl; done.
  - unfold LightOffCommand_execute, get_device. meth_unfold.
    destruct (_devices w !! id) as [d |] eqn:Hd; [| done].
    destruct d as [l | t | c]; simpl; done.
  - unfold TrafficGreenCommand_execute, get_device. meth_unfold.
    destruct (_devices w !! id) as [d |] eqn:Hd; [| done].
    destruct d as [l | t | c]; simpl; done.
  - unfold TrafficRedCommand_execute, get_device. meth_unfold.
    destruct (_devices w !! id) as [d |] eqn:Hd; [| done].
    destruct d as [l | t | c]; simpl; done.
  - unfold ProcessPaymentCommand_execute. meth_unfold.
    destruct (process_payment r a cu pt de (bank w)) as [result b'].
    destruct (truthy (dict_get result "success" VNone)); simpl; [| done].
    unfold value_get. meth_unfold.
    destruct (dict_get result "transaction" (VDict ∅)); simpl; done.
Qed.

Lemma Command_undo_frame (self : nat) (w : World) :
  invoker (Command_undo self w).2 = invoker w /\
  service (Command_undo self w).2 = service w /\
  observers (Command_undo self w).2 = observers w.
Proof.
  unfold Command_undo, load_command. meth_unfold.
  destruct (commands w !! self) as [c |] eqn:Hc; [| done].
  destruct c as [id b saved | id saved | id saved | id saved | r a cu pt de tid]; simpl.
  - unfold LightOnCommand_undo, get_device. meth_unfold.
    case_bool_decide; [| done].
    destruct (_devices w !! id) as [d |] eqn:Hd; [| done].
    destruct d as [l | t | c]; simpl; done.
  - unfold LightOffCommand_undo, get_device. meth_unfold.
    destruct (_devices w !! id) as [d |] eqn:Hd; [| done].
    destruct saved as [p |]; [| done].
    destruct (previous_brightness_truthy (Some p)); [| done].
    destruct d as [l | t | c]; simpl; try done.
    unfold StreetLight_set_brightness. meth_unfold.
    destruct ((0 <=? p) && (p <=? 100)); simpl; done.
  - unfold TrafficGreenCommand_undo, Traffic_undo, get_device. meth_unfold.
    destruct saved as [p |]; [| done].
    destruct (previous_signal_truthy (Some p)); [| done].
    destruct (_devices w !! id) as [d |] eqn:Hd; [| done].
    destruct d as [l | t | c]; simpl; try done.
    unfold TrafficSignal_set_signal. meth_unfold.
    case_bool_decide; simpl; done.
  - unfold TrafficRedCommand_undo, Traffic_undo, get_device. meth_unfold.
    destruct saved as [p |]; [| done].
    destruct (previous_signal_truthy (Some p)); [| done].
    destruct (_devices w !! id) as [d |] eqn:Hd; [| done].
    destruct d as [l | t | c]; simpl; try done.
    unfold TrafficSignal_set_signal. meth_unfold.
    case_bool_decide; simpl; done.
  - unfold ProcessPaymentCommand_undo. meth_unfold.
    destruct (truthy tid); [| done].
    by destruct (refund_transaction tid (bank w)).
Qed.

(** One call: what it does to the history and to the stack, if it returns. *)
Lemma CommandInvoker_call_effect (c : InvokerCall) (w w' : World) :
  CommandInvoker_call c w = (Returned tt, w') ->
  h_command <$> _history (invoker w') =
    (h_command <$> _history (invoker w)) ++ executed [c] /\
  _undo_stack (invoker w') = stack_after (_undo_stack (invoker w)) [c].
Proof.
  destruct c as [command |]; simpl.
  - unfold CommandInvoker_execute. meth_unfold.
    destruct (Command_execute_frame command w) as (Hinv & _).
    destruct (Command_execute command w) as [[r | e] w1]; [| discriminate].
    simpl in Hinv. intros [= <-]. simpl. rewrite Hinv.
    by rewrite fmap_app.
  - unfold CommandInvoker_undo. meth_unfold.
    destruct (last (_undo_stack (invoker w))) as [command |] eqn:Hlast.
    + match goal with
      | |- context [Command_undo command ?x] =>
          destruct (Command_undo_frame command x) as (Hinv & _);
          destruct (Command_undo command x) as [[r | e] w1]; [| discriminate]
      end.
      simpl in Hinv. intros [= <-]. rewrite Hinv. simpl.
      by rewrite app_nil_r.
    + intros [= <-]. rewrite app_nil_r. split; [reflexivity |].
      apply last_None in Hlast. by rewrite Hlast.
Qed.

(** X16.  Over any sequence of [execute] and [undo] calls on the invoker
    that returns, the history grows by exactly the executed commands, in the
    order of execution -- [undo] never touches it -- and the undo stack is
    the stack the calls describe: a push for every [execute], a pop of the
    most recent entry for every [undo], nothing for an [undo] on an empty
    stack. *)
Theorem invoker_history_and_stack (cs : list InvokerCall) :
  forall w w' : World,
    CommandInvoker_calls cs w = (Returned tt, w') ->
    h_command <$> _history (invoker w') =
      (h_command <$> _history (invoker w)) ++ executed cs /\
    _undo_stack (invoker w') = stack_after (_undo_stack (invoker w)) cs.
Proof.
  induction cs as [| c cs IH]; intros w w' Hrun.
  - inversion Hrun; subst. by rewrite app_nil_r.
  - simpl in Hrun. unfold mbind, Py_bind in Hrun.
    destruct (CommandInvoker_call c w) as [[[] | e] w1] eqn:Hcall; [| discriminate].
    destruct (CommandInvoker_call_effect c w w1 Hcall) as [Hh Hs].
    destruct (IH w1 w' Hrun) as [Hh' Hs'].
    split.
    + rewrite Hh', Hh. rewrite <- app_assoc. f_equal.
      unfold executed. by destruct c.
    + rewrite Hs', Hs. reflexivity.
Qed.

(** X17.  One [LightOffCommand] object executed twice through the invoker
    cannot be undone at all.  The second [execute()] overwrites the
    brightness the first one saved with 0, both stack entries are that same
    object, and both [undo()] calls answer 'Cannot undo': the light stays
    INACTIVE at brightness 0 whatever it was at the start. *)
Theorem light_off_twice_cannot_be_undone (w : World) (self : nat) (id : string)
    (saved : option Z) (l : StreetLight) :
  commands w !! self = Some (LightOffCommand id saved) ->
  _devices w !! id = Some (Light l) ->
  exists r1 w1 r2 w2 w3 w4 l4,
    CommandInvoker_execute self w = (Returned r1, w1) /\
    CommandInvoker_execute self w1 = (Returned r2, w2) /\
    _undo_stack (invoker w2) = _undo_stack (invoker w) ++ [self; self] /\
    CommandInvoker_undo w2 =
      (Returned (Some {[ "success" := VBool false; "error" := VStr "Cannot undo" ]}),
       w3) /\
    CommandInvoker_undo w3 =
      (Returned (Some {[ "success" := VBool false; "error" := VStr "Cannot undo" ]}),
       w4) /\
    _undo_stack (invoker w4) = _undo_stack (invoker w) /\
    _devices w4 !! id = Some (Light l4) /\
    status (light_base l4) = INACTIVE /\ brightness l4 = 0.
Proof.
  intros Hc Hd.
  unfold CommandInvoker_execute, Command_execute, load_command. meth_unfold.
  rewrite Hc.
  unfold LightOffCommand_execute, get_device. meth_unfold. rewrite Hd. simpl.
  eexists _, _, _, _, _, _, _. split; [reflexivity |]. simpl.
  repeat (rewrite lookup_insert_eq; simpl).
  split; [reflexivity |]. simpl.
  split; [by rewrite <- app_assoc |].
  unfold CommandInvoker_undo, Command_undo, load_command. meth_unfold. simpl.
  rewrite last_snoc. simpl. repeat (rewrite lookup_insert_eq; simpl).
  unfold LightOffCommand_undo, get_device. meth_unfold. simpl.
  repeat (rewrite lookup_insert_eq; simpl).
  split; [reflexivity |]. simpl.
  rewrite length_app, Nat.add_sub, take_app_length.
  rewrite last_snoc. simpl. repeat (rewrite lookup_insert_eq; simpl).
  split; [reflexivity |]. simpl.
  rewrite length_app, Nat.add_sub, take_app_length.
  split; [reflexivity |].
  split; [apply lookup_insert_eq | done].
Qed.

(** X18.  [ProcessPaymentCommand]: [execute()] returns what the banking
    collaborator answered.  When the answer has no true [success], nothing
    is saved, and an [undo()] on a command that had no transaction answers
    'No transaction to refund' without calling the bank.  When the answer
    has a true [success] and a [transaction] dict, the command saves that
    dict's [transaction_id], and [undo()] asks the bank to refund exactly
    that id if it is a true value. *)
Theorem payment_command_spec (w : World) (self : nat) (resident : string)
    (amount : value) (currency payment_type description : string)
    (result : Dict) (b' : Bank) :
  commands w !! self =
    Some (ProcessPaymentCommand resident amount currency payment_type
            description VNone) ->
  process_payment resident amount currency payment_type description (bank w)
    = (result, b') ->
  (truthy (dict_get result "success" VNone) = false ->
   Command_execute self w = (Returned result, with_bank b' w) /\
   Command_undo self (with_bank b' w) =
     (Returned {[ "success" := VBool false;
                  "error" := VStr "No transaction to refund" ]}, with_bank b' w)) /\
  (truthy (dict_get result "success" VNone) = true ->
   forall tx,
     result !! "transaction" = Some (VDict tx) ->
     exists w1,
       Command_execute self w = (Returned result, w1) /\
       commands w1 !! self =
         Some (ProcessPaymentCommand resident amount currency payment_type
                 description (dict_get tx "transaction_id" VNone)) /\
       bank w1 = b' /\
       (truthy (dict_get tx "transaction_id" VNone) = true ->
        Command_undo self w1 =
          banking (refund_transaction (dict_get tx "transaction_id" VNone)) w1)).
Proof.
  intros Hc Hpay. split.
  - intros Hfail.
    unfold Command_execute, load_command. meth_unfold. rewrite Hc.
    unfold ProcessPaymentCommand_execute. meth_unfold. rewrite Hpay, Hfail.
    split; [reflexivity |].
    unfold Command_undo, load_command. meth_unfold. simpl. rewrite Hc.
    reflexivity.
  - intros Hok tx Htx.
    unfold Command_execute, load_command. meth_unfold. rewrite Hc.
    unfold ProcessPaymentCommand_execute. meth_unfold. rewrite Hpay, Hok.
    unfold dict_get at 1. rewrite Htx. simpl. meth_unfold.
    eexists. split; [reflexivity |]. simpl.
    split; [apply lookup_insert_eq |]. split; [reflexivity |].
    intros Htid.
    unfold Command_undo, load_command. meth_unfold. simpl.
    rewrite lookup_insert_eq. unfold ProcessPaymentCommand_undo.
    by rewrite Htid.
Qed.

(** ** The subject: attaching, detaching, filtering *)

Lemma list_remove_snoc (x : nat) (l : list nat) :
  x ∉ l -> list_remove x (l ++ [x]) = l.
Proof.
  induction l as [| y l IH]; intros Hx; simpl.
  - by rewrite bool_decide_eq_true_2.
  - apply not_elem_of_cons in Hx as [Hne Hx].
    rewrite bool_decide_eq_false_2 by exact Hne. f_equal. by apply IH.
Qed.

Lemma with_service_id (w : World) : with_service (service w) w = w.
Proof. by destruct w. Qed.

(** X19.  [attach] is idempotent and keeps the order of attachment:
    attaching an observer that is attached changes nothing, attaching a new
    one puts it last.  [detach] of an observer that is not attached changes
    nothing, and [detach] after [attach] of a new observer gives back the
    service as it was. *)
Theorem attach_detach_spec (observer : nat) (w : World) :
  (observer ∈ _observers (service w) -> attach observer w = (Returned tt, w)) /\
  (observer ∉ _observers (service w) ->
   detach observer w = (Returned tt, w) /\
   exists w1,
     attach observer w = (Returned tt, w1) /\
     _observers (service w1) = _observers (service w) ++ [observer] /\
     attach observer w1 = (Returned tt, w1) /\
     detach observer w1 = (Returned tt, w)).
Proof.
  split.
  - intros Hin. unfold attach. meth_unfold.
    by rewrite bool_decide_eq_false_2 by (intros Hnot; by apply Hnot).
  - intros Hnot. split.
    + unfold detach. meth_unfold. by rewrite bool_decide_eq_false_2.
    + eexists. split.
      { unfold attach. meth_unfold. by rewrite bool_decide_eq_true_2. }
      split; [reflexivity |]. split.
      { unfold attach. meth_unfold. simpl.
        rewrite bool_decide_eq_false_2; [reflexivity |].
        intros Hnot'. apply Hnot'. apply elem_of_app. right. by left. }
      unfold detach. meth_unfold. simpl.
      rewrite bool_decide_eq_true_2 by (apply elem_of_app; right; by left).
      rewrite list_remove_snoc by exact Hnot.
      destruct w as [s d c o i [obs ns al] b]. reflexivity.
Qed.



(** ** The notifying wrappers *)

Lemma filter_none {A} (P : A -> Prop) `{forall x, Decision (P x)} (l : list A) :
  (forall x, x ∈ l -> ~ P x) -> filter P l = [].
Proof.
  induction l as [| x l IH]; intros Hnone; [reflexivity |].
  rewrite filter_cons, decide_False by (apply Hnone; left).
  apply IH. intros y Hy. apply Hnone. by right.
Qed.

Lemma notify_with_no_clash (explicit : list (string * value)) (kwargs : Dict) :
  (forall kv, kv ∈ explicit -> kwargs !! kv.1 = None) ->
  call_keywords explicit kwargs = inr (list_to_map explicit ∪ kwargs).
Proof.
  intros Hfree. unfold call_keywords.
  rewrite filter_none; [reflexivity |].
  intros kv Hkv [v Hv]. rewrite (Hfree kv Hkv) in Hv. discriminate.
Qed.

Lemma notify_with_clash (explicit : list (string * value)) (kwargs : Dict)
    (k : string) (w : World) :
  k ∈ explicit.*1 ->
  is_Some (kwargs !! k) ->
  exists msg,
    notify_with explicit kwargs w = (Raised (PyException "TypeError" msg), w).
Proof.
  intros Hk Hclash. unfold notify_with, call_keywords.
  destruct (filter (fun kv => is_Some (kwargs !! kv.1)) explicit)
    as [| [k' v'] rest] eqn:Hfilter.
  - exfalso. apply list_elem_of_fmap in Hk as [[k0 v0] [-> Hin]].
    assert ((k0, v0) ∈ filter (fun kv => is_Some (kwargs !! kv.1)) explicit) as Hmem
      by (apply list_elem_of_filter; split; [exact Hclash | exact Hin]).
    rewrite Hfilter in Hmem. by apply not_elem_of_nil in Hmem.
  - by eexists.
Qed.

(** The keywords of a wrapper's call, bound by [notify]. *)
Lemma wrapper_call (message ty : value) (rest : list (string * value))
    (kwargs : Dict) (w : World) :
  kwargs !! "self" = None ->
  kwargs !! "message" = None ->
  kwargs !! "notification_type" = None ->
  (forall kv, kv ∈ rest -> kwargs !! kv.1 = None) ->
  (forall kv, kv ∈ rest ->
     kv.1 ≠ "self" /\ kv.1 ≠ "message" /\ kv.1 ≠ "notification_type") ->
  notify_with (("message", message) :: ("notification_type", ty) :: rest) kwargs w
    = notify message ty (list_to_map rest ∪ kwargs) w.
Proof.
  intros Hself Hm Hn Hfree Hnames.
  assert ((list_to_map rest : Dict) !! "self" = None
          /\ (list_to_map rest : Dict) !! "message" = None
          /\ (list_to_map rest : Dict) !! "notification_type" = None)
    as (Hrs & Hrm & Hrn).
  { repeat split; apply not_elem_of_list_to_map_1; intros Hin;
      apply list_elem_of_fmap in Hin as [kv [Hk Hkv]];
      destruct (Hnames kv Hkv) as (? & ? & ?); congruence. }
  unfold notify_with. rewrite notify_with_no_clash.
  2:{ intros kv Hkv. apply elem_of_cons in Hkv as [-> | Hkv]; [exact Hm |].
      apply elem_of_cons in Hkv as [-> | Hkv]; [exact Hn |]. by apply Hfree. }
  unfold call_notify, bind_notify_arguments. simpl.
  rewrite bool_decide_eq_false_2.
  2:{ rewrite lookup_union, lookup_insert_ne, lookup_insert_ne, Hrs, Hself by done.
      by intros [? ?]. }
  rewrite lookup_union, lookup_insert_eq. simpl.
  rewrite Hm. simpl.
  unfold dict_get.
  rewrite lookup_union, lookup_insert_ne, lookup_insert_eq, Hn by done. simpl.
  match goal with
  | |- notify _ _ ?a _ = notify _ _ ?b _ => assert (a = b) as ->; [| reflexivity]
  end.
  apply map_eq. intros k.
  destruct (decide (k = "notification_type")) as [-> | Hk1].
  { rewrite lookup_delete_eq, lookup_union, Hrn, Hn. reflexivity. }
  rewrite lookup_delete_ne by done.
  destruct (decide (k = "message")) as [-> | Hk2].
  { rewrite lookup_delete_eq, lookup_union, Hrm, Hm. reflexivity. }
  rewrite lookup_delete_ne by done.
  rewrite !lookup_union, !lookup_insert_ne by done. reflexivity.
Qed.

(** X21.  The three wrappers are [notify] with a fixed kind and extra
    fields: [notify_security] with kind 'security' and the field [severity],
    [notify_emergency] with kind 'emergency' and the fields [location] and
    [priority] = 'critical', [notify_transaction] with kind 'transaction'
    and the field [amount]; the caller's other keywords are passed on.  A
    caller's keyword [notification_type], or [priority] for
    [notify_emergency], clashes with the one the wrapper writes: the call
    raises [TypeError] and nothing is stored. *)
Theorem notification_wrappers (message extra : value) (w : World) :
  (forall kwargs : Dict,
     kwargs !! "self" = None -> kwargs !! "message" = None ->
     kwargs !! "notification_type" = None ->
     (kwargs !! "severity" = None ->
      notify_security message extra kwargs w =
        notify message (VStr "security") (<["severity" := extra]> kwargs) w) /\
     (kwargs !! "location" = None -> kwargs !! "priority" = None ->
      notify_emergency message extra kwargs w =
        notify message (VStr "emergency")
          (<["location" := extra]> (<["priority" := VStr "critical"]> kwargs)) w) /\
     (kwargs !! "amount" = None ->
      notify_transaction message extra kwargs w =
        notify message (VStr "transaction") (<["amount" := extra]> kwargs) w)) /\
  (forall kwargs : Dict,
     is_Some (kwargs !! "notification_type") ->
     exists m1 m2 m3,
       notify_security message extra kwargs w
         = (Raised (PyException "TypeError" m1), w) /\
       notify_emergency message extra kwargs w
         = (Raised (PyException "TypeError" m2), w) /\
       notify_transaction message extra kwargs w
         = (Raised (PyException "TypeError" m3), w)) /\
  (forall kwargs : Dict,
     is_Some (kwargs !! "priority") ->
     exists msg,
       notify_emergency message extra kwargs w
         = (Raised (PyException "TypeError" msg), w)).
Proof.
  split; [| split].
  - intros kwargs Hself Hm Hn. split; [| split].
    + intros Hs. unfold notify_security.
      rewrite wrapper_call; try done.
      * match goal with
        | |- notify _ _ ?a _ = notify _ _ ?b _ =>
            assert (a = b) as ->; [| reflexivity]
        end.
        apply map_eq. intros k. simpl.
        rewrite lookup_union. destruct (decide (k = "severity")) as [-> | Hk].
        -- rewrite !lookup_insert_eq, Hs. reflexivity.
        -- rewrite !lookup_insert_ne by done. rewrite lookup_empty.
           by destruct (kwargs !! k).
      * intros kv Hkv. apply list_elem_of_singleton in Hkv. by subst.
      * intros kv Hkv. apply list_elem_of_singleton in Hkv. by subst.
    + intros Hl Hp. unfold notify_emergency.
      rewrite wrapper_call; try done.
      * match goal with
        | |- notify _ _ ?a _ = notify _ _ ?b _ =>
            assert (a = b) as ->; [| reflexivity]
        end.
        apply map_eq. intros k. simpl.
        rewrite lookup_union. destruct (decide (k = "location")) as [-> | Hk].
        -- rewrite !lookup_insert_eq, Hl. reflexivity.
        -- rewrite !(lookup_insert_ne _ "location") by done.
           destruct (decide (k = "priority")) as [-> | Hk'].
           ++ rewrite !lookup_insert_eq, Hp. reflexivity.
           ++ rewrite !lookup_insert_ne by done. rewrite lookup_empty.
              by destruct (kwargs !! k).
      * intros kv Hkv. set_unfold in Hkv. destruct Hkv as [-> | [-> | []]]; done.
      * intros kv Hkv. set_unfold in Hkv. destruct Hkv as [-> | [-> | []]]; done.
    + intros Ha. unfold notify_transaction.
      rewrite wrapper_call; try done.
      * match goal with
        | |- notify _ _ ?a _ = notify _ _ ?b _ =>
            assert (a = b) as ->; [| reflexivity]
        end.
        apply map_eq. intros k. simpl.
        rewrite lookup_union. destruct (decide (k = "amount")) as [-> | Hk].
        -- rewrite !lookup_insert_eq, Ha. reflexivity.
        -- rewrite !lookup_insert_ne by done. rewrite lookup_empty.
           by destruct (kwargs !! k).
      * intros kv Hkv. apply list_elem_of_singleton in Hkv. by subst.
      * intros kv Hkv. apply list_elem_of_singleton in Hkv. by subst.
  - intros kwargs Hclash.
    destruct (notify_with_clash
                [("message", message); ("notification_type", VStr "security");
                 ("severity", extra)] kwargs "notification_type" w) as [m1 H1];
      [set_solver | exact Hclash |].
    destruct (notify_with_clash
                [("message", message); ("notification_type", VStr "emergency");
                 ("location", extra); ("priority", VStr "critical")]
                kwargs "notification_type" w) as [m2 H2];
      [set_solver | exact Hclash |].
    destruct (notify_with_clash
                [("message", message); ("notification_type", VStr "transaction");
                 ("amount", extra)] kwargs "notification_type" w) as [m3 H3];
      [set_solver | exact Hclash |].
    by exists m1, m2, m3.
  - intros kwargs Hclash.
    apply (notify_with_clash _ kwargs "priority"); [set_solver | exact Hclash].
Qed.

(** ** Listings, newest first *)

Lemma string_ltb_lt (s t : string) :
  String.ltb s t = true <-> OrderedTypeEx.String_as_OT.lt s t.
Proof.
  rewrite <- OrderedTypeEx.String_as_OT.cmp_lt.
  unfold String.ltb, OrderedTypeEx.String_as_OT.cmp.
  destruct (String.compare s t); split; intros; done.
Qed.

(** Not smaller is transitive on strings. *)
Lemma string_not_lt_trans (s t u : string) :
  String.ltb s t = false -> String.ltb t u = false -> String.ltb s u = false.
Proof.
  intros Hst Htu. apply not_true_is_false. intros Hsu.
  apply string_ltb_lt in Hsu.
  assert (OrderedTypeEx.String_as_OT.lt t s \/ t = s) as [Hts | ->].
  { unfold String.ltb in Hst.
    destruct (String.compare s t) eqn:Hcmp; try discriminate.
    - right. symmetry. by apply String.compare_eq_iff.
    - left. apply OrderedTypeEx.String_as_OT.cmp_lt.
      unfold OrderedTypeEx.String_as_OT.cmp.
      rewrite String.compare_antisym, Hcmp. reflexivity. }
  - assert (String.ltb t u = true) as Habs
      by (apply string_ltb_lt;
          exact (OrderedTypeEx.String_as_OT.lt_trans _ _ _ Hts Hsu)).
    congruence.
  - assert (String.ltb s u = true) as Habs by (by apply string_ltb_lt).
    congruence.
Qed.

Lemma string_ltb_asym (s t : string) :
  String.ltb s t = true -> String.ltb t s = false.
Proof.
  unfold String.ltb. rewrite (String.compare_antisym t s).
  by destruct (String.compare s t).
Qed.

Lemma insert_descending_sorted (x : value * Dict) (l : list (value * Dict)) :
  (exists s, x.1 = VStr s) ->
  string_keyed l ->
  StronglySorted key_not_smaller l ->
  exists l',
    insert_descending x l = Some l' /\
    l' ≡ₚ x :: l /\
    StronglySorted key_not_smaller l'.
Proof.
  intros [s Hs]. induction l as [| y l IH]; intros Hkeys Hsorted.
  - exists [x]. split; [reflexivity |]. split; [reflexivity |].
    repeat constructor.
  - destruct (Hkeys y ltac:(left)) as [t Ht].
    apply StronglySorted_inv in Hsorted as [Hsorted Hy].
    simpl. unfold py_lt at 1. rewrite Hs, Ht.
    destruct (String.ltb s t) eqn:Hlt.
    + destruct IH as (l' & Hins & Hperm & Hsorted').
      { intros p Hp. apply Hkeys. by right. }
      { exact Hsorted. }
      rewrite Hins. simpl. exists (y :: l'). split; [reflexivity |].
      split. { rewrite Hperm. apply perm_swap. }
      constructor; [exact Hsorted' |].
      rewrite Hperm. constructor; [| exact Hy].
      unfold key_not_smaller, py_lt. rewrite Hs, Ht.
      by rewrite (string_ltb_asym s t Hlt).
    + exists (x :: y :: l). split; [reflexivity |]. split; [reflexivity |].
      constructor; [by constructor |].
      constructor.
      * unfold key_not_smaller, py_lt. by rewrite Hs, Ht, Hlt.
      * apply Forall_forall. intros z Hz.
        destruct (Hkeys z ltac:(by right)) as [u Hu].
        rewrite Forall_forall in Hy. specialize (Hy z Hz).
        unfold key_not_smaller, py_lt in *. rewrite Hs, Hu. rewrite Ht, Hu in Hy.
        f_equal. apply (string_not_lt_trans s t u Hlt). by inversion Hy.
Qed.

Lemma sort_descending_sorted (l : list (value * Dict)) :
  string_keyed l ->
  exists l',
    sort_descending l = Some l' /\
    l' ≡ₚ l /\
    StronglySorted key_not_smaller l'.
Proof.
  induction l as [| x l IH]; intros Hkeys.
  - exists []. split; [reflexivity |]. split; [reflexivity | constructor].
  - destruct IH as (l1 & Hsort & Hperm & Hsorted).
    { intros p Hp. apply Hkeys. by right. }
    destruct (insert_descending_sorted x l1) as (l' & Hins & Hperm' & Hsorted').
    { apply Hkeys. left. }
    { intros p Hp. apply Hkeys. right. by rewrite <- Hperm. }
    { exact Hsorted. }
    exists l'. split.
    { simpl. rewrite Hsort. simpl. exact Hins. }
    split; [| exact Hsorted']. rewrite Hperm'. by constructor.
Qed.

(** Reading the keys of stamped records never fails. *)
Lemma keys_of_stamped (records : list Dict) (w : World) :
  stamped records ->
  mapM (M:=Py) (fun x => k ← subscript x "timestamp"; mret (k, x)) records w =
    (Returned ((fun x => (dict_get x "timestamp" VNone, x)) <$> records), w).
Proof.
  induction records as [| x records IH]; intros Hst; [reflexivity |].
  destruct (Hst x ltac:(left)) as [s Hs].
  assert (stamped records) as Hrest by (intros y Hy; apply Hst; by right).
  specialize (IH Hrest).
  simpl. unfold subscript in *. meth_unfold. rewrite Hs.
  rewrite IH. unfold dict_get. by rewrite Hs.
Qed.

Lemma newest_first_sorted (records : list Dict) (limit : Z) (w : World) :
  stamped records ->
  exists sorted,
    newest_first records limit w = (Returned (slice_to limit sorted), w) /\
    sorted ≡ₚ records /\
    StronglySorted not_older sorted.
Proof.
  intros Hst.
  set (keyed := (fun x => (dict_get x "timestamp" VNone, x)) <$> records).
  destruct (sort_descending_sorted keyed) as (l' & Hsort & Hperm & Hsorted).
  { intros p Hp. apply list_elem_of_fmap in Hp as [x [-> Hx]].
    destruct (Hst x Hx) as [s Hs]. exists s. simpl. unfold dict_get.
    by rewrite Hs. }
  exists (snd <$> l'). split; [| split].
  - unfold newest_first. unfold mbind at 1. unfold Py_bind at 1.
    rewrite (keys_of_stamped records w Hst). fold keyed. by rewrite Hsort.
  - rewrite Hperm. unfold keyed. rewrite <- list_fmap_compose.
    by rewrite list_fmap_id.
  - assert (Forall (fun p : value * Dict => p.1 = dict_get p.2 "timestamp" VNone) l')
      as Hkey.
    { rewrite Hperm. apply Forall_forall. intros p Hp.
      by apply list_elem_of_fmap in Hp as [x [-> Hx]]. }
    clear Hsort Hperm. induction Hsorted as [| p l' Hsorted IH Hp];
      [constructor |].
    apply Forall_cons in Hkey as [Hpk Hkey].
    simpl. constructor; [by apply IH |].
    apply Forall_fmap. apply Forall_forall. intros q Hq.
    rewrite Forall_forall in Hp, Hkey.
    specialize (Hp q Hq). specialize (Hkey q Hq).
    unfold not_older, key_not_smaller in *. simpl. by rewrite <- Hpk, <- Hkey.
Qed.

(** X22.  [get_recent_notifications(limit)] and
    [get_security_alerts(limit)], when every stored record carries a string
    time stamp and the limit is not negative: the answer is the first
    [limit] records of a rearrangement of the log (of the alert index) in
    which no record is older than one that comes after it; nothing is
    changed, the log keeps its own order. *)
Theorem listings_newest_first (limit : Z) (w : World) :
  0 <= limit ->
  (stamped (_notifications (service w)) ->
   exists sorted,
     get_recent_notifications limit w =
       (Returned (take (Z.to_nat limit) sorted), w) /\
     sorted ≡ₚ _notifications (service w) /\
     StronglySorted not_older sorted) /\
  (stamped (_security_alerts (service w)) ->
   exists sorted,
     get_security_alerts limit w =
       (Returned (take (Z.to_nat limit) sorted), w) /\
     sorted ≡ₚ _security_alerts (service w) /\
     StronglySorted not_older sorted).
Proof.
  intros Hlimit.
  assert (forall sorted : list Dict,
            slice_to limit sorted = take (Z.to_nat limit) sorted) as Hslice.
  { intros sorted. unfold slice_to.
    destruct (Z.ltb_spec limit 0); [lia |].
    destruct (Z.min_spec limit (Z.of_nat (length sorted))) as [[_ ->] | [Hge ->]];
      [reflexivity |].
    rewrite Nat2Z.id. rewrite !take_ge; [reflexivity | lia | lia]. }
  split; intros Hst.
  - destruct (newest_first_sorted _ limit w Hst) as (sorted & Hrun & Hperm & Hs).
    exists sorted. unfold get_recent_notifications. meth_unfold.
    by rewrite Hrun, Hslice.
  - destruct (newest_first_sorted _ limit w Hst) as (sorted & Hrun & Hperm & Hs).
    exists sorted. unfold get_security_alerts. meth_unfold.
    by rewrite Hrun, Hslice.
Qed.

(** ** Trimming the log *)

(** X23.  [clear_old_notifications(keep_count)] on a log of [n] records.
    With [n <= keep_count] it answers 0 and changes nothing.  With
    [0 < keep_count < n] it answers [n - keep_count] and keeps the newest
    [keep_count] records in their order; the index of security alerts, the
    observers and the rest of the world stay as they were.  With
    [keep_count = 0] on a log that is not empty it answers [n], although
    [l[-0:]] is the whole list: nothing is removed. *)
Theorem clear_old_notifications_spec (keep_count : Z) (w : World) :
  let ns := _notifications (service w) in
  let n := Z.of_nat (length ns) in
  (n <= keep_count -> clear_old_notifications keep_count w = (Returned 0, w)) /\
  (0 < keep_count < n ->
   clear_old_notifications keep_count w =
     (Returned (n - keep_count),
      with_service
        (svc_set_notifications (drop (Z.to_nat (n - keep_count)) ns) (service w))
        w) /\
   Z.of_nat (length (drop (Z.to_nat (n - keep_count)) ns)) = keep_count) /\
  (keep_count = 0 -> 0 < n ->
   clear_old_notifications keep_count w = (Returned n, w)).
Proof.
  intros ns n. unfold clear_old_notifications. meth_unfold. fold ns. fold n.
  split; [| split].
  - intros Hle. destruct (Z.ltb_spec keep_count n); [lia | reflexivity].
  - intros [Hpos Hlt]. destruct (Z.ltb_spec keep_count n); [| lia].
    unfold slice_from. fold n.
    destruct (Z.ltb_spec (- keep_count) 0); [| lia].
    rewrite Z.max_r by lia.
    replace (n + - keep_count) with (n - keep_count) by lia.
    split; [reflexivity |]. rewrite length_drop. unfold n. lia.
  - intros -> Hpos. destruct (Z.ltb_spec 0 n); [| lia].
    unfold slice_from. simpl. rewrite Z.min_l by lia.
    change (Z.to_nat (- 0)) with 0%nat. rewrite drop_0.
    rewrite Z.sub_0_r. f_equal.
    replace (svc_set_notifications ns (service w)) with (service w)
      by (unfold ns; by destruct (service w)).
    apply with_service_id.
Qed.

(** ** The device-control endpoint *)




(** ** The template method of the daily routines *)


(** ** The daily routines on the registry *)

(** The entries of [to_dict] the routines read. *)
Lemma to_dict_lookup (d : AnyDevice) :
  AnyDevice_to_dict d !! "device_id" = Some (VStr (device_id (base_of d))) /\
  AnyDevice_to_dict d !! "type" =
    Some (VStr (match device_type (base_of d) with
                | Some ty => DeviceType_value ty
                | None => "Unknown"
                end)) /\
  AnyDevice_to_dict d !! "status" =
    Some (VStr (DeviceStatus_value (status (base_of d)))).
Proof.
  unfold AnyDevice_to_dict, Device_to_dict.
  repeat split;
    repeat (rewrite lookup_insert_ne by done); by rewrite lookup_insert_eq.
Qed.

Lemma omap_registered (m : gmap string AnyDevice) (k : string) (ks : list string)
    (d : AnyDevice) :
  m !! k = Some d ->
  omap (fun k => m !! k) (k :: ks) = d :: omap (fun k => m !! k) ks.
Proof. intros Hd. simpl. by rewrite Hd. Qed.

Lemma well_registered_cons (m : gmap string AnyDevice) (k : string)
    (ks : list string) :
  well_registered m (k :: ks) ->
  (exists d, m !! k = Some d /\ device_id (base_of d) = k /\
             device_type (base_of d) = Some (class_type d)) /\
  well_registered m ks.
Proof.
  intros Hreg. split; [apply Hreg; left |].
  intros k' Hk'. apply Hreg. by right.
Qed.

(** The two tests of the comprehensions, on the entries of [to_dict]. *)
Lemma type_is_light (d : AnyDevice) :
  in_strings (VStr (DeviceType_value (class_type d))) ["StreetLight"] =
    has_set_brightness d.
Proof. by destruct d. Qed.

Lemma status_is (st wanted : DeviceStatus) :
  bool_decide (DeviceStatus_value st ∈ [DeviceStatus_value wanted]) =
    bool_decide (st = wanted).
Proof. by destruct st, wanted. Qed.

Lemma filter_cons_holds (p : AnyDevice -> bool) (m : gmap string AnyDevice)
    (k : string) (ks : list string) (d : AnyDevice) :
  m !! k = Some d ->
  filter (fun k => holds_at p m k = true) (k :: ks) =
    (if p d then [k] else []) ++ filter (fun k => holds_at p m k = true) ks.
Proof.
  intros Hd.
  assert (holds_at p m k = p d) as Hh by (unfold holds_at; by rewrite Hd).
  rewrite filter_cons. destruct (decide (holds_at p m k = true)) as [Hyes | Hno].
  - rewrite Hh in Hyes. by rewrite Hyes.
  - rewrite Hh in Hno. by destruct (p d).
Qed.

(** The comprehension of [SunriseRoutine.prepare] gives the ids of the
    ACTIVE street lights, in the order of registration. *)
Lemma active_light_ids_eq (m : gmap string AnyDevice) (ks : list string) (w : World) :
  well_registered m ks ->
  active_light_ids (AnyDevice_to_dict <$> omap (fun k => m !! k) ks) w =
    (Returned (VStr <$> filter (fun k => holds_at is_active_light m k = true) ks), w).
Proof.
  induction ks as [| k ks IH]; intros Hreg; [reflexivity |].
  apply well_registered_cons in Hreg as [(d & Hd & Hid & Hty) Hreg].
  specialize (IH Hreg).
  rewrite (omap_registered m k ks d Hd), fmap_cons.
  rewrite (filter_cons_holds _ m k ks d Hd), fmap_app.
  destruct (to_dict_lookup d) as (Hkey & Htype & Hstatus).
  cbn [active_light_ids]. unfold subscript. meth_unfold.
  rewrite Htype, Hty, type_is_light.
  destruct d as [l | t | c]; simpl; rewrite ?IH; try reflexivity.
  rewrite Hstatus. simpl in Hid. simpl.
  change "active" with (DeviceStatus_value ACTIVE). rewrite status_is.
  destruct (bool_decide (status (light_base l) = ACTIVE)); simpl.
  - rewrite Hkey, IH. simpl. by rewrite Hid.
  - by rewrite IH.
Qed.

(** The comprehension of [SunsetRoutine.prepare] gives the ids of the street
    lights, in the order of registration. *)
Lemma street_light_ids_eq (m : gmap string AnyDevice) (ks : list string) (w : World) :
  well_registered m ks ->
  street_light_ids (AnyDevice_to_dict <$> omap (fun k => m !! k) ks) w =
    (Returned (VStr <$> filter (fun k => holds_at has_set_brightness m k = true) ks), w).
Proof.
  induction ks as [| k ks IH]; intros Hreg; [reflexivity |].
  apply well_registered_cons in Hreg as [(d & Hd & Hid & Hty) Hreg].
  specialize (IH Hreg).
  rewrite (omap_registered m k ks d Hd), fmap_cons.
  rewrite (filter_cons_holds _ m k ks d Hd), fmap_app.
  destruct (to_dict_lookup d) as (Hkey & Htype & Hstatus).
  cbn [street_light_ids]. unfold subscript. meth_unfold.
  rewrite Htype, Hty, type_is_light.
  destruct d as [l | t | c]; simpl; rewrite ?IH; try reflexivity.
  rewrite Hkey, IH. simpl in *. by rewrite Hid.
Qed.

(** [get_devices_by_type('TrafficSignal')] gives the dicts of the traffic
    signals, in the order of registration. *)
Lemma select_traffic_signals (m : gmap string AnyDevice) (ks : list string)
    (w : World) :
  well_registered m ks ->
  select_devices_by_type "TrafficSignal" (omap (fun k => m !! k) ks) w =
    (Returned (AnyDevice_to_dict <$>
                 omap (fun k => m !! k)
                   (filter (fun k => holds_at has_cycle_duration m k = true) ks)), w).
Proof.
  induction ks as [| k ks IH]; intros Hreg; [reflexivity |].
  apply well_registered_cons in Hreg as [(d & Hd & Hid & Hty) Hreg].
  specialize (IH Hreg).
  rewrite (omap_registered m k ks d Hd).
  rewrite (filter_cons_holds _ m k ks d Hd).
  cbn [select_devices_by_type]. unfold device_type_value. meth_unfold.
  rewrite Hty, IH.
  destruct d as [l | t | c]; simpl; try reflexivity.
  by rewrite Hd.
Qed.

(** The test of both [verify] methods: whether every street light has the
    status asked for. *)
Lemma all_lights_have_status_eq (wanted : DeviceStatus) (m : gmap string AnyDevice)
    (ks : list string) (w : World) :
  well_registered m ks ->
  exists b,
    all_lights_have_status (DeviceStatus_value wanted)
      (AnyDevice_to_dict <$> omap (fun k => m !! k) ks) w = (Returned b, w) /\
    (b = true <->
     forall k l, k ∈ ks -> m !! k = Some (Light l) -> status (light_base l) = wanted).
Proof.
  induction ks as [| k ks IH]; intros Hreg.
  - exists true. split; [reflexivity |]. split; [| done].
    intros _ k l Hin. by apply not_elem_of_nil in Hin.
  - apply well_registered_cons in Hreg as [(d & Hd & Hid & Hty) Hreg].
    destruct (IH Hreg) as (b & Hrun & Hb).
    rewrite (omap_registered m k ks d Hd), fmap_cons.
    destruct (to_dict_lookup d) as (Hkey & Htype & Hstatus).
    cbn [all_lights_have_status]. unfold subscript. meth_unfold.
    rewrite Htype, Hty, type_is_light.
    assert (forall other : AnyDevice, has_set_brightness other = false ->
              m !! k = Some other ->
              (b = true <->
               forall k' l, k' ∈ k :: ks -> m !! k' = Some (Light l) ->
                            status (light_base l) = wanted)) as Hskip.
    { intros other Hother Hm. rewrite Hb. split.
      - intros Hall k' l Hin Hl. apply elem_of_cons in Hin as [-> | Hin].
        + rewrite Hm in Hl. inversion Hl; subst other. discriminate.
        + by apply (Hall k' l).
      - intros Hall k' l Hin. apply Hall. by right. }
    destruct d as [l | t | c]; simpl.
    + rewrite Hstatus. simpl. rewrite status_is.
      destruct (bool_decide_reflect (status (light_base l) = wanted)) as [Hst | Hst].
      * exists b. split; [exact Hrun |]. rewrite Hb. split.
        -- intros Hall k' l' Hin Hl. apply elem_of_cons in Hin as [-> | Hin].
           ++ rewrite Hd in Hl. by inversion Hl; subst l'.
           ++ by apply (Hall k' l').
        -- intros Hall k' l' Hin. apply Hall. by right.
      * exists false. split; [reflexivity |]. split; [discriminate |].
        intros Hall. exfalso. apply Hst. apply (Hall k l); [left | exact Hd].
    + exists b. split; [exact Hrun |]. by apply (Hskip (Signal t)).
    + exists b. split; [exact Hrun |]. by apply (Hskip (Camera c)).
Qed.

(** One round of the loops over street lights: the registered object is
    replaced by the light switched off, respectively on. *)
Lemma turn_lights_off_step (k : string) (l : StreetLight) (rest : list value)
    (w : World) :
  _devices w !! k = Some (Light l) ->
  exists t w1,
    turn_lights_off (VStr k :: rest) w = turn_lights_off rest w1 /\
    _devices w1 = <[k := switched_off t (Light l)]> (_devices w).
Proof.
  intros Hl. cbn [turn_lights_off]. unfold get_device_at, get_device.
  unfold mbind at 1. unfold Py_bind at 1. unfold gets at 1. rewrite Hl.
  unfold mbind at 1. unfold Py_bind at 1.
  eexists _, _. split.
  - unfold set_brightness_thrice, Device_set_brightness, Device_deactivate,
      StreetLight_set_brightness, StreetLight_deactivate, write_device.
    meth_unfold. simpl. reflexivity.
  - simpl. rewrite !insert_insert_eq. reflexivity.
Qed.

Lemma turn_lights_on_step (k : string) (l : StreetLight) (rest : list value)
    (w : World) :
  _devices w !! k = Some (Light l) ->
  exists t w1,
    turn_lights_on (VStr k :: rest) w = turn_lights_on rest w1 /\
    _devices w1 = <[k := switched_on t (Light l)]> (_devices w).
Proof.
  intros Hl. cbn [turn_lights_on]. unfold get_device_at, get_device.
  unfold mbind at 1. unfold Py_bind at 1. unfold gets at 1. rewrite Hl.
  unfold mbind at 1. unfold Py_bind at 1.
  eexists _, _. split.
  - unfold set_brightness_thrice, Device_set_brightness, Device_activate,
      StreetLight_set_brightness, StreetLight_activate, write_device.
    meth_unfold. simpl. reflexivity.
  - simpl. rewrite !insert_insert_eq. reflexivity.
Qed.

(** A loop over the ids of registered street lights that replaces each by
    [f] of it: the lights named are changed, every other key is as it was. *)
Lemma light_loop (loop : list value -> Py unit) (f : Z -> AnyDevice -> AnyDevice) :
  (forall w, loop [] w = (Returned tt, w)) ->
  (forall k l rest w,
     _devices w !! k = Some (Light l) ->
     exists t w1,
       loop (VStr k :: rest) w = loop rest w1 /\
       _devices w1 = <[k := f t (Light l)]> (_devices w)) ->
  forall (ks : list string) (w : World),
    NoDup ks ->
    (forall k, k ∈ ks -> exists l, _devices w !! k = Some (Light l)) ->
    exists w',
      loop (VStr <$> ks) w = (Returned tt, w') /\
      (forall k d, k ∈ ks -> _devices w !! k = Some d ->
                   exists t, _devices w' !! k = Some (f t d)) /\
      (forall k, k ∉ ks -> _devices w' !! k = _devices w !! k).
Proof.
  intros Hnil Hstep ks. induction ks as [| k ks IH]; intros w Hnodup Hlights.
  - exists w. split; [apply Hnil |]. split; [| done].
    intros k d Hin. by apply not_elem_of_nil in Hin.
  - apply NoDup_cons in Hnodup as [Hfresh Hnodup].
    destruct (Hlights k ltac:(left)) as [l Hl].
    destruct (Hstep k l (VStr <$> ks) w Hl) as (t & w1 & Hrun & Hw1).
    destruct (IH w1 Hnodup) as (w' & Hloop & Hin & Hout).
    { intros k' Hk'. rewrite Hw1, lookup_insert_ne by (intros ->; done).
      apply Hlights. by right. }
    exists w'. rewrite fmap_cons, Hrun. split; [exact Hloop |]. split.
    + intros k' d Hk' Hd. apply elem_of_cons in Hk' as [-> | Hk'].
      * rewrite (Hout k Hfresh), Hw1, lookup_insert_eq.
        rewrite Hl in Hd. inversion Hd; subst d. by exists t.
      * apply Hin; [exact Hk' |].
        rewrite Hw1, lookup_insert_ne by (intros ->; done). exact Hd.
    + intros k' Hk'. apply not_elem_of_cons in Hk' as [Hne Hk'].
      rewrite (Hout k' Hk'), Hw1. by apply lookup_insert_ne.
Qed.

(** One round of the loop over the dicts of the traffic signals. *)
Lemma adjust_traffic_signals_step (seconds : Z) (signal : Dict) (k : string)
    (d : AnyDevice) (rest : list Dict) (w : World) :
  signal !! "device_id" = Some (VStr k) ->
  _devices w !! k = Some d ->
  exists w1,
    adjust_traffic_signals seconds (signal :: rest) w =
      adjust_traffic_signals seconds rest w1 /\
    _devices w1 = <[k := set_cycle_duration seconds d]> (_devices w).
Proof.
  intros Hkey Hd. cbn [adjust_traffic_signals].
  unfold subscript, get_device_at, get_device, write_device. meth_unfold.
  rewrite Hkey, Hd.
  destruct d as [l | t | c]; simpl; eexists; (split; [reflexivity |]); simpl;
    try reflexivity; by rewrite insert_id.
Qed.

Lemma adjust_traffic_signals_eq (seconds : Z) (ks : list string) :
  forall (signals : list Dict) (w : World),
    Forall2 (fun k signal => signal !! "device_id" = Some (VStr k)) ks signals ->
    NoDup ks ->
    (forall k, k ∈ ks -> is_Some (_devices w !! k)) ->
    exists w',
      adjust_traffic_signals seconds signals w = (Returned tt, w') /\
      (forall k d, k ∈ ks -> _devices w !! k = Some d ->
                   _devices w' !! k = Some (set_cycle_duration seconds d)) /\
      (forall k, k ∉ ks -> _devices w' !! k = _devices w !! k).
Proof.
  induction ks as [| k ks IH]; intros signals w Hkeys Hnodup Hreg.
  - apply Forall2_nil_inv_l in Hkeys as ->.
    exists w. split; [reflexivity |]. split; [| done].
    intros k d Hin. by apply not_elem_of_nil in Hin.
  - apply Forall2_cons_inv_l in Hkeys as (signal & rest & Hkey & Hkeys & ->).
    apply NoDup_cons in Hnodup as [Hfresh Hnodup].
    destruct (Hreg k ltac:(left)) as [d Hd].
    destruct (adjust_traffic_signals_step seconds signal k d rest w Hkey Hd)
      as (w1 & Hrun & Hw1).
    destruct (IH rest w1 Hkeys Hnodup) as (w' & Hloop & Hin & Hout).
    { intros k' Hk'. rewrite Hw1, lookup_insert_ne by (intros ->; done).
      apply Hreg. by right. }
    exists w'. rewrite Hrun. split; [exact Hloop |]. split.
    + intros k' d' Hk' Hd'. apply elem_of_cons in Hk' as [-> | Hk'].
      * rewrite (Hout k Hfresh), Hw1, lookup_insert_eq.
        rewrite Hd in Hd'. by inversion Hd'.
      * apply Hin; [exact Hk' |].
        rewrite Hw1, lookup_insert_ne by (intros ->; done). exact Hd'.
    + intros k' Hk'. apply not_elem_of_cons in Hk' as [Hne Hk'].
      rewrite (Hout k' Hk'), Hw1. by apply lookup_insert_ne.
Qed.

(** ** The registry across a routine *)

Lemma well_registered_all (c : CityController) (w : World) :
  order_ok c w -> typed_ok w -> ids_ok w ->
  well_registered (_devices w) (_device_order c).
Proof.
  intros [_ Hdom] Hty Hid k Hk. apply Hdom in Hk as [d Hd].
  exists d. split; [exact Hd |]. split; [by apply (Hid k) | by apply (Hty k)].
Qed.

Lemma well_registered_filter (P : string -> Prop) `{forall k, Decision (P k)}
    (m : gmap string AnyDevice) (ks : list string) :
  well_registered m ks -> well_registered m (filter P ks).
Proof. intros Hreg k Hk. apply Hreg. by apply list_elem_of_filter in Hk as [_ Hk]. Qed.

(** A change of every object that keeps its identity keeps the registry in
    order. *)
Lemma each_device_keeps_order (f : Z -> AnyDevice -> AnyDevice) (c : CityController)
    (w w' : World) :
  (forall t d, same_identity d (f t d)) ->
  each_device f (_devices w) (_devices w') ->
  order_ok c w -> typed_ok w -> ids_ok w ->
  order_ok c w' /\ typed_ok w' /\ ids_ok w'.
Proof.
  intros Hsame Heach [Hnodup Hdom] Hty Hid.
  assert (forall k d', _devices w' !! k = Some d' ->
            exists t d, _devices w !! k = Some d /\ d' = f t d) as Hback.
  { intros k d' Hd'. specialize (Heach k).
    destruct (_devices w !! k) as [d |]; [| congruence].
    destruct Heach as [t Ht]. exists t, d. split; [reflexivity | congruence]. }
  split; [| split].
  - split; [exact Hnodup |]. intros k. rewrite Hdom. specialize (Heach k).
    destruct (_devices w !! k) as [d |].
    + destruct Heach as [t ->]. split; by eexists.
    + rewrite Heach. done.
  - intros k d' Hd'. destruct (Hback k d' Hd') as (t & d & Hd & ->).
    destruct (Hsame t d) as (_ & Htype & Hclass). rewrite Htype, Hclass.
    by apply (Hty k).
  - intros k d' Hd'. destruct (Hback k d' Hd') as (t & d & Hd & ->).
    destruct (Hsame t d) as (Hsid & _ & _). rewrite Hsid. by apply (Hid k).
Qed.

Lemma each_device_compose (f : Z -> AnyDevice -> AnyDevice)
    (g : AnyDevice -> AnyDevice) (m m1 m2 : gmap string AnyDevice) :
  each_device f m m1 ->
  each_device (fun _ d => g d) m1 m2 ->
  each_device (fun t d => g (f t d)) m m2.
Proof.
  intros Hf Hg k. specialize (Hf k). specialize (Hg k).
  destruct (m !! k) as [d |].
  - destruct Hf as [t Ht]. rewrite Ht in Hg. destruct Hg as [_ Hg]. by exists t.
  - by rewrite Hf in Hg.
Qed.

(** The first loop of a routine, on the ids its [prepare] has collected. *)
Lemma lights_phase (loop : list value -> Py unit) (f : Z -> AnyDevice -> AnyDevice)
    (p : AnyDevice -> bool) (c : CityController) (w : World) :
  (forall w, loop [] w = (Returned tt, w)) ->
  (forall k l rest w,
     _devices w !! k = Some (Light l) ->
     exists t w1,
       loop (VStr k :: rest) w = loop rest w1 /\
       _devices w1 = <[k := f t (Light l)]> (_devices w)) ->
  (forall d, p d = true -> has_set_brightness d = true) ->
  order_ok c w ->
  exists w1,
    loop (VStr <$> filter (fun k => holds_at p (_devices w) k = true)
                     (_device_order c)) w = (Returned tt, w1) /\
    each_device (fun t d => if p d then f t d else d) (_devices w) (_devices w1).
Proof.
  intros Hnil Hstep Hlight [Hnodup Hdom].
  set (ids := filter (fun k => holds_at p (_devices w) k = true) (_device_order c)).
  destruct (light_loop loop f Hnil Hstep ids w) as (w1 & Hrun & Hin & Hout).
  { by apply NoDup_filter. }
  { intros k Hk. apply list_elem_of_filter in Hk as [Hp _].
    unfold holds_at in Hp. destruct (_devices w !! k) as [d |]; [| discriminate].
    apply Hlight in Hp. destruct d; try discriminate. by eexists. }
  exists w1. split; [exact Hrun |]. intros k.
  destruct (_devices w !! k) as [d |] eqn:Hd.
  - destruct (p d) eqn:Hp.
    + apply (Hin k d); [| exact Hd]. apply list_elem_of_filter. split.
      * unfold holds_at. by rewrite Hd.
      * apply Hdom. by eexists.
    + exists 0. rewrite Hout; [exact Hd |]. intros Hk.
      apply list_elem_of_filter in Hk as [Hyes _].
      unfold holds_at in Hyes. rewrite Hd in Hyes. congruence.
  - rewrite Hout; [exact Hd |]. intros Hk.
    apply list_elem_of_filter in Hk as [Hyes _].
    unfold holds_at in Hyes. by rewrite Hd in Hyes.
Qed.

(** The second loop of a routine: every traffic signal gets the cycle
    duration, nothing else is changed. *)
Lemma signals_phase (seconds : Z) (c : CityController) (w : World) :
  order_ok c w -> typed_ok w -> ids_ok w ->
  exists signals w2,
    CityController_get_devices_by_type "TrafficSignal" c w = (Returned signals, c, w) /\
    adjust_traffic_signals seconds signals w = (Returned tt, w2) /\
    each_device (fun _ d => set_cycle_duration seconds d) (_devices w) (_devices w2).
Proof.
  intros Hok Hty Hid.
  pose proof (well_registered_all c w Hok Hty Hid) as Hreg.
  destruct Hok as [Hnodup Hdom].
  set (sk := filter (fun k => holds_at has_cycle_duration (_devices w) k = true)
               (_device_order c)).
  assert (well_registered (_devices w) sk) as Hsk by by apply well_registered_filter.
  assert (Forall2 (fun k signal => signal !! "device_id" = Some (VStr k)) sk
            (AnyDevice_to_dict <$> omap (fun k => _devices w !! k) sk)) as Hkeys.
  { clear -Hsk. induction sk as [| k sk IH]; [constructor |].
    apply well_registered_cons in Hsk as [(d & Hd & Hkid & _) Hsk].
    rewrite (omap_registered _ k sk d Hd), fmap_cons. constructor; [| by apply IH].
    destruct (to_dict_lookup d) as (Hkey & _ & _). by rewrite Hkey, Hkid. }
  destruct (adjust_traffic_signals_eq seconds sk _ w Hkeys) as (w2 & Hrun & Hin & Hout).
  { by apply NoDup_filter. }
  { intros k Hk. destruct (Hsk k Hk) as (d & Hd & _). by eexists. }
  eexists _, w2. split; [| split; [exact Hrun |]].
  - unfold CityController_get_devices_by_type, devices_values. meth_unfold.
    by rewrite (select_traffic_signals _ _ w Hreg).
  - intros k. destruct (_devices w !! k) as [d |] eqn:Hd.
    + exists 0. destruct (has_cycle_duration d) eqn:Hsig.
      * apply Hin; [| exact Hd]. apply list_elem_of_filter. split.
        -- unfold holds_at. by rewrite Hd.
        -- apply Hdom. by eexists.
      * rewrite Hout.
        -- rewrite Hd. by destruct d.
        -- intros Hk. apply list_elem_of_filter in Hk as [Hyes _].
           unfold holds_at in Hyes. rewrite Hd in Hyes. congruence.
    + rewrite Hout; [exact Hd |]. intros Hk.
      apply list_elem_of_filter in Hk as [Hyes _].
      unfold holds_at in Hyes. by rewrite Hd in Hyes.
Qed.

(** The ids a [prepare] collects are as many as the objects it selects. *)
Lemma collected_count (p : AnyDevice -> bool) (c : CityController) (w : World) :
  order_ok c w ->
  length (filter (fun k => holds_at p (_devices w) k = true) (_device_order c)) =
    count_devices p (_devices w).
Proof.
  intros Hok. unfold count_devices. rewrite <- (values_in_order c w Hok).
  clear Hok. induction (_device_order c) as [| k ks IH]; [reflexivity |].
  destruct (_devices w !! k) as [d |] eqn:Hd.
  - rewrite (filter_cons_holds p _ k ks d Hd), (omap_registered _ k ks d Hd).
    rewrite filter_cons.
    destruct (decide (p d = true)) as [Hp | Hp].
    + rewrite Hp. simpl. by rewrite IH.
    + destruct (p d); [done |]. exact IH.
  - rewrite filter_cons, decide_False by (unfold holds_at; by rewrite Hd).
    simpl. by rewrite Hd.
Qed.

Lemma switched_same_identity (t : Z) (d : AnyDevice) :
  same_identity d (switched_off t d) /\ same_identity d (switched_on t d).
Proof. by destruct d. Qed.

Lemma set_cycle_duration_same_identity (seconds : Z) (d : AnyDevice) :
  same_identity d (set_cycle_duration seconds d).
Proof. by destruct d. Qed.

Lemma log_entry_message (stamp message : string) :
  dict_get ({[ "timestamp" := VStr stamp; "message" := VStr message ]} : Dict)
    "message" VNone = VStr message.
Proof.
  unfold dict_get. rewrite lookup_insert_ne by done.
  by rewrite lookup_singleton_eq.
Qed.

(** *** The steps of [SunriseRoutine] *)

Lemma SunriseRoutine_prepare_eq (c : CityController) (s : SunriseRoutine) (w : World) :
  order_ok c w -> typed_ok w -> ids_ok w ->
  SunriseRoutine_prepare c s w =
    (Returned tt,
     {| sunrise_log := sunrise_log s;
        _active_lights :=
          Some (VStr <$> filter (fun k => holds_at is_active_light (_devices w) k = true)
                           (_device_order c)) |},
     w).
Proof.
  intros Hok Hty Hid.
  unfold SunriseRoutine_prepare, CityController_get_all_devices, devices_values.
  meth_unfold.
  by rewrite (active_light_ids_eq _ _ w (well_registered_all c w Hok Hty Hid)).
Qed.

Lemma SunriseRoutine_operations_eq (c : CityController) (s : SunriseRoutine)
    (w : World) :
  order_ok c w -> typed_ok w -> ids_ok w ->
  _active_lights s =
    Some (VStr <$> filter (fun k => holds_at is_active_light (_devices w) k = true)
                     (_device_order c)) ->
  exists w2,
    SunriseRoutine_execute_main_operations c s w = (Returned tt, s, w2) /\
    each_device after_sunrise (_devices w) (_devices w2).
Proof.
  intros Hok Hty Hid Hids.
  destruct (lights_phase turn_lights_off switched_off is_active_light c w)
    as (w1 & Hoff & Heach1); [done | | | exact Hok |].
  { intros k l rest w0. apply turn_lights_off_step. }
  { intros d Hd. by destruct d. }
  assert (order_ok c w1 /\ typed_ok w1 /\ ids_ok w1) as (Hok1 & Hty1 & Hid1).
  { apply (fun Hsame => each_device_keeps_order _ c w w1 Hsame Heach1);
      [| exact Hok | exact Hty | exact Hid].
    intros t d. destruct (is_active_light d); [apply switched_same_identity |].
    by destruct d. }
  destruct (signals_phase 45 c w1 Hok1 Hty1 Hid1) as (signals & w2 & Hsel & Hadj & Heach2).
  exists w2. split.
  - unfold SunriseRoutine_execute_main_operations, read_active_lights. meth_unfold.
    rewrite Hids, Hoff, Hsel, Hadj. reflexivity.
  - exact (each_device_compose _ _ _ _ _ Heach1 Heach2).
Qed.

Lemma SunriseRoutine_verify_eq (c : CityController) (s : SunriseRoutine) (w : World) :
  order_ok c w -> typed_ok w -> ids_ok w ->
  exists b,
    SunriseRoutine_verify c s w = (Returned b, s, w) /\
    (b = true <->
     forall k l, _devices w !! k = Some (Light l) -> status (light_base l) = INACTIVE).
Proof.
  intros Hok Hty Hid.
  destruct (all_lights_have_status_eq INACTIVE (_devices w) (_device_order c) w
              (well_registered_all c w Hok Hty Hid)) as (b & Hrun & Hb).
  exists b. split.
  - unfold SunriseRoutine_verify, CityController_get_all_devices, devices_values.
    meth_unfold. simpl in Hrun. by rewrite Hrun.
  - rewrite Hb. destruct Hok as [_ Hdom]. split.
    + intros Hall k l Hl. apply (Hall k l); [| exact Hl]. apply Hdom. by eexists.
    + intros Hall k l _. apply Hall.
Qed.

Lemma SunriseRoutine_notify_completion_eq (ids : list value) (s : SunriseRoutine)
    (w : World) :
  _active_lights s = Some ids ->
  SunriseRoutine_notify_completion s w =
    _log_step ("Deactivated " +:+ pretty (Z.of_nat (length ids)) +:+ " street lights")
      s w.
Proof.
  intros Hids. unfold SunriseRoutine_notify_completion, read_active_lights.
  unfold mbind at 1. unfold Meth_bind at 1. unfold mbind at 1. unfold Meth_bind at 1.
  unfold self_gets at 1. rewrite Hids. reflexivity.
Qed.

(** What [_log_step] does. *)
Lemma log_step_eq {R} {L : RoutineLog R} (message : string) (s : R) (w : World) :
  _log_step message s w =
    (Returned tt,
     routine_set_log
       (routine_log s ++
          [({[ "timestamp" := VStr (isoformat (wall_clock (ticks (sys w))));
               "message" := VStr message ]} : Dict)]) s,
     with_sys {| ticks := S (ticks (sys w)); stdout := stdout (sys w) |} w).
Proof. reflexivity. Qed.

Lemma after_routine_same_identity (t : Z) (d : AnyDevice) :
  same_identity d (after_sunrise t d) /\ same_identity d (after_sunset t d).
Proof. destruct d as [l | s | c]; try done. unfold after_sunrise. simpl.
  by destruct (bool_decide _). Qed.

(** X26.  [SunriseRoutine.execute] on a registry in order (every object
    under its own id, with the device type of its class).  It answers with a
    success result named 'Sunrise Routine'.  Afterwards every street light
    that was ACTIVE is INACTIVE at brightness 0, every traffic signal has a
    cycle of 45 seconds, and every other object, a street light in another
    state included, is as it was; no key is added or removed.  The log has
    seven entries; the fourth gives the verification, which is True exactly
    when every street light is INACTIVE afterwards -- a False verification
    still gives a success result -- and the sixth counts the lights that were
    ACTIVE. *)
Theorem sunrise_routine_spec (c : CityController) (self : SunriseRoutine) (w : World) :
  order_ok c w -> typed_ok w -> ids_ok w ->
  exists stamp log self' w' (verification : bool),
    SunriseRoutine_execute c self w =
      (Returned (RoutineOk "Sunrise Routine" stamp log), self', w') /\
    each_device after_sunrise (_devices w) (_devices w') /\
    (verification = true <->
     forall k l, _devices w' !! k = Some (Light l) ->
                 status (light_base l) = INACTIVE) /\
    messages log =
      VStr <$> ["Starting routine"; "Preparation complete";
                "Main operations complete";
                "Verification: " +:+ py_str (VBool verification);
                "Cleanup complete";
                "Deactivated "
                  +:+ pretty (Z.of_nat (count_devices is_active_light (_devices w)))
                  +:+ " street lights";
                "Routine completed successfully"].
Proof.
  intros Hok Hty Hid.
  destruct (SunriseRoutine_execute c self w) as [[r self'] w'] eqn:Hrun.
  unfold SunriseRoutine_execute, DailyRoutineTemplate_execute,
    try_except_Exception_meth, DailyRoutineTemplate_cleanup in Hrun.
  unfold mbind, Meth_bind, mret, Meth_ret, self_modify, self_gets, lift_py,
    datetime_now in Hrun.
  cbn [prepare execute_main_operations verify cleanup notify_completion get_name
       SunriseRoutine_class] in Hrun.
  rewrite log_step_eq in Hrun.
  cbn [routine_log routine_set_log SunriseRoutine_log sunrise_log _active_lights]
    in Hrun.
  match type of Hrun with
  | context [SunriseRoutine_prepare c ?s ?x] =>
      rewrite (SunriseRoutine_prepare_eq c s x Hok Hty Hid) in Hrun
  end.
  rewrite log_step_eq in Hrun.
  cbn [routine_log routine_set_log SunriseRoutine_log sunrise_log _active_lights]
    in Hrun.
  match type of Hrun with
  | context [SunriseRoutine_execute_main_operations c ?s ?x] =>
      destruct (SunriseRoutine_operations_eq c s x Hok Hty Hid eq_refl)
        as (w2 & Hmain & Heach);
      rewrite Hmain in Hrun
  end.
  change (each_device after_sunrise (_devices w) (_devices w2)) in Heach.
  assert (order_ok c w2 /\ typed_ok w2 /\ ids_ok w2) as (Hok2 & Hty2 & Hid2).
  { apply (fun Hsame => each_device_keeps_order _ c w w2 Hsame Heach);
      [| exact Hok | exact Hty | exact Hid].
    intros t d. apply after_routine_same_identity. }
  rewrite log_step_eq in Hrun.
  cbn [routine_log routine_set_log SunriseRoutine_log sunrise_log _active_lights]
    in Hrun.
  match type of Hrun with
  | context [SunriseRoutine_verify c ?s ?x] =>
      destruct (SunriseRoutine_verify_eq c s x Hok2 Hty2 Hid2)
        as (verification & Hverify & Hverified);
      rewrite Hverify in Hrun
  end.
  rewrite log_step_eq in Hrun.
  cbn [routine_log routine_set_log SunriseRoutine_log sunrise_log _active_lights]
    in Hrun.
  unfold DailyRoutineTemplate_cleanup, mret, Meth_ret in Hrun.
  cbn [routine_log] in Hrun.
  rewrite log_step_eq in Hrun.
  cbn [routine_log routine_set_log SunriseRoutine_log sunrise_log _active_lights]
    in Hrun.
  match type of Hrun with
  | context [SunriseRoutine_notify_completion ?s ?x] =>
      rewrite (SunriseRoutine_notify_completion_eq _ s x eq_refl) in Hrun
  end.
  rewrite log_step_eq in Hrun.
  cbn [routine_log routine_set_log SunriseRoutine_log sunrise_log _active_lights]
    in Hrun.
  rewrite log_step_eq in Hrun.
  cbn [routine_log routine_set_log SunriseRoutine_log sunrise_log _active_lights]
    in Hrun.
  injection Hrun as <- <- <-.
  eexists _, _, _, _, verification. split; [reflexivity |].
  split; [exact Heach |]. split; [exact Hverified |].
  unfold messages. rewrite length_fmap, (collected_count _ c w Hok).
  cbn [fmap list_fmap]. rewrite !log_entry_message. reflexivity.
Qed.

(** *** The steps of [SunsetRoutine] *)

Lemma SunsetRoutine_prepare_eq (c : CityController) (s : SunsetRoutine) (w : World) :
  order_ok c w -> typed_ok w -> ids_ok w ->
  SunsetRoutine_prepare c s w =
    (Returned tt,
     {| sunset_log := sunset_log s;
        _lights_to_activate :=
          Some (VStr <$> filter (fun k => holds_at has_set_brightness (_devices w) k = true)
                           (_device_order c)) |},
     w).
Proof.
  intros Hok Hty Hid.
  unfold SunsetRoutine_prepare, CityController_get_all_devices, devices_values.
  meth_unfold.
  by rewrite (street_light_ids_eq _ _ w (well_registered_all c w Hok Hty Hid)).
Qed.

Lemma SunsetRoutine_operations_eq (c : CityController) (s : SunsetRoutine)
    (w : World) :
  order_ok c w -> typed_ok w -> ids_ok w ->
  _lights_to_activate s =
    Some (VStr <$> filter (fun k => holds_at has_set_brightness (_devices w) k = true)
                     (_device_order c)) ->
  exists w2,
    SunsetRoutine_execute_main_operations c s w = (Returned tt, s, w2) /\
    each_device after_sunset (_devices w) (_devices w2).
Proof.
  intros Hok Hty Hid Hids.
  destruct (lights_phase turn_lights_on switched_on has_set_brightness c w)
    as (w1 & Hon & Heach1); [done | | done | exact Hok |].
  { intros k l rest w0. apply turn_lights_on_step. }
  assert (each_device switched_on (_devices w) (_devices w1)) as Heach1'.
  { intros k. specialize (Heach1 k). destruct (_devices w !! k) as [d |]; [| done].
    destruct Heach1 as [t Ht]. exists t. rewrite Ht. by destruct d. }
  assert (order_ok c w1 /\ typed_ok w1 /\ ids_ok w1) as (Hok1 & Hty1 & Hid1).
  { apply (fun Hsame => each_device_keeps_order _ c w w1 Hsame Heach1');
      [| exact Hok | exact Hty | exact Hid].
    intros t d. apply switched_same_identity. }
  destruct (signals_phase 60 c w1 Hok1 Hty1 Hid1) as (signals & w2 & Hsel & Hadj & Heach2).
  exists w2. split.
  - unfold SunsetRoutine_execute_main_operations, read_lights_to_activate. meth_unfold.
    rewrite Hids, Hon, Hsel, Hadj. reflexivity.
  - exact (each_device_compose _ _ _ _ _ Heach1' Heach2).
Qed.

Lemma SunsetRoutine_verify_eq (c : CityController) (s : SunsetRoutine) (w : World) :
  order_ok c w -> typed_ok w -> ids_ok w ->
  exists b,
    SunsetRoutine_verify c s w = (Returned b, s, w) /\
    (b = true <->
     forall k l, _devices w !! k = Some (Light l) -> status (light_base l) = ACTIVE).
Proof.
  intros Hok Hty Hid.
  destruct (all_lights_have_status_eq ACTIVE (_devices w) (_device_order c) w
              (well_registered_all c w Hok Hty Hid)) as (b & Hrun & Hb).
  exists b. split.
  - unfold SunsetRoutine_verify, CityController_get_all_devices, devices_values.
    meth_unfold. simpl in Hrun. by rewrite Hrun.
  - rewrite Hb. destruct Hok as [_ Hdom]. split.
    + intros Hall k l Hl. apply (Hall k l); [| exact Hl]. apply Hdom. by eexists.
    + intros Hall k l _. apply Hall.
Qed.

Lemma SunsetRoutine_notify_completion_eq (ids : list value) (s : SunsetRoutine)
    (w : World) :
  _lights_to_activate s = Some ids ->
  SunsetRoutine_notify_completion s w =
    _log_step ("Activated " +:+ pretty (Z.of_nat (length ids)) +:+ " street lights")
      s w.
Proof.
  intros Hids. unfold SunsetRoutine_notify_completion, read_lights_to_activate.
  unfold mbind at 1. unfold Meth_bind at 1. unfold mbind at 1. unfold Meth_bind at 1.
  unfold self_gets at 1. rewrite Hids. reflexivity.
Qed.

(** X27.  [SunsetRoutine.execute] on a registry in order.  It answers with a
    success result named 'Sunset Routine'.  Afterwards every street light,
    whatever its status was, is ACTIVE at brightness 100, every traffic
    signal has a cycle of 60 seconds, and every other object is as it was;
    no key is added or removed.  The verification is always True, and the
    sixth of the seven log entries counts the street lights. *)
Theorem sunset_routine_spec (c : CityController) (self : SunsetRoutine) (w : World) :
  order_ok c w -> typed_ok w -> ids_ok w ->
  exists stamp log self' w',
    SunsetRoutine_execute c self w =
      (Returned (RoutineOk "Sunset Routine" stamp log), self', w') /\
    each_device after_sunset (_devices w) (_devices w') /\
    (forall k l, _devices w' !! k = Some (Light l) ->
                 status (light_base l) = ACTIVE /\ brightness l = 100) /\
    messages log =
      VStr <$> ["Starting routine"; "Preparation complete";
                "Main operations complete";
                "Verification: True";
                "Cleanup complete";
                "Activated "
                  +:+ pretty (Z.of_nat (count_devices has_set_brightness (_devices w)))
                  +:+ " street lights";
                "Routine completed successfully"].
Proof.
  intros Hok Hty Hid.
  destruct (SunsetRoutine_execute c self w) as [[r self'] w'] eqn:Hrun.
  unfold SunsetRoutine_execute, DailyRoutineTemplate_execute,
    try_except_Exception_meth in Hrun.
  unfold mbind, Meth_bind, mret, Meth_ret, self_modify, self_gets, lift_py,
    datetime_now in Hrun.
  cbn [prepare execute_main_operations verify cleanup notify_completion get_name
       SunsetRoutine_class] in Hrun.
  rewrite log_step_eq in Hrun.
  cbn [routine_log routine_set_log SunsetRoutine_log sunset_log _lights_to_activate]
    in Hrun.
  match type of Hrun with
  | context [SunsetRoutine_prepare c ?s ?x] =>
      rewrite (SunsetRoutine_prepare_eq c s x Hok Hty Hid) in Hrun
  end.
  rewrite log_step_eq in Hrun.
  cbn [routine_log routine_set_log SunsetRoutine_log sunset_log _lights_to_activate]
    in Hrun.
  match type of Hrun with
  | context [SunsetRoutine_execute_main_operations c ?s ?x] =>
      destruct (SunsetRoutine_operations_eq c s x Hok Hty Hid eq_refl)
        as (w2 & Hmain & Heach);
      rewrite Hmain in Hrun
  end.
  change (each_device after_sunset (_devices w) (_devices w2)) in Heach.
  assert (order_ok c w2 /\ typed_ok w2 /\ ids_ok w2) as (Hok2 & Hty2 & Hid2).
  { apply (fun Hsame => each_device_keeps_order _ c w w2 Hsame Heach);
      [| exact Hok | exact Hty | exact Hid].
    intros t d. apply after_routine_same_identity. }
  assert (forall k l, _devices w2 !! k = Some (Light l) ->
            status (light_base l) = ACTIVE /\ brightness l = 100) as Hlit.
  { intros k l Hl. specialize (Heach k).
    destruct (_devices w !! k) as [d |]; [| congruence].
    destruct Heach as [t Ht]. rewrite Ht in Hl.
    destruct d; inversion Hl; done. }
  rewrite log_step_eq in Hrun.
  cbn [routine_log routine_set_log SunsetRoutine_log sunset_log _lights_to_activate]
    in Hrun.
  match type of Hrun with
  | context [SunsetRoutine_verify c ?s ?x] =>
      destruct (SunsetRoutine_verify_eq c s x Hok2 Hty2 Hid2)
        as (verification & Hverify & Hverified);
      rewrite Hverify in Hrun
  end.
  assert (verification = true) as ->.
  { apply Hverified. intros k l Hl. by apply (Hlit k l). }
  rewrite log_step_eq in Hrun.
  cbn [routine_log routine_set_log SunsetRoutine_log sunset_log _lights_to_activate]
    in Hrun.
  unfold DailyRoutineTemplate_cleanup, mret, Meth_ret in Hrun.
  cbn [routine_log] in Hrun.
  rewrite log_step_eq in Hrun.
  cbn [routine_log routine_set_log SunsetRoutine_log sunset_log _lights_to_activate]
    in Hrun.
  match type of Hrun with
  | context [SunsetRoutine_notify_completion ?s ?x] =>
      rewrite (SunsetRoutine_notify_completion_eq _ s x eq_refl) in Hrun
  end.
  rewrite log_step_eq in Hrun.
  cbn [routine_log routine_set_log SunsetRoutine_log sunset_log _lights_to_activate]
    in Hrun.
  rewrite log_step_eq in Hrun.
  cbn [routine_log routine_set_log SunsetRoutine_log sunset_log _lights_to_activate]
    in Hrun.
  injection Hrun as <- <- <-.
  eexists _, _, _, _. split; [reflexivity |].
  split; [exact Heach |]. split; [exact Hlit |].
  unfold messages. rewrite length_fmap, (collected_count _ c w Hok).
  cbn [fmap list_fmap]. rewrite !log_entry_message. reflexivity.
Qed.

(** ** Devices by type *)

(** X28.  [get_devices_by_type(t)], the registered objects taken in the
    order of registration.  When every object has a device type, the answer
    is the [to_dict] of those whose type has the value [t], in that order,
    and nothing is changed.  When some object has no device type, the call
    raises AttributeError whatever [t] is, also when the object comes after
    one that matches. *)
Theorem get_devices_by_type_spec (ty : string) (c : CityController) (w : World) :
  let values := omap (fun k => _devices w !! k) (_device_order c) in
  (Forall (fun d => is_Some (device_type (base_of d))) values ->
   CityController_get_devices_by_type ty c w =
     (Returned (AnyDevice_to_dict <$>
                  filter (fun d => DeviceType_value <$> device_type (base_of d) = Some ty)
                    values), c, w)) /\
  (Exists (fun d => device_type (base_of d) = None) values ->
   exists msg,
     CityController_get_devices_by_type ty c w =
       (Raised (PyException "AttributeError" msg), c, w)).
Proof.
  intros values. subst values.
  assert (forall r, CityController_get_devices_by_type ty c w =
            (let '(r, w') :=
               select_devices_by_type ty
                 (omap (fun k => _devices w !! k) (_device_order c)) w in
             (r, c, w')) ->
          select_devices_by_type ty
            (omap (fun k => _devices w !! k) (_device_order c)) w = (r, w) ->
          CityController_get_devices_by_type ty c w = (r, c, w)) as Hlift.
  { intros r -> ->. reflexivity. }
  specialize (fun r => Hlift r eq_refl).
  generalize dependent (omap (fun k => _devices w !! k) (_device_order c)).
  intros values Hlift. split.
  - intros Htyped. apply Hlift. clear Hlift.
    induction Htyped as [| d values' [t Ht] Htyped IH]; [reflexivity |].
    cbn [select_devices_by_type]. unfold device_type_value.
    unfold mbind, Py_bind, mret, Py_ret.
    rewrite Ht, IH, filter_cons. rewrite Ht. simpl.
    destruct (bool_decide_reflect (DeviceType_value t = ty)) as [Heq | Hne].
    + rewrite decide_True by (by rewrite Heq). reflexivity.
    + rewrite decide_False by (intros [= Heq]; done). reflexivity.
  - intros Huntyped.
    assert (exists msg, select_devices_by_type ty values w =
              (Raised (PyException "AttributeError" msg), w)) as [msg Hsel].
    2: { exists msg. by apply Hlift. }
    clear Hlift.
    induction Huntyped as [d values' Hd | d values' Huntyped [msg IH]].
    + cbn [select_devices_by_type]. unfold device_type_value.
      unfold mbind, Py_bind, raise. rewrite Hd. by eexists.
    + cbn [select_devices_by_type]. unfold device_type_value.
      unfold mbind, Py_bind, mret, Py_ret, raise in *.
      destruct (device_type (base_of d)); [| by eexists].
      rewrite IH. by eexists.
Qed.

(** ** What the routines raise *)

Lemma raises_Exception_only_bind {A B} (m : Py A) (k : A -> Py B) :
  raises_Exception_only m ->
  (forall a, raises_Exception_only (k a)) ->
  raises_Exception_only (m ≫= k).
Proof.
  intros Hm Hk w e w' Hrun. unfold mbind, Py_bind in Hrun.
  destruct (m w) as [[a | e0] w1] eqn:Hmw.
  - by apply (Hk a w1 e w').
  - inversion Hrun; subst. by apply (Hm w e w').
Qed.

Lemma raises_Exception_only_ret {A} (a : A) : raises_Exception_only (mret a).
Proof. intros w e w' Hrun. discriminate Hrun. Qed.

(** A computation built from binds, branches and the leaves of the routines
    raises instances of [Exception] only. *)
Ltac exception_step :=
  first
    [ assumption
    | apply raises_Exception_only_ret
    | apply raises_Exception_only_bind; [| intros ?]
    | match goal with
      | |- raises_Exception_only (if ?b then _ else _) => destruct b
      | |- raises_Exception_only (match ?x with _ => _ end) => destruct x
      end
    | (let Hrun := fresh "Hrun" in
       intros ? ? ? Hrun;
       unfold subscript, get_device_at, get_device, write_device, gets, modify,
         datetime_now, raise, device_type_value, mret, Py_ret in Hrun;
       first [ discriminate Hrun | by inversion Hrun ]) ].

Lemma subscript_raises (d : Dict) (k : string) : raises_Exception_only (subscript d k).
Proof. unfold subscript. repeat exception_step. Qed.

Lemma get_device_at_raises (key : value) : raises_Exception_only (get_device_at key).
Proof. unfold get_device_at. repeat exception_step. Qed.

Ltac exception_only :=
  repeat first
    [ apply subscript_raises | apply get_device_at_raises | exception_step ].

Lemma Device_calls_raise (level : Z) (d : AnyDevice) :
  raises_Exception_only (Device_set_brightness level d) /\
  raises_Exception_only (Device_activate d) /\
  raises_Exception_only (Device_deactivate d).
Proof.
  unfold Device_set_brightness, Device_activate, Device_deactivate,
    StreetLight_set_brightness, StreetLight_activate, StreetLight_deactivate,
    TrafficSignal_activate, TrafficSignal_deactivate,
    SecurityCamera_activate, SecurityCamera_deactivate.
  repeat split; exception_only.
Qed.

Lemma set_brightness_thrice_raises (device_id : string) (a b c : Z) (d : AnyDevice) :
  raises_Exception_only (set_brightness_thrice device_id a b c d).
Proof.
  unfold set_brightness_thrice.
  apply raises_Exception_only_bind; [apply (Device_calls_raise a) | intros [? d1]].
  apply raises_Exception_only_bind; [exception_only | intros _].
  apply raises_Exception_only_bind; [apply (Device_calls_raise b) | intros [? d2]].
  apply raises_Exception_only_bind; [exception_only | intros _].
  apply raises_Exception_only_bind; [apply (Device_calls_raise c) | intros [? d3]].
  apply raises_Exception_only_bind; [exception_only | intros _].
  exception_only.
Qed.

Lemma routine_loops_raise :
  (forall devices, raises_Exception_only (active_light_ids devices)) /\
  (forall devices, raises_Exception_only (street_light_ids devices)) /\
  (forall ids, raises_Exception_only (turn_lights_off ids)) /\
  (forall ids, raises_Exception_only (turn_lights_on ids)) /\
  (forall seconds signals,
     raises_Exception_only (adjust_traffic_signals seconds signals)) /\
  (forall wanted devices,
     raises_Exception_only (all_lights_have_status wanted devices)) /\
  (forall ty values, raises_Exception_only (select_devices_by_type ty values)).
Proof.
  repeat split.
  - intros devices. induction devices as [| d rest IH];
      cbn [active_light_ids]; exception_only.
  - intros devices. induction devices as [| d rest IH];
      cbn [street_light_ids]; exception_only.
  - intros ids. induction ids as [| key rest IH]; cbn [turn_lights_off];
      [exception_only |].
    apply raises_Exception_only_bind; [apply get_device_at_raises | intros device].
    apply raises_Exception_only_bind; [| intros _; exact IH].
    destruct device as [device |]; [| exception_only].
    destruct key as [| ? | ? | device_id | ?];
      [exception_only | exception_only | exception_only | | exception_only].
    apply raises_Exception_only_bind.
    { destruct (has_set_brightness device);
        [apply set_brightness_thrice_raises | exception_only]. }
    intros device'.
    apply raises_Exception_only_bind; [apply (Device_calls_raise 0) | intros [? ?]].
    exception_only.
  - intros ids. induction ids as [| key rest IH]; cbn [turn_lights_on];
      [exception_only |].
    apply raises_Exception_only_bind; [apply get_device_at_raises | intros device].
    apply raises_Exception_only_bind; [| intros _; exact IH].
    destruct device as [device |]; [| exception_only].
    destruct key as [| ? | ? | device_id | ?];
      [exception_only | exception_only | exception_only | | exception_only].
    apply raises_Exception_only_bind; [apply (Device_calls_raise 0) | intros [? device']].
    apply raises_Exception_only_bind; [exception_only | intros _].
    destruct (has_set_brightness device'); [| exception_only].
    apply raises_Exception_only_bind;
      [apply set_brightness_thrice_raises | intros ?; exception_only].
  - intros seconds signals. induction signals as [| signal rest IH];
      cbn [adjust_traffic_signals]; exception_only.
  - intros wanted devices. induction devices as [| d rest IH];
      cbn [all_lights_have_status]; exception_only.
  - intros ty values. induction values as [| d rest IH];
      cbn [select_devices_by_type]; exception_only.
    unfold device_type_value. exception_only.
Qed.

Lemma method_bind_raises {R A B} (m : Meth R A) (k : A -> Meth R B) :
  method_raises_Exception_only m ->
  (forall a, method_raises_Exception_only (k a)) ->
  method_raises_Exception_only (m ≫= k).
Proof.
  intros Hm Hk s w e s' w' Hrun. unfold mbind, Meth_bind in Hrun.
  destruct (m s w) as [[[a | e0] s1] w1] eqn:Hmw.
  - by apply (Hk a s1 w1 e s' w').
  - inversion Hrun; subst. by apply (Hm s w e s' w').
Qed.

Lemma lift_py_raises {R A} (m : Py A) :
  raises_Exception_only m -> method_raises_Exception_only (lift_py (S := R) m).
Proof.
  intros Hm s w e s' w' Hrun. unfold lift_py in Hrun.
  destruct (m w) as [[a | e0] w1] eqn:Hmw; inversion Hrun; subst.
  by apply (Hm w e w').
Qed.

Lemma ask_controller_raises {R A} (c : CityController) (m : Meth CityController A) :
  method_raises_Exception_only m ->
  method_raises_Exception_only (ask_controller (R := R) c m).
Proof.
  intros Hm s w e s' w' Hrun. unfold ask_controller in Hrun.
  destruct (m c w) as [[[a | e0] c1] w1] eqn:Hmw; inversion Hrun; subst.
  by apply (Hm c w e c1 w').
Qed.

Lemma method_leaves_raise {R} {L : RoutineLog R} :
  (forall A (a : A), method_raises_Exception_only (mret (M := Meth R) a)) /\
  (forall A (f : R -> A), method_raises_Exception_only (self_gets f)) /\
  (forall f : R -> R, method_raises_Exception_only (self_modify f)) /\
  (forall message, method_raises_Exception_only (_log_step message)).
Proof. repeat split; intros; intros s w e s' w' Hrun; discriminate Hrun. Qed.

Lemma controller_queries_raise :
  method_raises_Exception_only CityController_get_all_devices /\
  forall ty, method_raises_Exception_only (CityController_get_devices_by_type ty).
Proof.
  split.
  - intros s w e s' w' Hrun. discriminate Hrun.
  - intros ty. unfold CityController_get_devices_by_type.
    apply method_bind_raises.
    + intros s w e s' w' Hrun. discriminate Hrun.
    + intros values. apply lift_py_raises. apply routine_loops_raise.
Qed.

(** The steps of both routines raise instances of [Exception] only. *)
Lemma routine_steps_raise (c : CityController) :
  (method_raises_Exception_only (SunriseRoutine_prepare c) /\
   method_raises_Exception_only (SunriseRoutine_execute_main_operations c) /\
   method_raises_Exception_only (SunriseRoutine_verify c) /\
   method_raises_Exception_only SunriseRoutine_notify_completion) /\
  (method_raises_Exception_only (SunsetRoutine_prepare c) /\
   method_raises_Exception_only (SunsetRoutine_execute_main_operations c) /\
   method_raises_Exception_only (SunsetRoutine_verify c) /\
   method_raises_Exception_only SunsetRoutine_notify_completion).
Proof.
  unfold SunriseRoutine_prepare, SunriseRoutine_execute_main_operations,
    SunriseRoutine_verify, SunriseRoutine_notify_completion, read_active_lights,
    SunsetRoutine_prepare, SunsetRoutine_execute_main_operations,
    SunsetRoutine_verify, SunsetRoutine_notify_completion, read_lights_to_activate.
  repeat split;
    repeat first
      [ apply method_bind_raises; [| intros ?]
      | apply ask_controller_raises
      | apply controller_queries_raise
      | apply lift_py_raises
      | apply routine_loops_raise
      | apply method_leaves_raise
      | match goal with
        | |- method_raises_Exception_only (match ?x with _ => _ end) => destruct x
        end
      | (intros ? ? ? Hrun; unfold raise in Hrun; by inversion Hrun) ].
Qed.

(** With steps that raise instances of [Exception] only, the template
    method returns. *)
Lemma template_returns {R} {L : RoutineLog R} {C : DailyRoutine R} (s : R) (w : World) :
  method_raises_Exception_only prepare ->
  method_raises_Exception_only execute_main_operations ->
  method_raises_Exception_only verify ->
  method_raises_Exception_only cleanup ->
  method_raises_Exception_only notify_completion ->
  exists r s' w', DailyRoutineTemplate_execute s w = (Returned r, s', w').
Proof.
  intros Hp Hm Hv Hc Hn.
  unfold DailyRoutineTemplate_execute, try_except_Exception_meth, _log_step.
  unfold mbind, mret, Meth_bind, Meth_ret, lift_py, self_gets, self_modify,
    datetime_now.
  simpl.
  repeat match goal with
         | |- context [match ?m ?r ?x with _ => _ end] =>
             let Hstep := fresh "Hstep" in
             destruct (m r x) as [[[? | ?e] ?] ?] eqn:Hstep; simpl
         end;
    try (by eexists _, _, _);
    match goal with
    | Hstep : _ = (Raised ?e, _, _) |- _ =>
        first [ rewrite (Hp _ _ _ _ _ Hstep) | rewrite (Hm _ _ _ _ _ Hstep)
              | rewrite (Hv _ _ _ _ _ Hstep) | rewrite (Hc _ _ _ _ _ Hstep)
              | rewrite (Hn _ _ _ _ _ Hstep) ]
    end;
    by eexists _, _, _.
Qed.

(** X29.  The routine endpoint.  For 'sunrise' and for 'sunset' it answers
    [{'success': True, 'message': '<type> routine executed'}] with status
    200 in every state of the registry: the routine never lets an exception
    through, and its own result, a failure included, is dropped.  The
    controller's attributes are not touched.  Any other type is answered
    with [{'error': 'Invalid routine type'}] and status 400, and nothing is
    changed. *)
Theorem execute_routine_endpoint (routine_type : string) (c : CityController)
    (w : World) :
  (routine_type ∈ ["sunrise"; "sunset"] ->
   exists w',
     execute_routine routine_type c w =
       (Returned (({[ "success" := VBool true;
                      "message" := VStr (routine_type +:+ " routine executed") ]}
                   : Dict), 200), c, w')) /\
  (routine_type ∉ ["sunrise"; "sunset"] ->
   execute_routine routine_type c w =
     (Returned (({[ "error" := VStr "Invalid routine type" ]} : Dict), 400), c, w)).
Proof.
  destruct (routine_steps_raise c) as [(Hp1 & Hm1 & Hv1 & Hn1) (Hp2 & Hm2 & Hv2 & Hn2)].
  assert (method_raises_Exception_only
            (DailyRoutineTemplate_cleanup (R := SunriseRoutine))) as Hc1
    by (intros s0 w0 e s' w' Hrun; discriminate Hrun).
  assert (method_raises_Exception_only
            (DailyRoutineTemplate_cleanup (R := SunsetRoutine))) as Hc2
    by (intros s0 w0 e s' w' Hrun; discriminate Hrun).
  destruct (template_returns (C := SunriseRoutine_class c) SunriseRoutine_new w
              Hp1 Hm1 Hv1 Hc1 Hn1) as (r1 & s1 & w1 & Hsunrise).
  destruct (template_returns (C := SunsetRoutine_class c) SunsetRoutine_new w
              Hp2 Hm2 Hv2 Hc2 Hn2) as (r2 & s2 & w2 & Hsunset).
  unfold execute_routine, call_on_new.
  unfold mbind, mret, Meth_bind, Meth_ret, lift_py, self_gets.
  fold (SunriseRoutine_execute c) in Hsunrise.
  fold (SunsetRoutine_execute c) in Hsunset.
  destruct (bool_decide_reflect (routine_type = "sunrise")) as [-> | Hne1].
  { rewrite Hsunrise. split; [by eexists |].
    intros Hnot. exfalso. apply Hnot. by left. }
  destruct (bool_decide_reflect (routine_type = "sunset")) as [-> | Hne2].
  { rewrite Hsunset. split; [by eexists |].
    intros Hnot. exfalso. apply Hnot. right. by left. }
  split; [| reflexivity].
  intros Hin. exfalso.
  apply elem_of_cons in Hin as [-> | Hin]; [done |].
  apply list_elem_of_singleton in Hin as ->. done.
Qed.

(** ** The controller's command log, read back *)

(** X30.  [get_command_history(limit)] changes nothing and answers with a
    suffix of the log.  For a positive limit that is the last
    [min(limit, n)] entries of the [n] logged.  For limit 0 it is the whole
    log, not the empty list, since [l[-0:]] is [l[0:]].  For a negative
    limit [-k] it is the log without its first [k] entries. *)
Theorem get_command_history_spec (limit : Z) (self : CityController) (w : World) :
  let history := _command_history self in
  let n := Z.of_nat (length history) in
  exists entries,
    CityController_get_command_history limit self w = (Returned entries, self, w) /\
    (0 < limit ->
     entries = drop (Z.to_nat (n - Z.min limit n)) history /\
     Z.of_nat (length entries) = Z.min limit n) /\
    (limit = 0 -> entries = history) /\
    (limit < 0 -> entries = drop (Z.to_nat (Z.min (- limit) n)) history).
Proof.
  intros history n.
  exists (slice_from (- limit) history). split; [reflexivity |].
  unfold slice_from. fold n. split; [| split].
  - intros Hpos. destruct (Z.ltb_spec (- limit) 0); [| lia].
    assert (Z.max 0 (n + - limit) = n - Z.min limit n) as -> by lia.
    split; [reflexivity |]. rewrite length_drop. unfold n. lia.
  - intros ->. simpl. rewrite Z.min_l by lia. reflexivity.
  - intros Hneg. destruct (Z.ltb_spec (- limit) 0); [lia | reflexivity].
Qed.

End MoreProperties.

(** * Examples: the properties at concrete inputs *)

#[local] Existing Instance Demo.platform.

(** C7 at brightness 40 (accepted) and 150 (rejected). *)
Lemma set_brightness_spec_witness :
  (exists self' w',
     StreetLight_set_brightness 40 Demo.SL001 Demo.empty_world
       = (Returned (true, self'), w') /\
     brightness self' = 40 /\
     (status (light_base self') = ACTIVE <-> 0 < 40)) /\
  StreetLight_set_brightness 150 Demo.SL001 Demo.empty_world
    = (Returned (false, Demo.SL001), Demo.empty_world).
Proof.
  split.
  - apply (set_brightness_spec Demo.SL001 40 Demo.empty_world). lia.
  - apply (set_brightness_spec Demo.SL001 150 Demo.empty_world). lia.
Defined.

(** C3 (as the code has it) on the light and the camera the application
    registers at start-up. *)
Lemma device_status_consistency_witness :
  (exists self' w',
     StreetLight_calls
       [SL_set_brightness 40; SL_set_brightness 200; SL_deactivate; SL_activate]
       Demo.SL001 Demo.empty_world = (Returned self', w') /\
     (status (light_base self') = ACTIVE <-> 0 < brightness self')) /\
  (exists self' w',
     SecurityCamera_calls [SC_activate; SC_toggle_motion_detection]
       Demo.SC001 Demo.empty_world = (Returned self', w') /\
     (status (camera_base self') = ACTIVE <-> recording self' = true)).
Proof.
  destruct (@device_status_consistency Demo.platform) as (Hlight & Hcamera & _).
  split.
  - apply Hlight. unfold StreetLight_consistent. simpl. split; [done | lia].
  - apply Hcamera. unfold SecurityCamera_consistent. simpl. done.
Defined.

(** C3 as stated fails for traffic signals: no property of the signal field
    is equivalent to status == Active.  On the signal the application
    registers, [set_signal('red')] leaves it Active and [deactivate()] leaves
    it Inactive, with the same signal 'red'. *)
Lemma traffic_signal_status_not_determined_by_signal :
  ~ (exists signal_set : string -> Prop,
       forall (cs : list TrafficSignalCall) (self' : TrafficSignal) w',
         TrafficSignal_calls cs Demo.TS001 Demo.empty_world = (Returned self', w') ->
         (status (signal_base self') = ACTIVE <-> signal_set (current_signal self'))).
Proof.
  intros [signal_set Hiff].
  pose proof (Hiff [TS_set_signal "red"] _ _ eq_refl) as [Hon _].
  pose proof (Hiff [TS_deactivate] _ _ eq_refl) as [_ Hoff].
  simpl in Hon, Hoff. specialize (Hoff (Hon eq_refl)). discriminate Hoff.
Qed.

(** C1 fails on the code.  [SL001] is Active at brightness 50;
    [execute()] of [LightOnCommand(controller, 'SL001')] succeeds, and the
    [undo()] that follows reports success but leaves the light Inactive at
    brightness 0 instead of Active at 50. *)
Theorem light_on_undo_does_not_restore :
  Demo.result_of Demo.light_on_then_undo Demo.dimmed_world =
    Returned (Some (ACTIVE, 50), VBool true, VBool true, Some (INACTIVE, 0)).
Proof. vm_compute. reflexivity. Qed.

(** C8 fails on the code at limit 0.  After two executions the history has
    two entries, and [get_history(0)] returns both (the slice [[-0:]] is the
    whole list), not the [min(0, 2) = 0] most recent ones. *)
Theorem get_history_zero_returns_all :
  Demo.result_of (Demo.two_commands_then_history 0) Demo.dimmed_world =
    Returned (2%nat,
              [(VStr "Turn on light SL001 at 100% brightness", VBool true);
               (VStr "Turn on light SL999 at 100% brightness", VBool false)]).
Proof. vm_compute. reflexivity. Qed.

(** C2 fails on the code after a trim.  Three notifications get the ids 1, 2
    and 3; [clear_old_notifications(1)] removes two of them; the next
    notification gets the id 2, smaller than the id 3 of the record still
    stored and equal to an id given before. *)
Theorem notification_id_repeats_after_trim :
  Demo.result_of Demo.notify_trim_notify Demo.empty_world =
    Returned ([VInt 1; VInt 2; VInt 3; VInt 2], [VInt 3; VInt 2]).
Proof. vm_compute. reflexivity. Qed.

(** C4 on [LightOnCommand(controller, 'SL999')] with only [SL001]
    registered. *)
Lemma absent_device_failure_witness :
  Command_execute 1 Demo.dimmed_world =
    (Returned {[ "success" := VBool false;
                 "error" := VStr "Device SL999 not found" ]}, Demo.dimmed_world) /\
  exists w' stamp,
    CommandInvoker_execute 1 Demo.dimmed_world =
      (Returned {[ "success" := VBool false;
                   "error" := VStr "Device SL999 not found" ]}, w') /\
    CommandInvoker_get_history 1 w' =
      (Returned [({[ "command" := VStr "Turn on light SL999 at 100% brightness";
                     "success" := VBool false;
                     "timestamp" := VStr stamp ]} : Dict)], w').
Proof.
  destruct (absent_device_failure Demo.dimmed_world 1
              (LightOnCommand "SL999" 100 None) "SL999")
    as [Hexec (w' & stamp & Hinvoke & _ & _ & Hhistory)];
    [vm_compute; reflexivity | reflexivity | vm_compute; reflexivity |].
  split; [exact Hexec |].
  exists w', stamp. split; [exact Hinvoke | exact Hhistory].
Defined.

(** C6 on a [LightOnCommand] that was never executed. *)
Lemma undo_before_execute_witness :
  Command_undo 0 Demo.dimmed_world =
    (Returned {[ "success" := VBool false;
                 "error" := VStr "No previous state to restore" ]},
     Demo.dimmed_world).
Proof.
  apply (undo_before_execute Demo.dimmed_world 0 (LightOnCommand "SL001" 100 None));
    [vm_compute; reflexivity | reflexivity].
Defined.

(** C10 on the light [SL001] as constructed: Inactive, brightness 0. *)
Lemma light_off_undo_at_zero_witness :
  exists result w1 l1,
    Command_execute 0 Demo.off_world = (Returned result, w1) /\
    result !! "success" = Some (VBool true) /\
    _devices w1 !! "SL001" = Some (Light l1) /\
    status (light_base l1) = INACTIVE /\ brightness l1 = 0 /\
    Command_undo 0 w1 =
      (Returned {[ "success" := VBool false; "error" := VStr "Cannot undo" ]}, w1).
Proof.
  destruct (light_off_undo_at_zero Demo.off_world 0 "SL001" None Demo.SL001)
    as (result & w1 & l1 & Hexec & Hok & _ & Hd & Hst & Hbr & Hundo);
    [vm_compute; reflexivity | vm_compute; reflexivity | reflexivity |].
  exists result, w1, l1. repeat (split; [assumption |]). assumption.
Defined.


(** The same scenario, run: the security observer holds the alert although
    the observer before it raised, the fault was printed, and the record is
    in the log and in the alert index. *)
Example breach_reaches_security_observer :
  Demo.result_of Demo.breach Demo.observers_world =
    Returned ([VStr "Gate breach"], 1%nat, 1%nat,
              ["Error notifying observer: boom"; "[SECURITY ALERT] Gate breach"]).
Proof. vm_compute. reflexivity. Qed.


(** The same call, run: the record has id 0 and type 'security'; the
    security observer reacted to it and the query by 'security' finds it,
    the query by 'info' does not; the alert index, filled according to the
    parameter 'info', stays empty. *)
Example overridden_type_is_seen :
  Demo.result_of Demo.overridden_type Demo.observers_world =
    Returned (VInt 0, VStr "security",
              ([VStr "door"], 1%nat, 0%nat,
               ["Error notifying observer: boom"; "[SECURITY ALERT] door"]),
              0%nat, 1%nat).
Proof. vm_compute. reflexivity. Qed.


(** The scenario of a light that is off, turned on through the invoker and
    undone: here the round trip does return to Inactive at brightness 0. *)
Example turn_on_then_undo_from_off :
  Demo.result_of Demo.turn_on_then_undo Demo.light_on_world =
    Returned (VStr "light_on", VInt 100,
              [(VStr "Turn on light SL001 at 100% brightness", VBool true)],
              Some (VBool true), Some (INACTIVE, 0)).
Proof. vm_compute. reflexivity. Qed.

(** * Examples: the further properties in the town *)

(** The insertion order describes a mapping with the same keys. *)
Lemma order_ok_by_dom (c : CityController) (w : World) :
  NoDup (_device_order c) ->
  dom (_devices w) = list_to_set (_device_order c) ->
  order_ok c w.
Proof.
  intros Hnodup Hdom. split; [exact Hnodup |].
  intros k. rewrite <- elem_of_dom, Hdom. by rewrite elem_of_list_to_set.
Qed.

Lemma town_order_ok : order_ok City.controller City.town.
Proof.
  apply order_ok_by_dom.
  - apply (bool_decide_unpack _). vm_compute. exact I.
  - apply (bool_decide_unpack _). vm_compute. exact I.
Qed.

Lemma town_registry (k : string) (d : AnyDevice) :
  _devices City.town !! k = Some d ->
  device_id (base_of d) = k /\ device_type (base_of d) = Some (class_type d).
Proof.
  intros Hd. change (_devices City.town) with
    ({[ "SL001" := Light Demo.SL001_dimmed; "SL002" := Light City.SL002;
        "TS001" := Signal Demo.TS001; "SC001" := Camera Demo.SC001 ]}
       : gmap string AnyDevice) in Hd.
  do 3 (apply lookup_insert_Some in Hd as [[<- <-] | [_ Hd]]; [by split |]).
  apply lookup_singleton_Some in Hd as [<- <-]. by split.
Qed.

Lemma town_typed_ok : typed_ok City.town.
Proof. intros k d Hd. by apply (town_registry k d). Qed.

Lemma town_ids_ok : ids_ok City.town.
Proof. intros k d Hd. by apply (town_registry k d). Qed.


(** A computation that returns, read off its two projections. *)
Lemma run_eq {A} (m : Py A) (w : World) (a : A) :
  Demo.result_of m w = Returned a -> m w = (Returned a, Demo.after m w).
Proof.
  unfold Demo.result_of, Demo.after. destruct (m w) as [r w']. simpl.
  by intros ->.
Qed.

(** X3 in the town: the id of [SL003] is free, the id of [SL001] is
    taken. *)
Lemma register_device_spec_witness :
  (exists self' w',
     CityController_register_device (Light City.SL003) City.controller City.town
       = (Returned true, self', w') /\
     get_device "SL003" w' = (Returned (Some (Light City.SL003)), w') /\
     active_devices (_stats self') = Z.of_nat (active_count (_devices w'))) /\
  CityController_register_device (Light Demo.SL001) City.controller City.town
    = (Returned false, City.controller, City.town).
Proof.
  split.
  - destruct (register_device_spec (Light City.SL003) City.controller City.town
                town_order_ok) as [Hnew _].
    destruct Hnew as (self' & w' & listing & Hrun & _ & Hget & _ & _ & _ & Hcount);
      [vm_compute; reflexivity |].
    exists self', w'. split; [exact Hrun |]. split; [exact Hget | exact Hcount].
  - apply (register_device_spec (Light Demo.SL001) City.controller City.town
             town_order_ok).
    vm_compute. by eexists.
Defined.

(** X4 in the town: [SL002] is registered, [SL999] is not. *)
Lemma unregister_device_spec_witness :
  (exists self' w',
     CityController_unregister_device "SL002" City.controller City.town
       = (Returned true, self', w') /\
     get_device "SL002" w' = (Returned None, w') /\
     active_devices (_stats self') = Z.of_nat (active_count (_devices w'))) /\
  CityController_unregister_device "SL999" City.controller City.town
    = (Returned false, City.controller, City.town).
Proof.
  split.
  - destruct (unregister_device_spec "SL002" City.controller City.town
                town_order_ok) as [Hold _].
    destruct Hold as (self' & w' & Hrun & _ & Hget & _ & Hcount);
      [vm_compute; by eexists |].
    exists self', w'. split; [exact Hrun |]. split; [exact Hget | exact Hcount].
  - apply (unregister_device_spec "SL999" City.controller City.town town_order_ok).
    vm_compute. reflexivity.
Defined.

(** X5 in the town, with [SL003]. *)
Lemma register_unregister_round_trip_witness :
  exists self1 w1 self2 w2,
    CityController_register_device (Light City.SL003) City.controller City.town
      = (Returned true, self1, w1) /\
    CityController_unregister_device "SL003" self1 w1 = (Returned true, self2, w2) /\
    _devices w2 = _devices City.town /\
    _device_order self2 = _device_order City.controller.
Proof.
  apply (register_unregister_round_trip (Light City.SL003) City.controller City.town
           town_order_ok).
  vm_compute. reflexivity.
Defined.

(** X6 in the town: a command on the registered [SL001] and one on
    [SL999], which is not registered. *)
Lemma execute_command_bookkeeping_witness :
  (exists r self' w',
     CityController_execute_command 0 City.controller City.town
       = (Returned r, self', w') /\
     total_commands (_stats self') = 1 /\
     active_devices (_stats self') = Z.of_nat (active_count (_devices w'))) /\
  (exists r self' w' stamp,
     CityController_execute_command 7 City.controller City.town
       = (Returned r, self', w') /\
     r !! "success" = Some (VBool false) /\
     _command_history self' =
       [{| log_command := "LightOnCommand"; log_timestamp := stamp;
           log_success := VBool false |}]).
Proof.
  split.
  - destruct (execute_command_bookkeeping 0 (LightOnCommand "SL001" 100 None) "SL001"
                City.controller City.town town_order_ok)
      as (r & self' & w' & stamp & Hrun & _ & _ & Htotal & Hcount & _);
      [vm_compute; reflexivity | reflexivity |].
    exists r, self', w'. split; [exact Hrun |]. split; [exact Htotal | exact Hcount].
  - destruct (execute_command_bookkeeping 7 (LightOnCommand "SL999" 100 None) "SL999"
                City.controller City.town town_order_ok)
      as (r & self' & w' & stamp & Hrun & _ & Hlog & _ & _ & _ & Habsent);
      [vm_compute; reflexivity | reflexivity |].
    assert (r !! "success" = Some (VBool false)) as Hfalse
      by (apply Habsent; vm_compute; reflexivity).
    exists r, self', w', stamp. split; [exact Hrun |]. split; [exact Hfalse |].
    rewrite Hlog. unfold dict_get. rewrite Hfalse. reflexivity.
Defined.

(** X7 in the town, on the [LightOffCommand] for [SL001]. *)
Lemma undo_last_command_undoes_nothing_witness :
  exists r self1 w1,
    CityController_execute_command 1 City.controller City.town
      = (Returned r, self1, w1) /\
    CityController_undo_last_command self1 w1 =
      (Returned (Some {[ "message" := VStr "Attempted to undo LightOffCommand" ]}),
       self1, w1).
Proof.
  apply (undo_last_command_undoes_nothing 1 (LightOffCommand "SL001" None) "SL001"
           City.controller City.town town_order_ok);
    [vm_compute; reflexivity | reflexivity].
Defined.

(** X8 in the town: a level in range and one out of range on the light
    [SL001], and the traffic signal [TS001] taken for a light. *)
Lemma set_light_brightness_spec_witness :
  (exists l' w',
     CityController_set_light_brightness "SL001" 40 City.controller City.town =
       (Returned {[ "success" := VBool true; "device_id" := VStr "SL001";
                    "brightness" := VInt 40 ]}, City.controller, w') /\
     _devices w' = <["SL001" := Light l']> (_devices City.town) /\
     brightness l' = 40) /\
  CityController_set_light_brightness "SL001" 150 City.controller City.town =
    (Returned {[ "success" := VBool false; "device_id" := VStr "SL001";
                 "brightness" := VInt 150 ]}, City.controller, City.town) /\
  CityController_set_light_brightness "TS001" 40 City.controller City.town =
    (Returned {[ "success" := VBool false;
                 "error" := VStr "Street light TS001 not found" ]},
     City.controller, City.town).
Proof.
  split; [| split].
  - destruct (set_light_brightness_spec "SL001" 40 City.controller City.town)
      as (Hvalid & _ & _).
    destruct (Hvalid Demo.SL001_dimmed) as (l' & w' & Hrun & Hdev & Hbr & _);
      [vm_compute; reflexivity | lia |].
    exists l', w'. split; [exact Hrun |]. split; [exact Hdev | exact Hbr].
  - destruct (set_light_brightness_spec "SL001" 150 City.controller City.town)
      as (_ & Hinvalid & _).
    apply (Hinvalid Demo.SL001_dimmed); [vm_compute; reflexivity | lia].
  - destruct (set_light_brightness_spec "TS001" 40 City.controller City.town)
      as (_ & _ & Hother).
    apply Hother. intros l Hl. vm_compute in Hl. discriminate Hl.
Defined.

(** X9 in the town: [SL002] is under maintenance and the cached count is 1;
    after [set_light_brightness('SL002', 60)] two devices are ACTIVE and the
    cached count is still 1. *)
Lemma set_light_brightness_leaves_count_stale_witness :
  exists r self' w',
    CityController_set_light_brightness "SL002" 60 City.controller City.town
      = (Returned r, self', w') /\
    r !! "success" = Some (VBool true) /\
    active_devices (_stats self') + 1 = Z.of_nat (active_count (_devices w')).
Proof.
  apply (set_light_brightness_leaves_count_stale "SL002" 60 City.SL002
           City.controller City.town);
    [vm_compute; reflexivity | discriminate | lia | vm_compute; reflexivity].
Defined.

(** X10 in the town: the camera [SC001], and [SL999], which is not
    registered. *)
Lemma activate_deactivate_device_spec_witness :
  (exists d' self' w',
     CityController_activate_device "SC001" City.controller City.town =
       (Returned {[ "success" := VBool true; "device_id" := VStr "SC001";
                    "action" := VStr "activate" ]}, self', w') /\
     status (base_of d') = ACTIVE /\
     _devices w' = <["SC001" := d']> (_devices City.town)) /\
  CityController_deactivate_device "SL999" City.controller City.town =
    (Returned {[ "success" := VBool false;
                 "error" := VStr "Device SL999 not found" ]},
     City.controller, City.town).
Proof.
  destruct (activate_deactivate_device_spec "SC001" City.controller City.town
              town_order_ok) as [Hfound _].
  destruct (activate_deactivate_device_spec "SL999" City.controller City.town
              town_order_ok) as [_ Habsent].
  split.
  - destruct (Hfound (Camera Demo.SC001)) as [(d' & self' & w' & Hrun & Hdev & Hst & _) _];
      [vm_compute; reflexivity |].
    exists d', self', w'. split; [exact Hrun |]. split; [exact Hst | exact Hdev].
  - apply Habsent. vm_compute. reflexivity.
Defined.

(** X11 in the town: 'green' and 'blue' on the signal [TS001], and the
    light [SL001] taken for a signal. *)
Lemma set_traffic_signal_spec_witness :
  (exists t' w',
     CityController_set_traffic_signal "TS001" "green" City.controller City.town =
       (Returned {[ "success" := VBool true; "device_id" := VStr "TS001";
                    "signal" := VStr "green" ]}, City.controller, w') /\
     _devices w' = <["TS001" := Signal t']> (_devices City.town) /\
     current_signal t' = "green" /\ status (signal_base t') = ACTIVE) /\
  CityController_set_traffic_signal "TS001" "blue" City.controller City.town =
    (Returned {[ "success" := VBool false; "device_id" := VStr "TS001";
                 "signal" := VStr "blue" ]}, City.controller, City.town) /\
  CityController_set_traffic_signal "SL001" "green" City.controller City.town =
    (Returned {[ "success" := VBool false;
                 "error" := VStr "Traffic signal SL001 not found" ]},
     City.controller, City.town).
Proof.
  split; [| split].
  - destruct (set_traffic_signal_spec "TS001" "green" City.controller City.town)
      as (Hvalid & _ & _).
    apply (Hvalid Demo.TS001); [vm_compute; reflexivity |].
    apply (bool_decide_unpack _). vm_compute. exact I.
  - destruct (set_traffic_signal_spec "TS001" "blue" City.controller City.town)
      as (_ & Hinvalid & _).
    apply (Hinvalid Demo.TS001); [vm_compute; reflexivity |].
    apply (bool_decide_unpack _). vm_compute. exact I.
  - destruct (set_traffic_signal_spec "SL001" "green" City.controller City.town)
      as (_ & _ & Hother).
    apply Hother. intros t Ht. vm_compute in Ht. discriminate Ht.
Defined.

(** X12 in the town: [SL001] is at 50 before [LightOffCommand]. *)
Lemma light_off_round_trip_witness :
  exists r1 w1 w2 l2,
    Command_execute 1 City.town = (Returned r1, w1) /\
    Command_undo 1 w1 =
      (Returned {[ "success" := VBool true; "action" := VStr "undo_light_off" ]}, w2) /\
    _devices w2 !! "SL001" = Some (Light l2) /\
    brightness l2 = 50 /\ status (light_base l2) = ACTIVE.
Proof.
  destruct (light_off_round_trip City.town 1 "SL001" None Demo.SL001_dimmed)
    as (r1 & w1 & l1 & w2 & l2 & Hexec & _ & _ & _ & _ & Hundo & Hd & Hbr & Hst & _);
    [vm_compute; reflexivity | vm_compute; reflexivity | simpl; lia |].
  exists r1, w1, w2, l2. split; [exact Hexec |]. split; [exact Hundo |].
  split; [exact Hd |]. split; [exact Hbr | exact Hst].
Defined.

(** X13 in the town: [TS001] is red before [TrafficGreenCommand]. *)
Lemma traffic_command_round_trip_witness :
  exists r1 w1 t1 r2 w2 t2,
    Command_execute 2 City.town = (Returned r1, w1) /\
    _devices w1 !! "TS001" = Some (Signal t1) /\
    current_signal t1 = "green" /\
    Command_undo 2 w1 = (Returned r2, w2) /\
    r2 !! "success" = Some (VBool true) /\
    _devices w2 !! "TS001" = Some (Signal t2) /\
    current_signal t2 = "red" /\ status (signal_base t2) = ACTIVE.
Proof.
  destruct (traffic_command_round_trip City.town 2 "TS001" None Demo.TS001 true)
    as (r1 & w1 & t1 & r2 & w2 & t2 &
        Hexec & _ & Hd1 & Hs1 & _ & Hundo & Hok & Hd2 & Hs2 & Hst & _);
    [vm_compute; reflexivity | vm_compute; reflexivity | |].
  { apply (bool_decide_unpack _). vm_compute. exact I. }
  exists r1, w1, t1, r2, w2, t2. split; [exact Hexec |]. split; [exact Hd1 |].
  split; [exact Hs1 |]. split; [exact Hundo |]. split; [exact Hok |].
  split; [exact Hd2 |]. split; [exact Hs2 | exact Hst].
Defined.

(** X14 in the town: [LightOnCommand] on [SL001], ACTIVE at 50. *)
Lemma light_on_execute_effect_witness :
  exists r w1 l1,
    Command_execute 0 City.town = (Returned r, w1) /\
    r !! "success" = Some (VBool true) /\
    _devices w1 !! "SL001" = Some (Light l1) /\
    brightness l1 = 100 /\
    commands w1 !! 0%nat =
      Some (LightOnCommand "SL001" 100
              (Some {| prev_status := ACTIVE; prev_brightness := 50 |})).
Proof.
  destruct (light_on_execute_effect City.town 0 "SL001" 100 None Demo.SL001_dimmed)
    as (r & w1 & l1 & Hexec & Hok & _ & Hd & Hbr & _ & Hsaved);
    [vm_compute; reflexivity | vm_compute; reflexivity |].
  exists r, w1, l1. split; [exact Hexec |]. split; [exact Hok |].
  split; [exact Hd |]. split; [exact Hbr | exact Hsaved].
Defined.

(** X15 in the town: [TrafficRedCommand] on the camera [SC001],
    [LightOnCommand] and [LightOffCommand] on the signal [TS001]. *)
Lemma commands_and_device_classes_witness :
  Command_execute 3 City.town =
    (Returned {[ "success" := VBool false;
                 "error" := VStr "Traffic signal SC001 not found" ]}, City.town) /\
  (exists r w1 t1,
     Command_execute 5 City.town = (Returned r, w1) /\
     r !! "success" = Some (VBool true) /\
     _devices w1 !! "TS001" = Some (Signal t1) /\
     current_signal t1 = "green" /\ status (signal_base t1) = ACTIVE) /\
  (exists r w1 t1,
     Command_execute 6 City.town = (Returned r, w1) /\
     r !! "success" = Some (VBool true) /\
     _devices w1 !! "TS001" = Some (Signal t1) /\
     current_signal t1 = "red" /\ status (signal_base t1) = INACTIVE).
Proof.
  split; [| split].
  - destruct (commands_and_device_classes City.town 3 "SC001") as (Hsignal & _ & _).
    apply (Hsignal None false (Camera Demo.SC001));
      [vm_compute; reflexivity | vm_compute; reflexivity | reflexivity].
  - destruct (commands_and_device_classes City.town 5 "TS001") as (_ & Hon & _).
    apply (Hon 100 None Demo.TS001); vm_compute; reflexivity.
  - destruct (commands_and_device_classes City.town 6 "TS001") as (_ & _ & Hoff).
    apply (Hoff None Demo.TS001); vm_compute; reflexivity.
Defined.

(** X16 in the town: two executions and one undo through the invoker. *)
Lemma invoker_history_and_stack_witness :
  h_command <$>
    _history (invoker (Demo.after
                         (CommandInvoker_calls
                            [Invoke_execute 0; Invoke_execute 2; Invoke_undo])
                         City.town)) = [0%nat; 2%nat] /\
  _undo_stack (invoker (Demo.after
                          (CommandInvoker_calls
                             [Invoke_execute 0; Invoke_execute 2; Invoke_undo])
                          City.town)) = [0%nat].
Proof.
  apply (invoker_history_and_stack [Invoke_execute 0; Invoke_execute 2; Invoke_undo]
           City.town).
  apply run_eq. vm_compute. reflexivity.
Defined.

(** X17 in the town: the [LightOffCommand] for [SL001], executed twice. *)
Lemma light_off_twice_cannot_be_undone_witness :
  exists r1 w1 r2 w2 w3 w4 l4,
    CommandInvoker_execute 1 City.town = (Returned r1, w1) /\
    CommandInvoker_execute 1 w1 = (Returned r2, w2) /\
    _undo_stack (invoker w2) = [1%nat; 1%nat] /\
    CommandInvoker_undo w2 =
      (Returned (Some {[ "success" := VBool false; "error" := VStr "Cannot undo" ]}),
       w3) /\
    CommandInvoker_undo w3 =
      (Returned (Some {[ "success" := VBool false; "error" := VStr "Cannot undo" ]}),
       w4) /\
    _devices w4 !! "SL001" = Some (Light l4) /\
    status (light_base l4) = INACTIVE /\ brightness l4 = 0.
Proof.
  destruct (light_off_twice_cannot_be_undone City.town 1 "SL001" None
              Demo.SL001_dimmed)
    as (r1 & w1 & r2 & w2 & w3 & w4 & l4 &
        H1 & H2 & Hstack & Hu1 & Hu2 & _ & Hd & Hst & Hbr);
    [vm_compute; reflexivity | vm_compute; reflexivity |].
  exists r1, w1, r2, w2, w3, w4, l4. split; [exact H1 |]. split; [exact H2 |].
  split; [exact Hstack |]. split; [exact Hu1 |]. split; [exact Hu2 |].
  split; [exact Hd |]. split; [exact Hst | exact Hbr].
Defined.

(** X18: a payment the bank of the town refuses, and one the bank of
    [City.paying] accepts. *)
Lemma payment_command_spec_witness :
  (exists result,
     Command_execute 4 City.town = (Returned result, with_bank tt City.town) /\
     Command_undo 4 (with_bank tt City.town) =
       (Returned {[ "success" := VBool false;
                    "error" := VStr "No transaction to refund" ]},
        with_bank tt City.town)) /\
  (exists result w1,
     @Command_execute City.paying 0 City.paying_world = (Returned result, w1) /\
     @commands City.paying w1 !! 0%nat =
       Some (ProcessPaymentCommand "R001" (VInt 120) "TRY" "tax" "Property tax"
               (VStr "TX0001")) /\
     @bank City.paying w1 = 1%nat /\
     @Command_undo City.paying 0 w1 =
       @banking City.paying _ (@refund_transaction City.paying (VStr "TX0001")) w1).
Proof.
  split.
  - destruct (@payment_command_spec Demo.platform City.town 4 "R001" (VInt 120)
                "TRY" "tax" "Property tax"
                {[ "success" := VBool false; "error" := VStr "Insufficient funds" ]}
                tt) as [Hrefused _];
      [vm_compute; reflexivity | reflexivity |].
    eexists. apply Hrefused. vm_compute. reflexivity.
  - destruct (@payment_command_spec City.paying City.paying_world 0 "R001" (VInt 120)
                "TRY" "tax" "Property tax"
                {[ "success" := VBool true;
                   "transaction" := VDict {[ "transaction_id" := VStr "TX0001" ]} ]}
                1%nat) as [_ Haccepted];
      [vm_compute; reflexivity | reflexivity |].
    assert (({[ "success" := VBool true;
                "transaction" := VDict {[ "transaction_id" := VStr "TX0001" ]} ]}
               : Dict) !! "transaction" =
            Some (VDict ({[ "transaction_id" := VStr "TX0001" ]} : Dict))) as Htx
      by (vm_compute; reflexivity).
    destruct (Haccepted eq_refl _ Htx) as (w1 & Hexec & Hstored & Hbank & Hundo).
    eexists. exists w1. split; [exact Hexec |]. split; [exact Hstored |].
    split; [exact Hbank |]. apply Hundo. vm_compute. reflexivity.
Defined.

(** X19 in the town: observer 1 is attached, observer 5 is not. *)
Lemma attach_detach_spec_witness :
  attach 1 City.town = (Returned tt, City.town) /\
  detach 5 City.town = (Returned tt, City.town) /\
  exists w1,
    attach 5 City.town = (Returned tt, w1) /\
    _observers (service w1) = [0%nat; 1%nat; 5%nat] /\
    detach 5 w1 = (Returned tt, City.town).
Proof.
  destruct (attach_detach_spec 1 City.town) as [Hattached _].
  destruct (attach_detach_spec 5 City.town) as [_ Hnew].
  split.
  { apply Hattached. apply (bool_decide_unpack _). vm_compute. exact I. }
  destruct Hnew as [Hdetach (w1 & Hattach & Horder & _ & Hback)].
  { apply (bool_decide_unpack _). vm_compute. exact I. }
  split; [exact Hdetach |].
  exists w1. split; [exact Hattach |]. split; [exact Horder | exact Hback].
Defined.


(** X21 in the town: a caller's keyword [zone] is passed on, a caller's
    keyword [notification_type] clashes. *)
Lemma notification_wrappers_witness :
  notify_security (VStr "Gate breach") (VStr "high") {[ "zone" := VStr "north" ]}
    City.town =
    notify (VStr "Gate breach") (VStr "security")
      (<["severity" := VStr "high"]> {[ "zone" := VStr "north" ]}) City.town /\
  exists m1 m2 m3,
    notify_security (VStr "Gate breach") (VStr "high")
      {[ "notification_type" := VStr "info" ]} City.town
      = (Raised (PyException "TypeError" m1), City.town) /\
    notify_emergency (VStr "Gate breach") (VStr "high")
      {[ "notification_type" := VStr "info" ]} City.town
      = (Raised (PyException "TypeError" m2), City.town) /\
    notify_transaction (VStr "Gate breach") (VStr "high")
      {[ "notification_type" := VStr "info" ]} City.town
      = (Raised (PyException "TypeError" m3), City.town).
Proof.
  destruct (notification_wrappers (VStr "Gate breach") (VStr "high") City.town)
    as (Hpass & Hclash & _).
  split.
  - assert (forall k : string, k ≠ "zone" ->
              ({[ "zone" := VStr "north" ]} : Dict) !! k = None) as Hfree
      by (intros k Hk; by apply lookup_singleton_ne).
    destruct (Hpass ({[ "zone" := VStr "north" ]} : Dict)) as (Hsecurity & _ & _);
      [by apply Hfree | by apply Hfree | by apply Hfree |].
    apply Hsecurity. by apply Hfree.
  - apply (Hclash ({[ "notification_type" := VStr "info" ]} : Dict)).
    rewrite lookup_singleton_eq. by eexists.
Defined.

(** X22 in the town after two notifications, with limit 1. *)
Lemma listings_newest_first_witness :
  (exists sorted,
     get_recent_notifications 1 City.informed_town =
       (Returned (take 1 sorted), City.informed_town) /\
     sorted ≡ₚ [City.first_record; City.second_record] /\
     StronglySorted not_older sorted) /\
  (exists sorted,
     get_security_alerts 1 City.informed_town =
       (Returned (take 1 sorted), City.informed_town) /\
     sorted ≡ₚ [City.second_record] /\
     StronglySorted not_older sorted).
Proof.
  destruct (listings_newest_first 1 City.informed_town ltac:(lia))
    as [Hrecent Halerts].
  split.
  - apply Hrecent. intros x Hx.
    apply elem_of_cons in Hx as [-> | Hx]; [by exists "2026-11-03T11:00:00" |].
    apply list_elem_of_singleton in Hx as ->. by exists "2026-11-03T11:00:01".
  - apply Halerts. intros x Hx.
    apply list_elem_of_singleton in Hx as ->. by exists "2026-11-03T11:00:01".
Defined.

(** X23 in the town after two notifications: keeping five, one and none. *)
Lemma clear_old_notifications_spec_witness :
  clear_old_notifications 5 City.informed_town = (Returned 0, City.informed_town) /\
  clear_old_notifications 1 City.informed_town =
    (Returned 1,
     with_service
       (svc_set_notifications [City.second_record] (service City.informed_town))
       City.informed_town) /\
  clear_old_notifications 0 City.informed_town = (Returned 2, City.informed_town).
Proof.
  pose proof (clear_old_notifications_spec 5 City.informed_town) as Hfive.
  pose proof (clear_old_notifications_spec 1 City.informed_town) as Hone.
  pose proof (clear_old_notifications_spec 0 City.informed_town) as Hnone.
  cbv zeta in Hfive, Hone, Hnone.
  destruct Hfive as (Hfive & _ & _). destruct Hone as (_ & Hone & _).
  destruct Hnone as (_ & _ & Hnone).
  split; [apply Hfive; simpl; lia |].
  split; [apply Hone; simpl; lia |].
  apply Hnone; [reflexivity | simpl; lia].
Defined.



(** X26 in the town.  [SL001] was ACTIVE and is switched off; [SL002] is
    under maintenance and stays so, hence the verification is False, and the
    result is a success all the same. *)
Lemma sunrise_routine_spec_witness :
  exists stamp log self' w' t,
    SunriseRoutine_execute City.controller City.sunrise City.town =
      (Returned (RoutineOk "Sunrise Routine" stamp log), self', w') /\
    _devices w' !! "SL001" = Some (switched_off t (Light Demo.SL001_dimmed)) /\
    _devices w' !! "SL002" = Some (Light City.SL002) /\
    _devices w' !! "TS001" = Some (set_cycle_duration 45 (Signal Demo.TS001)) /\
    messages log =
      VStr <$> ["Starting routine"; "Preparation complete";
                "Main operations complete"; "Verification: False";
                "Cleanup complete";
                "Deactivated "
                  +:+ pretty (Z.of_nat (count_devices is_active_light
                                          (_devices City.town)))
                  +:+ " street lights";
                "Routine completed successfully"].
Proof.
  destruct (sunrise_routine_spec City.controller City.sunrise City.town
              town_order_ok town_typed_ok town_ids_ok)
    as (stamp & log & self' & w' & verification & Hrun & Heach & Hverified & Hlog).
  pose proof (Heach "SL001") as Hlamp.
  pose proof (Heach "SL002") as Hbroken.
  pose proof (Heach "TS001") as Hsignal.
  change (_devices City.town !! "SL001") with (Some (Light Demo.SL001_dimmed)) in Hlamp.
  change (_devices City.town !! "SL002") with (Some (Light City.SL002)) in Hbroken.
  change (_devices City.town !! "TS001") with (Some (Signal Demo.TS001)) in Hsignal.
  destruct Hlamp as [t Hlamp]. destruct Hbroken as [t2 Hbroken].
  destruct Hsignal as [t3 Hsignal].
  assert (verification = false) as ->.
  { destruct verification; [| reflexivity].
    destruct Hverified as [Hall _].
    specialize (Hall eq_refl "SL002" City.SL002 Hbroken). discriminate Hall. }
  exists stamp, log, self', w', t. split; [exact Hrun |].
  split; [exact Hlamp |]. split; [exact Hbroken |]. split; [exact Hsignal |].
  exact Hlog.
Defined.

(** X27 in the town: [SL002], under maintenance before, is ACTIVE at full
    brightness afterwards. *)
Lemma sunset_routine_spec_witness :
  exists stamp log self' w' t,
    SunsetRoutine_execute City.controller City.sunset City.town =
      (Returned (RoutineOk "Sunset Routine" stamp log), self', w') /\
    _devices w' !! "SL002" = Some (switched_on t (Light City.SL002)) /\
    _devices w' !! "TS001" = Some (set_cycle_duration 60 (Signal Demo.TS001)) /\
    _devices w' !! "SC001" = Some (Camera Demo.SC001) /\
    length log = 7%nat.
Proof.
  destruct (sunset_routine_spec City.controller City.sunset City.town
              town_order_ok town_typed_ok town_ids_ok)
    as (stamp & log & self' & w' & Hrun & Heach & _ & Hlog).
  pose proof (Heach "SL002") as Hbroken.
  pose proof (Heach "TS001") as Hsignal.
  pose proof (Heach "SC001") as Hcamera.
  change (_devices City.town !! "SL002") with (Some (Light City.SL002)) in Hbroken.
  change (_devices City.town !! "TS001") with (Some (Signal Demo.TS001)) in Hsignal.
  change (_devices City.town !! "SC001") with (Some (Camera Demo.SC001)) in Hcamera.
  destruct Hbroken as [t Hbroken]. destruct Hsignal as [t2 Hsignal].
  destruct Hcamera as [t3 Hcamera].
  exists stamp, log, self', w', t. split; [exact Hrun |].
  split; [exact Hbroken |]. split; [exact Hsignal |]. split; [exact Hcamera |].
  apply (f_equal length) in Hlog. unfold messages in Hlog.
  rewrite !length_fmap in Hlog. exact Hlog.
Defined.

(** X28 in the town: the two street lights; and the town with [SC009],
    which has no device type, registered last. *)
Lemma get_devices_by_type_spec_witness :
  (exists listing,
     CityController_get_devices_by_type "StreetLight" City.controller City.town =
       (Returned listing, City.controller, City.town) /\
     (fun d => dict_get d "device_id" VNone) <$> listing = [VStr "SL001"; VStr "SL002"]) /\
  (exists msg,
     CityController_get_devices_by_type "StreetLight" City.loose_controller
       City.loose_town =
       (Raised (PyException "AttributeError" msg), City.loose_controller,
        City.loose_town)).
Proof.
  pose proof (get_devices_by_type_spec "StreetLight" City.controller City.town)
    as Htown.
  pose proof (get_devices_by_type_spec "StreetLight" City.loose_controller
                City.loose_town) as Hloose.
  cbv zeta in Htown, Hloose.
  destruct Htown as [Htyped _]. destruct Hloose as [_ Huntyped].
  split.
  - eexists. split.
    + apply Htyped.
      change (omap (fun k => _devices City.town !! k) (_device_order City.controller))
        with [Light Demo.SL001_dimmed; Light City.SL002; Signal Demo.TS001;
              Camera Demo.SC001].
      repeat (constructor; [by eexists |]). constructor.
    + vm_compute. reflexivity.
  - apply Huntyped.
    change (omap (fun k => _devices City.loose_town !! k)
              (_device_order City.loose_controller))
      with [Light Demo.SL001_dimmed; Light City.SL002; Signal Demo.TS001;
            Camera Demo.SC001; Camera City.SC009].
    do 4 apply Exists_cons_tl. apply Exists_cons_hd. reflexivity.
Defined.

(** X29 in the town with [SC009] registered, where the sunrise routine
    fails, and with a routine type that does not exist. *)
Lemma execute_routine_endpoint_witness :
  (exists w',
     execute_routine "sunrise" City.loose_controller City.loose_town =
       (Returned (({[ "success" := VBool true;
                      "message" := VStr "sunrise routine executed" ]} : Dict), 200),
        City.loose_controller, w')) /\
  execute_routine "noon" City.controller City.town =
    (Returned (({[ "error" := VStr "Invalid routine type" ]} : Dict), 400),
     City.controller, City.town).
Proof.
  split.
  - apply (execute_routine_endpoint "sunrise" City.loose_controller City.loose_town).
    by left.
  - apply (execute_routine_endpoint "noon" City.controller City.town).
    apply (bool_decide_unpack _). vm_compute. exact I.
Defined.

(** The routine the endpoint ran there: it turned [SL001] off and then
    failed on the object without a device type. *)
Example sunrise_routine_fails_on_untyped_device :
  match SunriseRoutine_execute City.loose_controller SunriseRoutine_new
          City.loose_town with
  | (Returned (RoutineFailed routine error log), _, w') =>
      routine = "Sunrise Routine" /\
      error = "'NoneType' object has no attribute 'value'" /\
      messages log =
        VStr <$> ["Starting routine"; "Preparation complete";
                  "Error: 'NoneType' object has no attribute 'value'"] /\
      Demo.light_state (_devices w' !! "SL001") = Some (INACTIVE, 0)
  | _ => False
  end.
Proof. vm_compute. repeat split; reflexivity. Qed.

(** X30 on the controller with three logged commands: limits 2, 0 and
    -1. *)
Lemma get_command_history_spec_witness :
  CityController_get_command_history 2 City.busy_controller City.town =
    (Returned [City.second_command; City.third_command], City.busy_controller,
     City.town) /\
  CityController_get_command_history 0 City.busy_controller City.town =
    (Returned [City.first_command; City.second_command; City.third_command],
     City.busy_controller, City.town) /\
  CityController_get_command_history (-1) City.busy_controller City.town =
    (Returned [City.second_command; City.third_command], City.busy_controller,
     City.town).
Proof.
  pose proof (get_command_history_spec 2 City.busy_controller City.town) as Htwo.
  pose proof (get_command_history_spec 0 City.busy_controller City.town) as Hzero.
  pose proof (get_command_history_spec (-1) City.busy_controller City.town) as Hneg.
  cbv zeta in Htwo, Hzero, Hneg.
  destruct Htwo as (e2 & Hrun2 & Hpos & _ & _).
  destruct Hzero as (e0 & Hrun0 & _ & Hall & _).
  destruct Hneg as (e1 & Hrun1 & _ & _ & Hfront).
  destruct (Hpos ltac:(lia)) as [-> _]. rewrite (Hall eq_refl) in Hrun0.
  rewrite (Hfront ltac:(lia)) in Hrun1.
  split; [exact Hrun2 |]. split; [exact Hrun0 | exact Hrun1].
Defined.
